(** * Energy-optimised TinyML voice engine (ESP32): shallow embedding

    The firmware in [src/include/config.h] is embedded as pure functions over
    an explicit engine state.  Integers of fixed width are [Z] with their
    wrap-around written out; [float] is IEEE-754 binary32 and [double] is
    binary64, both taken from the Standard Library's executable
    specification [SpecFloat] (round to nearest, ties to even); hardware
    calls are recorded in a trace of events; [esp_deep_sleep_start], which
    never returns, ends the computation in a dedicated outcome. *)

From Stdlib Require Import String.
From Stdlib Require Import ZArith List Bool Lia.
From Stdlib Require Import Floats.SpecFloat.
Import ListNotations.
Open Scope Z_scope.

(** ** Fixed-width integers *)

Definition wrap8 (z : Z) : Z := z mod 2 ^ 8.
Definition wrap32 (z : Z) : Z := z mod 2 ^ 32.

(** ** IEEE-754 arithmetic *)

(** [float]: binary32. *)
Module F32.
Definition prec : Z := 24.
Definition emax : Z := 128.
Definition t := spec_float.
Definition zero : t := S754_zero false.
Definition of_Z (z : Z) : t := binary_normalize prec emax z 0 false.
Definition add : t -> t -> t := SFadd prec emax.
Definition mul : t -> t -> t := SFmul prec emax.
Definition div : t -> t -> t := SFdiv prec emax.
Definition ltb : t -> t -> bool := SFltb.
(** [a > b] of C. *)
Definition gtb (a b : t) : bool := SFltb b a.
(** The decimal literal [n/d] with suffix [f], correctly rounded. *)
Definition lit (n d : Z) : t := div (of_Z n) (of_Z d).
End F32.

(** [double]: binary64. *)
Module F64.
Definition prec : Z := 53.
Definition emax : Z := 1024.
Definition t := spec_float.
Definition of_Z (z : Z) : t := binary_normalize prec emax z 0 false.
Definition mul : t -> t -> t := SFmul prec emax.
Definition div : t -> t -> t := SFdiv prec emax.
Definition lit (n d : Z) : t := div (of_Z n) (of_Z d).
(** Conversion [double -> float] of an assignment. *)
Definition to_f32 (x : t) : F32.t :=
  match x with
  | S754_finite s m e => binary_round F32.prec F32.emax s m e
  | _ => x
  end.
End F64.

(** ** Constants of [config.h] *)

Definition AUDIO_SAMPLE_RATE : Z := 16000.
Definition AUDIO_BUFFER_SIZE : Z := 1024.
Definition INPUT_FEATURES : Z := 1024.
Definition OUTPUT_CLASSES : Z := 4.
Definition CONFIDENCE_THRESHOLD : F32.t := F32.lit 7 10.
Definition CLASS_SILENCE : Z := 0.
Definition LED_PIN : Z := 2.
Definition BUTTON_PIN : Z := 0.
Definition VOICE_DETECTION_THRESHOLD : F32.t := F32.lit 2 1000.
Definition SILENCE_TIMEOUT_MS : Z := 2000.
Definition DEEP_SLEEP_TIMEOUT_MS : Z := 5000.
Definition INFERENCE_SKIP_COUNT : Z := 3.
Definition MIC_LOW_POWER_SAMPLE_RATE : Z := 8000.
Definition MIC_NORMAL_SAMPLE_RATE : Z := 16000.
Definition MIC_BUFFER_REDUCTION : Z := 4.
Definition BATTERY_LOW_VOLTAGE : F32.t := F32.lit 33 10.
(** [ARDUINO_TENSORFLOW_LITE] is defined by the build flags of
    [platformio.ini]. *)
Definition TFLITE_AVAILABLE : bool := true.

Definition MIN (a b : Z) : Z := if a <? b then a else b.

(** ** Enumerations *)

Inductive EnergyMode : Type :=
| ENERGY_ACTIVE
| ENERGY_BALANCED
| ENERGY_ECO
| ENERGY_ULTRA_ECO
| ENERGY_DEEP_SLEEP.

Inductive BatteryLevel : Type :=
| BATTERY_FULL
| BATTERY_GOOD
| BATTERY_LOW
| BATTERY_CRITICAL.

(** The enumerators' values, used by the ordinal comparisons of the code. *)
Definition mode_ord (m : EnergyMode) : Z :=
  match m with
  | ENERGY_ACTIVE => 0
  | ENERGY_BALANCED => 1
  | ENERGY_ECO => 2
  | ENERGY_ULTRA_ECO => 3
  | ENERGY_DEEP_SLEEP => 4
  end.

Definition battery_ord (b : BatteryLevel) : Z :=
  match b with
  | BATTERY_FULL => 0
  | BATTERY_GOOD => 1
  | BATTERY_LOW => 2
  | BATTERY_CRITICAL => 3
  end.

Definition EnergyMode_eqb (a b : EnergyMode) : bool := mode_ord a =? mode_ord b.
Definition BatteryLevel_eqb (a b : BatteryLevel) : bool :=
  battery_ord a =? battery_ord b.

(** The band of a voltage: the [if / else if] chain at the head of
    [update_battery_status]. *)
Definition classify_voltage (v : F32.t) : BatteryLevel :=
  if F32.gtb v (F32.lit 4 1) then BATTERY_FULL
  else if F32.gtb v (F32.lit 37 10) then BATTERY_GOOD
  else if F32.gtb v BATTERY_LOW_VOLTAGE then BATTERY_LOW
  else BATTERY_CRITICAL.

(** [(adc_reading * 3.3 * 2.0) / 4095.0], computed in [double] and stored in
    the [float] field. *)
Definition adc_to_voltage (adc_reading : Z) : F32.t :=
  F64.to_f32
    (F64.div (F64.mul (F64.mul (F64.of_Z adc_reading) (F64.lit 33 10)) (F64.of_Z 2))
             (F64.of_Z 4095)).

(** ** Engine state *)

(** [energy_metrics_t]. *)
Record energy_metrics_t : Type := mk_metrics {
  inference_time_us : Z;          (* uint32_t *)
  mic_active_time_ms : Z;         (* uint32_t *)
  total_sleep_time_ms : Z;        (* uint32_t *)
  power_consumption_mw : F32.t;
  battery_voltage : F32.t;
  battery_level : BatteryLevel;
  confidence : F32.t;
  predicted_class : Z;            (* int *)
  voice_detected : bool;
  total_inferences : Z;           (* uint32_t *)
  skipped_inferences : Z;         (* uint32_t *)
  consecutive_silence : Z         (* uint8_t *)
}.

(** Calls into the platform that the claims observe. *)
Inductive HwEvent : Type :=
| EvSerialBegin (baud : Z)
| EvDelay (ms : Z)
| EvPmConfigure (max_mhz min_mhz : Z) (light_sleep : bool)
| EvRadioOff
| EvAdcConfig
| EvPinSetup
| EvSetCpuFrequencyMhz (mhz : Z)
| EvI2sDriverInstall (sample_rate : Z)
| EvI2sSetPin
| EvI2sDriverUninstall
| EvI2sRead (bytes : Z)
| EvInvoke
| EvDigitalWrite (pin : Z) (high : bool)
| EvFreeBuffers
| EvDeepSleepStart
| EvLightSleep (us : Z)
| EvEnergyReport
| EvEnergyInfo.

(** The private members of [EnergyOptimizedVoiceML], the function-local
    statics of [run] and [should_process_audio], and the trace of platform
    calls (most recent first). *)
Record Engine : Type := mk_engine {
  audio_buffer : list Z;                  (* int16_t[AUDIO_BUFFER_SIZE] *)
  preprocessed_audio : option (list F32.t); (* None: malloc returned NULL *)
  current_buffer_size : Z;                (* uint32_t *)
  current_sample_rate : Z;                (* uint32_t *)
  metrics : energy_metrics_t;
  current_energy_mode : EnergyMode;
  last_activity_time : Z;                 (* unsigned long, 32 bits *)
  last_voice_time : Z;
  mic_start_time : Z;
  mic_active : bool;
  i2s_installed : bool;
  adaptive_mode_enabled : bool;
  inference_skip_counter : Z;             (* uint8_t *)
  tensor_arena : bool;                    (* false: allocation failed *)
  model_loaded : bool;
  last_battery_check : Z;                 (* static in run *)
  last_audio_process : Z;                 (* static in should_process_audio *)
  last_energy_report : Z;                 (* static in run *)
  trace : list HwEvent
}.

(** Field updates. *)
Definition upd_metrics (f : energy_metrics_t -> energy_metrics_t) (s : Engine) : Engine :=
  mk_engine (audio_buffer s) (preprocessed_audio s) (current_buffer_size s)
    (current_sample_rate s) (f (metrics s)) (current_energy_mode s)
    (last_activity_time s) (last_voice_time s) (mic_start_time s) (mic_active s)
    (i2s_installed s) (adaptive_mode_enabled s) (inference_skip_counter s)
    (tensor_arena s) (model_loaded s) (last_battery_check s)
    (last_audio_process s) (last_energy_report s) (trace s).

Definition set_inference_time_us v (m : energy_metrics_t) :=
  mk_metrics v (mic_active_time_ms m) (total_sleep_time_ms m) (power_consumption_mw m)
    (battery_voltage m) (battery_level m) (confidence m) (predicted_class m)
    (voice_detected m) (total_inferences m) (skipped_inferences m) (consecutive_silence m).
Definition set_mic_active_time_ms v (m : energy_metrics_t) :=
  mk_metrics (inference_time_us m) v (total_sleep_time_ms m) (power_consumption_mw m)
    (battery_voltage m) (battery_level m) (confidence m) (predicted_class m)
    (voice_detected m) (total_inferences m) (skipped_inferences m) (consecutive_silence m).
Definition set_total_sleep_time_ms v (m : energy_metrics_t) :=
  mk_metrics (inference_time_us m) (mic_active_time_ms m) v (power_consumption_mw m)
    (battery_voltage m) (battery_level m) (confidence m) (predicted_class m)
    (voice_detected m) (total_inferences m) (skipped_inferences m) (consecutive_silence m).
Definition set_power_consumption_mw v (m : energy_metrics_t) :=
  mk_metrics (inference_time_us m) (mic_active_time_ms m) (total_sleep_time_ms m) v
    (battery_voltage m) (battery_level m) (confidence m) (predicted_class m)
    (voice_detected m) (total_inferences m) (skipped_inferences m) (consecutive_silence m).
Definition set_battery v l (m : energy_metrics_t) :=
  mk_metrics (inference_time_us m) (mic_active_time_ms m) (total_sleep_time_ms m)
    (power_consumption_mw m) v l (confidence m) (predicted_class m)
    (voice_detected m) (total_inferences m) (skipped_inferences m) (consecutive_silence m).
Definition set_prediction c p (m : energy_metrics_t) :=
  mk_metrics (inference_time_us m) (mic_active_time_ms m) (total_sleep_time_ms m)
    (power_consumption_mw m) (battery_voltage m) (battery_level m) c p
    (voice_detected m) (total_inferences m) (skipped_inferences m) (consecutive_silence m).
Definition set_voice_detected v (m : energy_metrics_t) :=
  mk_metrics (inference_time_us m) (mic_active_time_ms m) (total_sleep_time_ms m)
    (power_consumption_mw m) (battery_voltage m) (battery_level m) (confidence m)
    (predicted_class m) v (total_inferences m) (skipped_inferences m) (consecutive_silence m).
Definition set_total_inferences v (m : energy_metrics_t) :=
  mk_metrics (inference_time_us m) (mic_active_time_ms m) (total_sleep_time_ms m)
    (power_consumption_mw m) (battery_voltage m) (battery_level m) (confidence m)
    (predicted_class m) (voice_detected m) v (skipped_inferences m) (consecutive_silence m).
Definition set_skipped_inferences v (m : energy_metrics_t) :=
  mk_metrics (inference_time_us m) (mic_active_time_ms m) (total_sleep_time_ms m)
    (power_consumption_mw m) (battery_voltage m) (battery_level m) (confidence m)
    (predicted_class m) (voice_detected m) (total_inferences m) v (consecutive_silence m).
Definition set_consecutive_silence v (m : energy_metrics_t) :=
  mk_metrics (inference_time_us m) (mic_active_time_ms m) (total_sleep_time_ms m)
    (power_consumption_mw m) (battery_voltage m) (battery_level m) (confidence m)
    (predicted_class m) (voice_detected m) (total_inferences m) (skipped_inferences m) v.

Definition set_audio_buffer v (s : Engine) : Engine :=
  mk_engine v (preprocessed_audio s) (current_buffer_size s)
    (current_sample_rate s) (metrics s) (current_energy_mode s)
    (last_activity_time s) (last_voice_time s) (mic_start_time s) (mic_active s)
    (i2s_installed s) (adaptive_mode_enabled s) (inference_skip_counter s)
    (tensor_arena s) (model_loaded s) (last_battery_check s)
    (last_audio_process s) (last_energy_report s) (trace s).
Definition set_preprocessed_audio v (s : Engine) : Engine :=
  mk_engine (audio_buffer s) v (current_buffer_size s)
    (current_sample_rate s) (metrics s) (current_energy_mode s)
    (last_activity_time s) (last_voice_time s) (mic_start_time s) (mic_active s)
    (i2s_installed s) (adaptive_mode_enabled s) (inference_skip_counter s)
    (tensor_arena s) (model_loaded s) (last_battery_check s)
    (last_audio_process s) (last_energy_report s) (trace s).
Definition set_capture_params rate size (s : Engine) : Engine :=
  mk_engine (audio_buffer s) (preprocessed_audio s) size rate (metrics s)
    (current_energy_mode s)
    (last_activity_time s) (last_voice_time s) (mic_start_time s) (mic_active s)
    (i2s_installed s) (adaptive_mode_enabled s) (inference_skip_counter s)
    (tensor_arena s) (model_loaded s) (last_battery_check s)
    (last_audio_process s) (last_energy_report s) (trace s).
Definition set_current_energy_mode v (s : Engine) : Engine :=
  mk_engine (audio_buffer s) (preprocessed_audio s) (current_buffer_size s)
    (current_sample_rate s) (metrics s) v
    (last_activity_time s) (last_voice_time s) (mic_start_time s) (mic_active s)
    (i2s_installed s) (adaptive_mode_enabled s) (inference_skip_counter s)
    (tensor_arena s) (model_loaded s) (last_battery_check s)
    (last_audio_process s) (last_energy_report s) (trace s).
Definition set_last_activity_time v (s : Engine) : Engine :=
  mk_engine (audio_buffer s) (preprocessed_audio s) (current_buffer_size s)
    (current_sample_rate s) (metrics s) (current_energy_mode s)
    v (last_voice_time s) (mic_start_time s) (mic_active s)
    (i2s_installed s) (adaptive_mode_enabled s) (inference_skip_counter s)
    (tensor_arena s) (model_loaded s) (last_battery_check s)
    (last_audio_process s) (last_energy_report s) (trace s).
Definition set_last_voice_time v (s : Engine) : Engine :=
  mk_engine (audio_buffer s) (preprocessed_audio s) (current_buffer_size s)
    (current_sample_rate s) (metrics s) (current_energy_mode s)
    (last_activity_time s) v (mic_start_time s) (mic_active s)
    (i2s_installed s) (adaptive_mode_enabled s) (inference_skip_counter s)
    (tensor_arena s) (model_loaded s) (last_battery_check s)
    (last_audio_process s) (last_energy_report s) (trace s).
Definition set_mic_start_time v (s : Engine) : Engine :=
  mk_engine (audio_buffer s) (preprocessed_audio s) (current_buffer_size s)
    (current_sample_rate s) (metrics s) (current_energy_mode s)
    (last_activity_time s) (last_voice_time s) v (mic_active s)
    (i2s_installed s) (adaptive_mode_enabled s) (inference_skip_counter s)
    (tensor_arena s) (model_loaded s) (last_battery_check s)
    (last_audio_process s) (last_energy_report s) (trace s).
Definition set_mic_active v (s : Engine) : Engine :=
  mk_engine (audio_buffer s) (preprocessed_audio s) (current_buffer_size s)
    (current_sample_rate s) (metrics s) (current_energy_mode s)
    (last_activity_time s) (last_voice_time s) (mic_start_time s) v
    (i2s_installed s) (adaptive_mode_enabled s) (inference_skip_counter s)
    (tensor_arena s) (model_loaded s) (last_battery_check s)
    (last_audio_process s) (last_energy_report s) (trace s).
Definition set_i2s_installed v (s : Engine) : Engine :=
  mk_engine (audio_buffer s) (preprocessed_audio s) (current_buffer_size s)
    (current_sample_rate s) (metrics s) (current_energy_mode s)
    (last_activity_time s) (last_voice_time s) (mic_start_time s) (mic_active s)
    v (adaptive_mode_enabled s) (inference_skip_counter s)
    (tensor_arena s) (model_loaded s) (last_battery_check s)
    (last_audio_process s) (last_energy_report s) (trace s).
Definition set_inference_skip_counter v (s : Engine) : Engine :=
  mk_engine (audio_buffer s) (preprocessed_audio s) (current_buffer_size s)
    (current_sample_rate s) (metrics s) (current_energy_mode s)
    (last_activity_time s) (last_voice_time s) (mic_start_time s) (mic_active s)
    (i2s_installed s) (adaptive_mode_enabled s) v
    (tensor_arena s) (model_loaded s) (last_battery_check s)
    (last_audio_process s) (last_energy_report s) (trace s).
Definition set_model_loaded v (s : Engine) : Engine :=
  mk_engine (audio_buffer s) (preprocessed_audio s) (current_buffer_size s)
    (current_sample_rate s) (metrics s) (current_energy_mode s)
    (last_activity_time s) (last_voice_time s) (mic_start_time s) (mic_active s)
    (i2s_installed s) (adaptive_mode_enabled s) (inference_skip_counter s)
    (tensor_arena s) v (last_battery_check s)
    (last_audio_process s) (last_energy_report s) (trace s).
Definition set_last_battery_check v (s : Engine) : Engine :=
  mk_engine (audio_buffer s) (preprocessed_audio s) (current_buffer_size s)
    (current_sample_rate s) (metrics s) (current_energy_mode s)
    (last_activity_time s) (last_voice_time s) (mic_start_time s) (mic_active s)
    (i2s_installed s) (adaptive_mode_enabled s) (inference_skip_counter s)
    (tensor_arena s) (model_loaded s) v
    (last_audio_process s) (last_energy_report s) (trace s).
Definition set_last_audio_process v (s : Engine) : Engine :=
  mk_engine (audio_buffer s) (preprocessed_audio s) (current_buffer_size s)
    (current_sample_rate s) (metrics s) (current_energy_mode s)
    (last_activity_time s) (last_voice_time s) (mic_start_time s) (mic_active s)
    (i2s_installed s) (adaptive_mode_enabled s) (inference_skip_counter s)
    (tensor_arena s) (model_loaded s) (last_battery_check s)
    v (last_energy_report s) (trace s).
Definition set_last_energy_report v (s : Engine) : Engine :=
  mk_engine (audio_buffer s) (preprocessed_audio s) (current_buffer_size s)
    (current_sample_rate s) (metrics s) (current_energy_mode s)
    (last_activity_time s) (last_voice_time s) (mic_start_time s) (mic_active s)
    (i2s_installed s) (adaptive_mode_enabled s) (inference_skip_counter s)
    (tensor_arena s) (model_loaded s) (last_battery_check s)
    (last_audio_process s) v (trace s).
Definition emit (e : HwEvent) (s : Engine) : Engine :=
  mk_engine (audio_buffer s) (preprocessed_audio s) (current_buffer_size s)
    (current_sample_rate s) (metrics s) (current_energy_mode s)
    (last_activity_time s) (last_voice_time s) (mic_start_time s) (mic_active s)
    (i2s_installed s) (adaptive_mode_enabled s) (inference_skip_counter s)
    (tensor_arena s) (model_loaded s) (last_battery_check s)
    (last_audio_process s) (last_energy_report s) (e :: trace s).

(** ** Computations that may end in deep sleep *)

(** A member function either returns a value in a new state, or reaches
    [esp_deep_sleep_start] and never returns: the rest of the caller is not
    executed and the device restarts from the top on wake-up. *)
Inductive Outcome (A : Type) : Type :=
| Returned (a : A) (s : Engine)
| DeepSleeping (s : Engine).
Arguments Returned {A} a s.
Arguments DeepSleeping {A} s.

Definition M (A : Type) : Type := Engine -> Outcome A.

Definition ret {A} (a : A) : M A := fun s => Returned a s.
Definition bind {A B} (m : M A) (k : A -> M B) : M B :=
  fun s => match m s with
           | Returned a s' => k a s'
           | DeepSleeping s' => DeepSleeping s'
           end.
Definition get : M Engine := fun s => Returned s s.
Definition modify (f : Engine -> Engine) : M unit := fun s => Returned tt (f s).
Definition call (e : HwEvent) : M unit := modify (emit e).
Definition esp_deep_sleep_start {A} : M A :=
  fun s => DeepSleeping (emit EvDeepSleepStart s).
Definition when (b : bool) (m : M unit) : M unit := if b then m else ret tt.

Declare Scope engine_scope.
Delimit Scope engine_scope with eng.
Notation "x <- m ;; k" := (bind m (fun x => k))
  (at level 61, m at next level, right associativity) : engine_scope.
Notation "m ;; k" := (bind m (fun _ => k))
  (at level 61, right associativity) : engine_scope.
Open Scope engine_scope.

(** The state a computation ends in, whichever way it ends. *)
Definition final {A} (o : Outcome A) : Engine :=
  match o with
  | Returned _ s => s
  | DeepSleeping s => s
  end.

Definition result {A} (o : Outcome A) : option A :=
  match o with
  | Returned a _ => Some a
  | DeepSleeping _ => None
  end.

(** ** Answers of the platform *)

(** What the I2S driver answers when it is (re)installed. *)
Record I2sIO : Type := mk_i2s {
  install_ok : bool;      (* i2s_driver_install returned ESP_OK *)
  set_pin_ok : bool       (* i2s_set_pin returned ESP_OK *)
}.

(** What [i2s_read] and the two [millis] calls around it answer.  The driver
    delivers whole 16-bit samples, so [bytes_read] is twice their number. *)
Record CaptureIO : Type := mk_capture {
  cap_i2s : I2sIO;
  cap_start : Z;          (* millis() before the read *)
  cap_end : Z;            (* millis() after the read *)
  read_ok : bool;         (* i2s_read returned ESP_OK *)
  delivered : list Z      (* the samples written by the driver *)
}.

(** What the interpreter answers: [None] when [Invoke] fails, otherwise the
    output tensor. *)
Record InferIO : Type := mk_infer {
  inf_start : Z;          (* micros() on entry *)
  inf_end : Z;            (* micros() on exit *)
  invoke : option (list F32.t)
}.

(** Everything one call of [run] reads from the outside. *)
Record RunIO : Type := mk_run {
  now : Z;                (* millis() on entry *)
  adc_raw : Z;            (* adc1_get_raw *)
  bat_i2s : I2sIO;        (* driver answers during update_battery_status *)
  button_low : bool;      (* digitalRead(BUTTON_PIN) == LOW *)
  policy_i2s : I2sIO;     (* driver answers during manage_energy_modes *)
  capture : CaptureIO;
  infer : InferIO
}.

(** ** Microphone driver and resources *)

Definition setup_adaptive_i2s (io : I2sIO) : M bool :=
  s <- get ;;
  when (i2s_installed s)
       (call EvI2sDriverUninstall ;; modify (set_i2s_installed false)) ;;
  s <- get ;;
  call (EvI2sDriverInstall (current_sample_rate s)) ;;
  if negb (install_ok io) then ret false
  else
    call EvI2sSetPin ;;
    if negb (set_pin_ok io) then ret false
    else modify (set_i2s_installed true) ;; ret true.

Definition reconfigure_i2s (io : I2sIO) : M unit :=
  s <- get ;;
  when (mic_active s)
       (modify (set_mic_active false) ;;
        _ <- setup_adaptive_i2s io ;;
        modify (set_mic_active true)).

Definition ensure_mic_active (io : I2sIO) : M bool :=
  s <- get ;;
  if mic_active s then ret true
  else
    ok <- setup_adaptive_i2s io ;;
    if negb ok then ret false
    else modify (set_mic_active true) ;; ret true.

Definition cleanup_resources : M unit :=
  s <- get ;;
  when (mic_active s && i2s_installed s)
       (call EvI2sDriverUninstall ;; modify (set_i2s_installed false)) ;;
  modify (set_mic_active false) ;;
  call EvFreeBuffers.

(** ** Energy modes *)

Definition set_power (p : F32.t) : M unit :=
  modify (upd_metrics (set_power_consumption_mw p)).

Definition set_energy_mode (io : I2sIO) (mode : EnergyMode) : M unit :=
  s <- get ;;
  if EnergyMode_eqb (current_energy_mode s) mode then ret tt
  else
    modify (set_current_energy_mode mode) ;;
    match mode with
    | ENERGY_ACTIVE =>
        call (EvSetCpuFrequencyMhz 240) ;;
        modify (set_capture_params AUDIO_SAMPLE_RATE AUDIO_BUFFER_SIZE) ;;
        set_power (F32.lit 180 1)
    | ENERGY_BALANCED =>
        call (EvSetCpuFrequencyMhz 160) ;;
        modify (set_capture_params MIC_NORMAL_SAMPLE_RATE (AUDIO_BUFFER_SIZE / 2)) ;;
        set_power (F32.lit 120 1)
    | ENERGY_ECO =>
        call (EvSetCpuFrequencyMhz 80) ;;
        modify (set_capture_params MIC_LOW_POWER_SAMPLE_RATE (AUDIO_BUFFER_SIZE / 4)) ;;
        set_power (F32.lit 60 1)
    | ENERGY_ULTRA_ECO =>
        call (EvSetCpuFrequencyMhz 40) ;;
        modify (set_capture_params MIC_LOW_POWER_SAMPLE_RATE (AUDIO_BUFFER_SIZE / 8)) ;;
        set_power (F32.lit 25 1)
    | ENERGY_DEEP_SLEEP =>
        cleanup_resources ;;
        esp_deep_sleep_start
    end ;;
    s <- get ;;
    when (mic_active s) (reconfigure_i2s io).

Definition update_battery_status (adc : Z) (io : I2sIO) : M unit :=
  let adc_reading := wrap32 adc in
  let v := adc_to_voltage adc_reading in
  modify (upd_metrics (set_battery v (classify_voltage v))) ;;
  s <- get ;;
  if BatteryLevel_eqb (battery_level (metrics s)) BATTERY_CRITICAL then
    set_energy_mode io ENERGY_DEEP_SLEEP
  else if BatteryLevel_eqb (battery_level (metrics s)) BATTERY_LOW then
    set_energy_mode io ENERGY_ULTRA_ECO
  else ret tt.

Definition manage_energy_modes (current_time : Z) (button : bool) (io : I2sIO) : M unit :=
  s <- get ;;
  let idle_time := wrap32 (current_time - last_activity_time s) in
  let voice_idle_time := wrap32 (current_time - last_voice_time s) in
  if button then
    set_energy_mode io ENERGY_ACTIVE ;;
    modify (set_last_activity_time current_time)
  else if voice_detected (metrics s) then
    modify (set_last_voice_time current_time) ;;
    when (mode_ord (current_energy_mode s) >? mode_ord ENERGY_BALANCED)
         (set_energy_mode io ENERGY_BALANCED)
  else if voice_idle_time >? DEEP_SLEEP_TIMEOUT_MS then
    if battery_ord (battery_level (metrics s)) <=? battery_ord BATTERY_LOW then
      set_energy_mode io ENERGY_DEEP_SLEEP
    else
      set_energy_mode io ENERGY_ULTRA_ECO
  else if idle_time >? SILENCE_TIMEOUT_MS then
    when (mode_ord (current_energy_mode s) <? mode_ord ENERGY_ECO)
         (set_energy_mode io ENERGY_ECO)
  else ret tt.

Definition should_process_audio (current_time : Z) : M bool :=
  s <- get ;;
  if EnergyMode_eqb (current_energy_mode s) ENERGY_ACTIVE then ret true
  else
    let interval :=
      match current_energy_mode s with
      | ENERGY_ECO => 200
      | ENERGY_ULTRA_ECO => 500
      | _ => 100
      end in
    if wrap32 (current_time - last_audio_process s) >=? interval then
      modify (set_last_audio_process current_time) ;; ret true
    else ret false.

(** ** Capture *)

(** The buffer after the driver wrote [got] at its start. *)
Definition write_prefix (got buf : list Z) : list Z :=
  got ++ skipn (length got) buf.

(** [memset(&audio_buffer[from], 0, (upto - from) * sizeof(int16_t))]. *)
Definition zero_range (from upto : Z) (buf : list Z) : list Z :=
  firstn (Z.to_nat from) buf
  ++ repeat 0 (Z.to_nat (upto - from))
  ++ skipn (Z.to_nat upto) buf.

Definition smart_audio_capture (io : CaptureIO) : M bool :=
  ok <- ensure_mic_active (cap_i2s io) ;;
  if negb ok then ret false
  else
    modify (set_mic_start_time (wrap32 (cap_start io))) ;;
    s <- get ;;
    let buffer_bytes := current_buffer_size s * 2 in
    let got := firstn (Z.to_nat (current_buffer_size s)) (delivered io) in
    let bytes_read := 2 * Z.of_nat (length got) in
    call (EvI2sRead buffer_bytes) ;;
    modify (set_audio_buffer (write_prefix got (audio_buffer s))) ;;
    modify (upd_metrics (fun m =>
      set_mic_active_time_ms
        (wrap32 (mic_active_time_ms m + wrap32 (cap_end io - mic_start_time s))) m)) ;;
    if negb (read_ok io) || (bytes_read =? 0) then ret false
    else
      let samples_read := bytes_read / 2 in
      when (samples_read <? current_buffer_size s)
           (modify (fun s' => set_audio_buffer
              (zero_range samples_read (current_buffer_size s) (audio_buffer s')) s')) ;;
      ret true.

(** ** Preprocessing and voice activity detection *)

(** [audio_buffer[i] / 32768.0f]. *)
Definition normalize (x : Z) : F32.t := F32.div (F32.of_Z x) (F32.lit 32768 1).

(** The samples [audio_buffer[0 .. n-1]] read by the loop. *)
Definition window (buf : list Z) (n : Z) : list Z :=
  map (fun i => nth i buf 0) (seq 0 (Z.to_nat n)).

(** The accumulator of the loop: [energy += sample * sample], left to right. *)
Definition sum_squares (xs : list Z) : F32.t :=
  fold_left (fun e x => F32.add e (F32.mul (normalize x) (normalize x))) xs F32.zero.

Definition samples_to_process (s : Engine) : Z :=
  MIN (current_buffer_size s) INPUT_FEATURES.

(** [energy / samples_to_process] after the loop. *)
Definition mean_square_energy (s : Engine) : F32.t :=
  let n := samples_to_process s in
  F32.div (sum_squares (window (audio_buffer s) n)) (F32.of_Z n).

(** The feature buffer after both loops. *)
Definition features (s : Engine) : list F32.t :=
  let n := samples_to_process s in
  map (fun x => F32.mul (normalize x) (F32.lit 1 2)) (window (audio_buffer s) n)
  ++ repeat F32.zero (Z.to_nat (INPUT_FEATURES - n)).

Definition preprocess_audio_efficient : M bool :=
  s <- get ;;
  match preprocessed_audio s with
  | None => ret false
  | Some _ =>
      let energy := mean_square_energy s in
      let voice := F32.gtb energy VOICE_DETECTION_THRESHOLD in
      modify (set_preprocessed_audio (Some (features s))) ;;
      modify (upd_metrics (set_voice_detected voice)) ;;
      (if negb voice then
         modify (upd_metrics (fun m =>
           set_consecutive_silence (wrap8 (consecutive_silence m + 1)) m)) ;;
         s1 <- get ;;
         when (consecutive_silence (metrics s1) >? 10)
              (modify (set_mic_active false) ;;
               when (i2s_installed s1)
                    (call EvI2sDriverUninstall ;; modify (set_i2s_installed false)))
       else
         modify (upd_metrics (set_consecutive_silence 0))) ;;
      ret voice
  end.

(** ** Inference gate *)

Definition should_run_inference : M bool :=
  s <- get ;;
  if EnergyMode_eqb (current_energy_mode s) ENERGY_ACTIVE then ret true
  else
    skip <-
      (if negb (voice_detected (metrics s)) then
         modify (fun s' => set_inference_skip_counter
                   (wrap8 (inference_skip_counter s' + 1)) s') ;;
         s1 <- get ;;
         ret (inference_skip_counter s1 <? INFERENCE_SKIP_COUNT)
       else ret false) ;;
    if skip then ret false
    else modify (set_inference_skip_counter 0) ;; ret true.

(** ** Inference and results *)

(** The scan of the output tensor: [max_prob] and [predicted] after the loop
    over [i = 1 .. OUTPUT_CLASSES - 1]. *)
Definition argmax_scan (out : list F32.t) : F32.t * Z :=
  fold_left
    (fun acc i =>
       let x := nth i out F32.zero in
       if F32.gtb x (fst acc) then (x, Z.of_nat i) else acc)
    (seq 1 (Z.to_nat OUTPUT_CLASSES - 1))
    (nth 0 out F32.zero, 0).

Definition run_energy_inference (io : InferIO) : M bool :=
  s <- get ;;
  ok <-
    (if TFLITE_AVAILABLE then
       if negb (model_loaded s) then
         call (EvDelay 1) ;;
         modify (upd_metrics (set_prediction (F32.lit 8 10) CLASS_SILENCE)) ;;
         ret true
       else
         call EvInvoke ;;
         match invoke io with
         | None => ret false
         | Some out =>
             let r := argmax_scan out in
             modify (upd_metrics (set_prediction (fst r) (snd r))) ;;
             ret true
         end
     else
       modify (upd_metrics (set_prediction (F32.lit 75 100)
                 (if voice_detected (metrics s) then 1 else 0))) ;;
       ret true) ;;
  if negb ok then ret false
  else
    modify (upd_metrics (set_inference_time_us
              (wrap32 (inf_end io - wrap32 (inf_start io))))) ;;
    ret true.

Definition process_results_efficient : M unit :=
  s <- get ;;
  when (F32.gtb (confidence (metrics s)) CONFIDENCE_THRESHOLD)
       (when (predicted_class (metrics s) >? 0)
             (call (EvDigitalWrite LED_PIN true) ;;
              call (EvDelay 50) ;;
              call (EvDigitalWrite LED_PIN false))).

(** ** Sleep and reporting *)

Definition adaptive_sleep : M unit :=
  s <- get ;;
  match current_energy_mode s with
  | ENERGY_ACTIVE => call (EvDelay 5)
  | ENERGY_BALANCED => call (EvDelay 10)
  | ENERGY_ECO => call (EvDelay 50)
  | ENERGY_ULTRA_ECO =>
      if negb (voice_detected (metrics s)) && (consecutive_silence (metrics s) >? 5) then
        call (EvLightSleep (100 * 1000)) ;;
        modify (upd_metrics (fun m =>
          set_total_sleep_time_ms (wrap32 (total_sleep_time_ms m + 100)) m))
      else call (EvDelay 100)
  | ENERGY_DEEP_SLEEP => call (EvDelay 10)
  end.

Definition print_energy_report : M unit :=
  s <- get ;;
  if (total_inferences (metrics s) =? 0) && (skipped_inferences (metrics s) =? 0)
  then ret tt
  else call EvEnergyReport.

(** ** One cycle *)

(** The three parts of the body of [run], in program order: the battery
    refresh, the mode policy and the decision to process audio; the capture,
    preprocessing and inference pipeline; the report and the sleep. *)
Definition run_policy (io : RunIO) : M bool :=
  let current_time := wrap32 (now io) in
  s <- get ;;
  when (wrap32 (current_time - last_battery_check s) >? 30000)
       (update_battery_status (adc_raw io) (bat_i2s io) ;;
        modify (set_last_battery_check current_time)) ;;
  manage_energy_modes current_time (button_low io) (policy_i2s io) ;;
  should_process_audio current_time.

Definition run_inference_stage (io : RunIO) : M unit :=
  let current_time := wrap32 (now io) in
  go <- should_run_inference ;;
  if go then
    done <- run_energy_inference (infer io) ;;
    when done
      (process_results_efficient ;;
       modify (upd_metrics (fun m =>
         set_total_inferences (wrap32 (total_inferences m + 1)) m)) ;;
       modify (set_last_activity_time current_time))
  else
    modify (upd_metrics (fun m =>
      set_skipped_inferences (wrap32 (skipped_inferences m + 1)) m)).

Definition run_pipeline (io : RunIO) : M unit :=
  captured <- smart_audio_capture (capture io) ;;
  when captured
    (voice <- preprocess_audio_efficient ;;
     when voice (run_inference_stage io)).

Definition run_epilogue (io : RunIO) : M unit :=
  let current_time := wrap32 (now io) in
  s <- get ;;
  when (wrap32 (current_time - last_energy_report s) >? 15000)
       (print_energy_report ;;
        modify (set_last_energy_report current_time)) ;;
  adaptive_sleep.

Definition run (io : RunIO) : M unit :=
  due <- run_policy io ;;
  when due (run_pipeline io) ;;
  run_epilogue io.

(** ** Construction and initialisation *)

(** What the constructor reads: the two [millis] calls, the memory it is
    handed (allocated blocks and the member it leaves uninitialised hold
    whatever the heap held) and whether the tensor arena could be allocated. *)
Record BootIO : Type := mk_boot {
  boot_millis_activity : Z;
  boot_millis_voice : Z;
  heap_audio : list Z;                    (* contents of the fresh audio buffer *)
  heap_features : option (list F32.t);    (* None: malloc returned NULL *)
  heap_mic_start : Z;                     (* mic_start_time is not initialised *)
  arena_allocated : bool
}.

Definition zero_metrics : energy_metrics_t :=
  mk_metrics 0 0 0 F32.zero F32.zero BATTERY_FULL F32.zero 0 false 0 0 0.

(** [EnergyOptimizedVoiceML()]. *)
Definition construct (io : BootIO) : Engine :=
  mk_engine
    (heap_audio io)
    (heap_features io)
    (AUDIO_BUFFER_SIZE / MIC_BUFFER_REDUCTION)
    MIC_LOW_POWER_SAMPLE_RATE
    zero_metrics
    ENERGY_ULTRA_ECO
    (wrap32 (boot_millis_activity io))
    (wrap32 (boot_millis_voice io))
    (wrap32 (heap_mic_start io))
    false false true
    0
    (arena_allocated io)
    false
    0 0 0
    [].

Definition setup_power_management : M unit :=
  call (EvPmConfigure 80 10 true) ;;
  call EvRadioOff.

Definition setup_battery_monitoring : M unit := call EvAdcConfig.

Definition setup_energy_efficient_pins : M unit :=
  call EvPinSetup ;;
  call (EvDigitalWrite LED_PIN false).

(** What the interpreter answers while the model is loaded. *)
Record TfSetupIO : Type := mk_tfsetup {
  version_ok : bool;      (* model->version() == TFLITE_SCHEMA_VERSION *)
  allocate_ok : bool      (* AllocateTensors() == kTfLiteOk *)
}.

Definition setup_energy_tensorflow (io : TfSetupIO) : M bool :=
  s <- get ;;
  if negb (tensor_arena s) then ret false
  else if negb (version_ok io) then ret false
  else if negb (allocate_ok io) then ret false
  else modify (set_model_loaded true) ;; ret true.

Record InitIO : Type := mk_init {
  init_adc : Z;
  init_bat_i2s : I2sIO;
  init_tf : TfSetupIO;
  init_mode_i2s : I2sIO
}.

Definition initialize (io : InitIO) : M bool :=
  call (EvSerialBegin 115200) ;;
  call (EvDelay 500) ;;
  setup_power_management ;;
  setup_battery_monitoring ;;
  update_battery_status (init_adc io) (init_bat_i2s io) ;;
  setup_energy_efficient_pins ;;
  when TFLITE_AVAILABLE (_ <- setup_energy_tensorflow (init_tf io) ;; ret tt) ;;
  set_energy_mode (init_mode_i2s io) ENERGY_ULTRA_ECO ;;
  call EvEnergyInfo ;;
  ret true.

(** ** Energy calibrator *)

Record EnergyCalibrator : Type := mk_calibrator {
  baseline_consumption : F32.t;
  calibration_samples : Z;       (* uint32_t *)
  calibrated : bool
}.

(** [EnergyCalibrator()]. *)
Definition new_calibrator : EnergyCalibrator := mk_calibrator F32.zero 0 false.

Definition add_sample (consumption : F32.t) (c : EnergyCalibrator) : EnergyCalibrator :=
  if calibration_samples c <? 100 then
    let b := F32.add (baseline_consumption c) consumption in
    let n := wrap32 (calibration_samples c + 1) in
    if n =? 100 then mk_calibrator (F32.div b (F32.of_Z 100)) n true
    else mk_calibrator b n (calibrated c)
  else c.

Definition is_calibrated (c : EnergyCalibrator) : bool := calibrated c.
Definition get_baseline (c : EnergyCalibrator) : F32.t := baseline_consumption c.

Definition calculate_efficiency (current_consumption : F32.t) (c : EnergyCalibrator) : F32.t :=
  if negb (calibrated c) then F32.zero
  else F32.mul (F32.div (baseline_consumption c) current_consumption) (F32.of_Z 100).

(** [add_sample] called once per element, in order. *)
Definition add_samples (xs : list F32.t) (c : EnergyCalibrator) : EnergyCalibrator :=
  fold_left (fun c x => add_sample x c) xs c.

(** ** Application entry *)



(** ** Energy profiles *)

Record energy_profile_t : Type := mk_profile {
  profile_name : string;
  cpu_freq : Z;
  sample_rate : Z;
  buffer_divisor : Z;
  sleep_interval : Z;
  expected_power_mw : F32.t
}.

Definition energy_profiles : list energy_profile_t :=
  [mk_profile "PERFORMANCE"%string 240 16000 1 5 (F32.lit 180 1);
   mk_profile "BALANCED"%string 160 16000 2 10 (F32.lit 120 1);
   mk_profile "ECO"%string 80 8000 4 50 (F32.lit 60 1);
   mk_profile "ULTRA_ECO"%string 40 8000 8 100 (F32.lit 25 1);
   mk_profile "SURVIVAL"%string 20 4000 16 500 (F32.lit 15 1)].

(** [apply_energy_profile]: the platform calls it makes.  The index is an
    [int]; the second test compares it, converted to [size_t], with the
    number of profiles. *)
Definition apply_energy_profile (profile_index : Z) : list HwEvent :=
  if (profile_index <? 0)
     || (wrap32 profile_index >=? Z.of_nat (length energy_profiles))
  then []
  else
    match nth_error energy_profiles (Z.to_nat profile_index) with
    | Some profile => [EvSetCpuFrequencyMhz (cpu_freq profile)]
    | None => []
    end.

(** ** Dynamic optimisation *)

(** [ESP.restart] does not return; otherwise the call returns with the
    static counter advanced and, every 50 cycles, a low-memory warning when
    less than 50000 bytes are free. *)
Inductive Optimized : Type :=
| Restarted
| Continued (optimization_counter : Z) (low_memory_warning : bool).

Definition dynamic_optimization (free_heap : Z) (optimization_counter : Z) : Optimized :=
  let counter := wrap32 (optimization_counter + 1) in
  if counter mod 100 =? 0 then Restarted
  else Continued counter ((counter mod 50 =? 0) && (wrap32 free_heap <? 50000)).

(** [n] calls in a row since boot (the static counter starts at 0), with the
    free heap read at each call: the counter reached, or [None] once the
    device has restarted, and the number of warnings printed. *)
Fixpoint optimization_cycles (heaps : list Z) (counter : Z) : option Z * nat :=
  match heaps with
  | [] => (Some counter, O)
  | h :: rest =>
      match dynamic_optimization h counter with
      | Restarted => (None, O)
      | Continued c w =>
          let r := optimization_cycles rest c in
          (fst r, if w then S (snd r) else snd r)
      end
  end.

(** ** Advanced energy statistics *)

Record advanced_energy_stats_t : Type := mk_stats {
  total_runtime_ms : Z;           (* uint32_t *)
  active_time_ms : Z;             (* uint32_t *)
  sleep_time_ms : Z;              (* uint32_t *)
  deep_sleep_count : Z;           (* uint32_t *)
  average_power_mw : F32.t;
  peak_power_mw : F32.t;
  energy_consumed_mwh : F32.t;
  battery_cycles : Z              (* uint32_t *)
}.

(** [advanced_energy_stats_t energy_stats = {0}]. *)
Definition energy_stats_zero : advanced_energy_stats_t :=
  mk_stats 0 0 0 0 F32.zero F32.zero F32.zero 0.

Definition update_energy_statistics (current_power : F32.t) (duration_ms : Z)
    (st : advanced_energy_stats_t) : advanced_energy_stats_t :=
  let duration := wrap32 duration_ms in
  let energy_increment :=
    F32.div (F32.mul current_power (F32.of_Z duration)) (F32.lit 3600000 1) in
  mk_stats
    (wrap32 (total_runtime_ms st + duration))
    (wrap32 (active_time_ms st + duration))
    (sleep_time_ms st)
    (deep_sleep_count st)
    (F32.add (F32.mul (average_power_mw st) (F32.lit 9 10))
             (F32.mul current_power (F32.lit 1 10)))
    (if F32.gtb current_power (peak_power_mw st) then current_power
     else peak_power_mw st)
    (F32.add (energy_consumed_mwh st) energy_increment)
    (battery_cycles st).

(** [update_energy_statistics] called once per reading, in order. *)
Definition record_readings (rs : list (F32.t * Z))
    (st : advanced_energy_stats_t) : advanced_energy_stats_t :=
  fold_left (fun st r => update_energy_statistics (fst r) (snd r) st) rs st.

(** The sleep efficiency printed by [print_advanced_energy_stats]:
    [(float)sleep_time_ms / total_runtime_ms * 100]. *)
Definition sleep_efficiency (st : advanced_energy_stats_t) : F32.t :=
  F32.mul (F32.div (F32.of_Z (sleep_time_ms st)) (F32.of_Z (total_runtime_ms st)))
          (F32.of_Z 100).

(** ** Notions used by the further properties *)

(** An order-preserving key of the binary32 values other than NaN: the
    comparison of two values is the lexicographic comparison of their keys. *)
Definition float_key (x : spec_float) : Z * Z * Z :=
  match x with
  | S754_infinity true => (-2, 0, 0)
  | S754_finite true m e => (-1, - e, - Zpos m)
  | S754_zero _ => (0, 0, 0)
  | S754_nan => (0, 0, 0)
  | S754_finite false m e => (1, e, Zpos m)
  | S754_infinity false => (2, 0, 0)
  end.

Definition key_lt (a b : Z * Z * Z) : Prop :=
  let '(a1, a2, a3) := a in
  let '(b1, b2, b3) := b in
  a1 < b1 \/ (a1 = b1 /\ (a2 < b2 \/ (a2 = b2 /\ a3 < b3))).

Definition not_nan (x : spec_float) : Prop := x <> S754_nan.

(** Zero, positive or NaN: what a sum of squares can be. *)
Definition unsigned_value (x : spec_float) : Prop :=
  match x with
  | S754_zero s | S754_infinity s | S754_finite s _ _ => s = false
  | S754_nan => True
  end.

(** [preserves P m]: running [m] from a state that satisfies [P] ends in a
    state that satisfies [P], whether [m] returns or ends in deep sleep. *)
Definition preserves {A : Type} (P : Engine -> Prop) (m : M A) : Prop :=
  forall s, P s -> P (final (m s)).

(** The driver is marked installed only while the microphone is marked
    active. *)
Definition driver_tracked (s : Engine) : Prop :=
  i2s_installed s = true -> mic_active s = true.

(** Minimum time between two passes of audio processing in a mode. *)
Definition process_interval (m : EnergyMode) : Z :=
  match m with
  | ENERGY_ECO => 200
  | ENERGY_ULTRA_ECO => 500
  | _ => 100
  end.

(** The battery band of a raw 12-bit reading. *)
Definition band_of_reading (raw : Z) : BatteryLevel :=
  if raw <=? 2047 then BATTERY_CRITICAL
  else if raw <=? 2295 then BATTERY_LOW
  else if raw <=? 2481 then BATTERY_GOOD
  else BATTERY_FULL.

(** The operating point that [set_energy_mode] applies for an awake mode:
    CPU frequency, sample rate, buffer size and nominal power. *)
Definition operating_point (m : EnergyMode) : Z * Z * Z * F32.t :=
  match m with
  | ENERGY_ACTIVE => (240, 16000, 1024, F32.lit 180 1)
  | ENERGY_BALANCED => (160, 16000, 512, F32.lit 120 1)
  | ENERGY_ECO => (80, 8000, 256, F32.lit 60 1)
  | _ => (40, 8000, 128, F32.lit 25 1)
  end.

Definition is_led_write (e : HwEvent) : bool :=
  match e with
  | EvDigitalWrite _ true => true
  | _ => false
  end.

Definition total (s : Engine) : Z := total_inferences (metrics s).

Definition driver_flags (s : Engine) : bool * bool := (mic_active s, i2s_installed s).

Definition is_i2s_read (e : HwEvent) : bool :=
  match e with
  | EvI2sRead _ => true
  | _ => false
  end.

(** What the battery refresh writes. *)
Definition battery_record (s : Engine) : F32.t * BatteryLevel * Z :=
  (battery_voltage (metrics s), battery_level (metrics s), last_battery_check s).

(** A driver that cannot be installed. *)
Definition driver_broken : I2sIO := mk_i2s false true.

(** What the policy reads besides the clock and the button. *)
Definition policy_inputs (s : Engine) : Z * bool * BatteryLevel :=
  (last_voice_time s, voice_detected (metrics s), battery_level (metrics s)).

(** ** Notions used by the statements *)

(** The voltages of the boundary table and the levels the table expects. *)
Definition boundary_voltages : list F32.t :=
  [F32.lit 41 10; F32.lit 4 1; F32.lit 39 10; F32.lit 371 100; F32.lit 37 10;
   F32.lit 35 10; F32.lit 331 100; F32.lit 33 10; F32.lit 3 1; F32.lit 29 10].

Definition boundary_levels_expected : list BatteryLevel :=
  [BATTERY_FULL; BATTERY_GOOD; BATTERY_GOOD; BATTERY_GOOD; BATTERY_GOOD;
   BATTERY_LOW; BATTERY_LOW; BATTERY_LOW; BATTERY_CRITICAL; BATTERY_CRITICAL].

Definition boundary_levels_actual : list BatteryLevel :=
  [BATTERY_FULL; BATTERY_GOOD; BATTERY_GOOD; BATTERY_GOOD; BATTERY_LOW;
   BATTERY_LOW; BATTERY_LOW; BATTERY_CRITICAL; BATTERY_CRITICAL; BATTERY_CRITICAL].

(** [n] consecutive calls of a member function: the values returned and the
    state reached (the calls stop if the device enters deep sleep). *)
Fixpoint repeat_calls {A} (m : M A) (n : nat) (s : Engine) : list A * Engine :=
  match n with
  | O => ([], s)
  | S k =>
      match m s with
      | Returned a s' => let r := repeat_calls m k s' in (a :: fst r, snd r)
      | DeepSleeping s' => ([], s')
      end
  end.

(** One round of the gate under silence. *)
Definition skip_pattern : list bool := [false; false; true].

(** The running sum [baseline_consumption += x], left to right. *)
Definition running_sum (xs : list F32.t) (b : F32.t) : F32.t :=
  fold_left F32.add xs b.

(** [keeps f m]: running [m] leaves the observation [f] of the engine as it
    was, whether [m] returns or ends in deep sleep. *)
Definition keeps {X A : Type} (f : Engine -> X) (m : M A) : Prop :=
  forall s, f (final (m s)) = f s.

(** The three counters that the inference gate and its callers write. *)
Definition inference_counters (s : Engine) : Z * Z * Z :=
  (skipped_inferences (metrics s), total_inferences (metrics s),
   inference_skip_counter s).

(** The run-length of silent passes. *)
Definition silence_count (s : Engine) : Z := consecutive_silence (metrics s).

(** The pass sees no voice in the buffer it is given. *)
Definition silent (s : Engine) : Prop :=
  F32.gtb (mean_square_energy s) VOICE_DETECTION_THRESHOLD = false.

(** A stretch of execution that contains exactly [n] preprocessing passes,
    all of them silent, between any code that leaves the counter alone. *)
Inductive silent_run : nat -> Engine -> Engine -> Prop :=
| silent_run_start (s : Engine) : silent_run 0 s s
| silent_run_other (n : nat) (s s1 s2 : Engine) :
    silent_run n s s1 ->
    silence_count s2 = silence_count s1 ->
    silent_run n s s2
| silent_run_pass (n : nat) (s s1 : Engine) (old : list F32.t) :
    silent_run n s s1 ->
    preprocessed_audio s1 = Some old ->
    silent s1 ->
    silent_run (S n) s (final (preprocess_audio_efficient s1)).

(** [n] passes in a row over the same buffer. *)
Fixpoint passes (n : nat) (s : Engine) : Engine :=
  match n with
  | O => s
  | S k => final (preprocess_audio_efficient (passes k s))
  end.

(** Calls of [setCpuFrequencyMhz]. *)
Definition is_cpu_frequency_set (e : HwEvent) : bool :=
  match e with
  | EvSetCpuFrequencyMhz _ => true
  | _ => false
  end.

(** The counter of skipped inferences. *)
Definition skipped (s : Engine) : Z := skipped_inferences (metrics s).

(** ** Concrete devices and inputs *)

(** A device whose allocations succeed, booted at [millis() = 0]. *)
Definition demo_boot : BootIO :=
  mk_boot 0 0 (repeat 0 1024%nat) (Some (repeat F32.zero 1024%nat)) 0 true.

Definition fresh : Engine := construct demo_boot.

Definition driver_ok : I2sIO := mk_i2s true true.

(** After [initialize] with an ADC reading of 2600 (4.19 V, FULL). *)
Definition booted : Engine :=
  final (initialize (mk_init 2600 driver_ok (mk_tfsetup true true) driver_ok) fresh).

(** A buffer whose energy is exactly the threshold, and one at 0.0021f. *)
Definition at_threshold : Engine :=
  set_audio_buffer ([23444; 367] ++ repeat 0 1022%nat) fresh.


(** A cycle at time [t] in which the microphone delivers 256 zero samples. *)
Definition silent_cycle (t : Z) : RunIO :=
  mk_run t 2600 driver_ok false driver_ok
    (mk_capture driver_ok t (t + 10) true (repeat 0 256%nat))
    (mk_infer 0 10 None).

(** An engine in ECO whose battery field holds CRITICAL. *)
Definition critical_in_eco : Engine :=
  upd_metrics (set_battery (F32.lit 32 10) BATTERY_CRITICAL)
    (set_current_energy_mode ENERGY_ECO fresh).

Definition five_samples : list F32.t := repeat (F32.of_Z 5) 100%nat.

(** The fresh engine switched to ACTIVE. *)
Definition fresh_active : Engine := set_current_energy_mode ENERGY_ACTIVE fresh.

(** The microphone running and 255 silent passes counted. *)
Definition about_to_wrap : Engine :=
  upd_metrics (set_consecutive_silence 255)
    (set_i2s_installed true (set_mic_active true fresh)).

(** The fresh engine with the microphone running. *)
Definition mic_running : Engine := set_i2s_installed true (set_mic_active true fresh).

(** The fresh engine after a pass that detected voice. *)
Definition voiced : Engine := upd_metrics (set_voice_detected true) fresh.

(** The fresh engine moved to BALANCED. *)
Definition balanced : Engine := final (set_energy_mode driver_ok ENERGY_BALANCED fresh).

(** A read that delivers three samples. *)
Definition short_read : CaptureIO :=
  mk_capture driver_ok 1000 1010 true [100; -200; 300].

(** Four scores with a tie for the maximum at the indices 1 and 3. *)
Definition tied_scores : list F32.t :=
  [F32.lit 1 10; F32.lit 9 10; F32.lit 2 10; F32.lit 9 10].

(** A model is loaded and voice was detected. *)
Definition loaded_voiced : Engine :=
  upd_metrics (set_voice_detected true) (set_model_loaded true fresh).

(** A cycle at time [t] in which the microphone delivers 256 loud samples. *)
Definition loud_cycle (t : Z) : RunIO :=
  mk_run t 2600 driver_ok false driver_ok
    (mk_capture driver_ok t (t + 10) true (repeat 20000 256%nat))
    (mk_infer 0 10 None).

Arguments mean_square_energy : simpl never.
Arguments features : simpl never.

(** * Properties *)

(** ** Comparisons of binary32 values *)

Section FloatOrder.

Lemma gtb_finite (m mc : positive) (e ec : Z) :
  F32.gtb (S754_finite false m e) (S754_finite false mc ec) = true
  <-> ec < e \/ (ec = e /\ (mc < m)%positive).
Proof.
  unfold F32.gtb, SFltb; cbn [SFcompare].
  change (Pos.compare_cont Eq mc m) with (Pos.compare mc m).
  destruct (Z.compare_spec ec e) as [He | He | He].
  - destruct (Pos.compare_spec mc m) as [Hm | Hm | Hm]; split;
      intros H; try discriminate; try reflexivity; try lia.
  - split; [intros _; lia | reflexivity].
  - split; [discriminate | lia].
Qed.

(** [v > c] can only get easier when the positive bound [c] decreases. *)
Lemma gtb_weaken (v : F32.t) (m1 m2 : positive) (e1 e2 : Z) :
  e1 < e2 \/ (e1 = e2 /\ (m1 <= m2)%positive) ->
  F32.gtb v (S754_finite false m2 e2) = true ->
  F32.gtb v (S754_finite false m1 e1) = true.
Proof.
  intros Hle.
  destruct v as [s | s | | s m e]; try (destruct s); try (intros H; exact H).
  rewrite !gtb_finite. lia.
Qed.

(** Off NaN, "not greater" is "less or equal". *)
Lemma gtb_negb_leb (v : F32.t) (mc : positive) (ec : Z) :
  v <> S754_nan ->
  F32.gtb v (S754_finite false mc ec) = negb (SFleb v (S754_finite false mc ec)).
Proof.
  intros Hnan.
  destruct v as [s | s | | s m e]; try (destruct s); try reflexivity;
    try congruence.
  unfold F32.gtb, SFltb, SFleb; cbn [SFcompare].
  change (Pos.compare_cont Eq mc m) with (Pos.compare mc m).
  change (Pos.compare_cont Eq m mc) with (Pos.compare m mc).
  rewrite (Z.compare_antisym ec e), (Pos.compare_antisym mc m).
  destruct (ec ?= e); cbn; try reflexivity.
  destruct (mc ?= m)%positive; reflexivity.
Qed.


End FloatOrder.

(** The three breakpoints as bit patterns. *)
Lemma lit_4_0 : F32.lit 4 1 = S754_finite false 8388608 (-21).
Proof. vm_compute. reflexivity. Qed.

Lemma lit_3_7 : F32.lit 37 10 = S754_finite false 15518925 (-22).
Proof. vm_compute. reflexivity. Qed.

Lemma lit_3_3 : BATTERY_LOW_VOLTAGE = S754_finite false 13841203 (-22).
Proof. vm_compute. reflexivity. Qed.

(** ** Battery classification *)

Section Battery.

Lemma above_4_0_above_3_7 v :
  F32.gtb v (F32.lit 4 1) = true -> F32.gtb v (F32.lit 37 10) = true.
Proof. rewrite lit_4_0, lit_3_7. apply gtb_weaken. lia. Qed.

Lemma above_3_7_above_3_3 v :
  F32.gtb v (F32.lit 37 10) = true -> F32.gtb v BATTERY_LOW_VOLTAGE = true.
Proof. rewrite lit_3_7, lit_3_3. apply gtb_weaken. lia. Qed.

(** C3, as stated, fails: on the table of the claim the classifier does not
    return the expected levels; the boundary voltages 3.7 and 3.3 fall into
    LOW and CRITICAL, not into GOOD and LOW. *)
Lemma classify_voltage_table_differs :
  map classify_voltage boundary_voltages <> boundary_levels_expected
  /\ classify_voltage (F32.lit 37 10) = BATTERY_LOW
  /\ classify_voltage (F32.lit 33 10) = BATTERY_CRITICAL.
Proof.
  split; [ | split]; vm_compute; [discriminate | reflexivity | reflexivity].
Qed.

(** C3, amended: for every binary32 voltage the classifier returns FULL iff
    [v > 4.0f], GOOD iff [3.7f < v <= 4.0f], LOW iff [3.3f < v <= 3.7f] and
    CRITICAL iff [v <= 3.3f] or [v] is NaN; on the ten voltages of the table
    it returns FULL, GOOD, GOOD, GOOD, LOW, LOW, LOW, CRITICAL, CRITICAL,
    CRITICAL, each boundary value falling into the lower band. *)
Theorem classify_voltage_bands :
  (forall v,
      (classify_voltage v = BATTERY_FULL <-> F32.gtb v (F32.lit 4 1) = true)
      /\ (classify_voltage v = BATTERY_GOOD
          <-> F32.gtb v (F32.lit 37 10) = true /\ SFleb v (F32.lit 4 1) = true)
      /\ (classify_voltage v = BATTERY_LOW
          <-> F32.gtb v BATTERY_LOW_VOLTAGE = true /\ SFleb v (F32.lit 37 10) = true)
      /\ (classify_voltage v = BATTERY_CRITICAL
          <-> SFleb v BATTERY_LOW_VOLTAGE = true \/ v = S754_nan))
  /\ map classify_voltage boundary_voltages = boundary_levels_actual.
Proof.
  split; [ | vm_compute; reflexivity].
  intros v.
  destruct v as [s | s | | s m e] eqn:Ev.
  4: {
    assert (Hnan : v <> S754_nan) by (rewrite Ev; discriminate).
    rewrite <- Ev in *. clear Ev.
    pose proof (above_4_0_above_3_7 v) as H47.
    pose proof (above_3_7_above_3_3 v) as H73.
    pose proof (gtb_negb_leb v 8388608 (-21) Hnan) as L4.
    pose proof (gtb_negb_leb v 15518925 (-22) Hnan) as L7.
    pose proof (gtb_negb_leb v 13841203 (-22) Hnan) as L3.
    rewrite <- lit_4_0 in L4. rewrite <- lit_3_7 in L7. rewrite <- lit_3_3 in L3.
    unfold classify_voltage.
    rewrite L4, L7, L3 in *.
    destruct (SFleb v (F32.lit 4 1)); destruct (SFleb v (F32.lit 37 10));
      destruct (SFleb v BATTERY_LOW_VOLTAGE); cbn [negb] in *;
      try (specialize (H47 eq_refl); discriminate);
      try (specialize (H73 eq_refl); discriminate);
      intuition congruence.
  }
  all: try (destruct s); vm_compute; intuition congruence.
Qed.

End Battery.

(** ** Mode transitions *)

Section Modes.

Lemma EnergyMode_eqb_refl (m : EnergyMode) : EnergyMode_eqb m m = true.
Proof. unfold EnergyMode_eqb. apply Z.eqb_refl. Qed.

Lemma EnergyMode_eqb_eq (a b : EnergyMode) : EnergyMode_eqb a b = true <-> a = b.
Proof. destruct a, b; cbv; split; intros H; congruence. Qed.

(** The early [return] of [set_energy_mode]. *)
Lemma set_energy_mode_noop (io : I2sIO) (s : Engine) :
  set_energy_mode io (current_energy_mode s) s = Returned tt s.
Proof.
  unfold set_energy_mode, bind, get.
  rewrite EnergyMode_eqb_refl. reflexivity.
Qed.

(** C6: a transition to the current mode changes nothing: the call returns
    in the very same state, so sample rate, buffer size, power figure and
    mode are unchanged, and the trace of platform calls gains no event (no
    I2S reconfiguration, no CPU-frequency change). *)
Theorem set_energy_mode_idempotent (io : I2sIO) (s : Engine) :
  let o := set_energy_mode io (current_energy_mode s) s in
  o = Returned tt s
  /\ current_sample_rate (final o) = current_sample_rate s
  /\ current_buffer_size (final o) = current_buffer_size s
  /\ power_consumption_mw (metrics (final o)) = power_consumption_mw (metrics s)
  /\ current_energy_mode (final o) = current_energy_mode s
  /\ trace (final o) = trace s.
Proof.
  cbv zeta. rewrite set_energy_mode_noop. cbn [final]. repeat split.
Qed.

End Modes.

(** ** Inference gate *)

Section Gate.

Lemma gate_three_more (n : nat) (s : Engine) :
  current_energy_mode s <> ENERGY_ACTIVE ->
  voice_detected (metrics s) = false ->
  inference_skip_counter s = 0 ->
  repeat_calls should_run_inference (S (S (S n))) s
  = (skip_pattern ++ fst (repeat_calls should_run_inference n s),
     snd (repeat_calls should_run_inference n s)).
Proof.
  destruct s as [ab pa bs sr [m1 m2 m3 m4 m5 m6 m7 m8 vd m10 m11 m12]
                   mode t1 t2 t3 ma ii am ctr ta ml b1 b2 b3 tr].
  cbn [current_energy_mode voice_detected metrics inference_skip_counter].
  intros Hmode Hvoice Hctr. subst vd ctr.
  destruct mode; try contradiction; reflexivity.
Qed.

Lemma gate_active (s : Engine) :
  current_energy_mode s = ENERGY_ACTIVE ->
  should_run_inference s = Returned true s.
Proof.
  intros H. unfold should_run_inference, bind, get. rewrite H.
  reflexivity.
Qed.

(** C4: outside ACTIVE, with no voice detected and the skip counter at
    zero, three consecutive calls of the gate return false, false, true and
    leave the engine in the state it started from (skip counter back at
    zero), so the pattern repeats for any number of rounds; in ACTIVE mode
    every call returns true. *)
Theorem should_run_inference_skip_cycle (s : Engine)
    (Hmode : current_energy_mode s <> ENERGY_ACTIVE)
    (Hvoice : voice_detected (metrics s) = false)
    (Hctr : inference_skip_counter s = 0) :
  repeat_calls should_run_inference 3 s = ([false; false; true], s)
  /\ (forall k : nat,
         repeat_calls should_run_inference (3 * k) s
         = (concat (repeat skip_pattern k), s))
  /\ (forall (a : Engine) (n : nat),
         current_energy_mode a = ENERGY_ACTIVE ->
         repeat_calls should_run_inference n a = (repeat true n, a)).
Proof.
  assert (H3 : repeat_calls should_run_inference 3 s = ([false; false; true], s)).
  { rewrite (gate_three_more 0 s Hmode Hvoice Hctr). reflexivity. }
  split; [exact H3 | split].
  - induction k as [ | k IH].
    + reflexivity.
    + replace (3 * S k)%nat with (S (S (S (3 * k)))) by lia.
      rewrite (gate_three_more _ s Hmode Hvoice Hctr), IH.
      reflexivity.
  - intros a n Ha. induction n as [ | n IH].
    + reflexivity.
    + cbn [repeat_calls repeat]. rewrite (gate_active a Ha), IH. reflexivity.
Qed.

End Gate.

(** ** Energy calibrator *)

Section Calibrator.

Lemma add_samples_app xs ys c :
  add_samples (xs ++ ys) c = add_samples ys (add_samples xs c).
Proof. unfold add_samples. apply fold_left_app. Qed.

(** While fewer than 100 samples are absorbed the calibrator only
    accumulates. *)
Lemma add_samples_accumulate (xs : list F32.t) (b : F32.t) (k : Z) (f : bool) :
  0 <= k ->
  k + Z.of_nat (length xs) < 100 ->
  add_samples xs (mk_calibrator b k f)
  = mk_calibrator (running_sum xs b) (k + Z.of_nat (length xs)) f.
Proof.
  revert b k. induction xs as [ | x xs IH]; intros b k Hk Hlen.
  - cbn. f_equal. lia.
  - cbn [length] in Hlen. rewrite Nat2Z.inj_succ in Hlen.
    cbn [add_samples fold_left running_sum].
    unfold add_sample at 2. cbn [calibration_samples baseline_consumption calibrated].
    assert (Hw : wrap32 (k + 1) = k + 1)
      by (unfold wrap32; apply Z.mod_small; lia).
    rewrite Hw.
    destruct (Z.ltb_spec k 100) as [_ | Hge]; [ | lia].
    destruct (Z.eqb_spec (k + 1) 100) as [Heq | _]; [lia | ].
    fold (add_samples xs (mk_calibrator (F32.add b x) (k + 1) f)).
    rewrite IH by lia.
    cbn [length]. rewrite Nat2Z.inj_succ. unfold running_sum. cbn [fold_left].
    f_equal. lia.
Qed.

(** Once 100 samples are absorbed every further sample is ignored. *)
Lemma add_samples_saturated (ys : list F32.t) (c : EnergyCalibrator) :
  100 <= calibration_samples c ->
  add_samples ys c = c.
Proof.
  intros Hc. induction ys as [ | y ys IH]; [reflexivity | ].
  cbn [add_samples fold_left]. unfold add_sample at 2.
  destruct (Z.ltb_spec (calibration_samples c) 100) as [Hlt | _]; [lia | ].
  exact IH.
Qed.

Lemma add_samples_hundred (xs : list F32.t) :
  length xs = 100%nat ->
  add_samples xs new_calibrator
  = mk_calibrator (F32.div (running_sum xs F32.zero) (F32.of_Z 100)) 100 true.
Proof.
  intros Hlen.
  destruct (exists_last (l := xs)) as [front [x Hx]].
  { intros ->. discriminate. }
  subst xs. rewrite length_app in Hlen. cbn [length] in Hlen.
  rewrite add_samples_app. unfold new_calibrator.
  rewrite add_samples_accumulate by lia.
  replace (0 + Z.of_nat (length front)) with 99 by lia.
  unfold running_sum. rewrite fold_left_app. reflexivity.
Qed.

(** C5: after exactly 100 calls of [add_sample] the baseline is the running
    binary32 sum of the 100 values divided by 100 and [is_calibrated] is
    true; any further calls leave the calibrator as it is, so the baseline,
    the sample count and the flag no longer change. *)
Theorem calibrator_saturates (xs : list F32.t) (Hlen : length xs = 100%nat) :
  let c := add_samples xs new_calibrator in
  get_baseline c = F32.div (running_sum xs F32.zero) (F32.of_Z 100)
  /\ is_calibrated c = true
  /\ calibration_samples c = 100
  /\ (forall ys : list F32.t,
         add_samples ys c = c
         /\ is_calibrated (add_samples ys c) = true
         /\ get_baseline (add_samples ys c) = get_baseline c
         /\ calibration_samples (add_samples ys c) = 100).
Proof.
  cbv zeta. rewrite (add_samples_hundred xs Hlen).
  repeat split; rewrite add_samples_saturated; cbn; try reflexivity; lia.
Qed.

(** C8, as stated, fails: after a single sample of 5.0 the calibrator is
    not calibrated and [get_baseline] returns 5.0, not 0. *)
Lemma get_baseline_nonzero_before_calibration :
  let c := add_sample (F32.of_Z 5) new_calibrator in
  is_calibrated c = false
  /\ calibration_samples c = 1
  /\ get_baseline c = F32.of_Z 5
  /\ SFeqb (get_baseline c) F32.zero = false
  /\ get_baseline c <> F32.zero.
Proof. vm_compute. repeat split; discriminate. Qed.

(** C8, amended: while fewer than 100 samples are absorbed the calibrator
    is not calibrated and [get_baseline] returns the running binary32 sum
    of the samples absorbed so far; it is 0 for the calibrator that has
    absorbed none. *)
Theorem get_baseline_running_sum (xs : list F32.t)
    (Hlen : (length xs < 100)%nat) :
  let c := add_samples xs new_calibrator in
  is_calibrated c = false
  /\ calibration_samples c = Z.of_nat (length xs)
  /\ get_baseline c = running_sum xs F32.zero
  /\ get_baseline new_calibrator = F32.zero.
Proof.
  cbv zeta. unfold new_calibrator.
  rewrite add_samples_accumulate by lia.
  repeat split.
Qed.

End Calibrator.

(** ** Frame reasoning *)

Section KeepsRules.
Context {X : Type} (f : Engine -> X).

Lemma keeps_ret {A} (a : A) : keeps f (ret a).
Proof. intros s. reflexivity. Qed.

Lemma keeps_get : keeps f get.
Proof. intros s. reflexivity. Qed.

Lemma keeps_modify (g : Engine -> Engine) :
  (forall s, f (g s) = f s) -> keeps f (modify g).
Proof. intros H s. apply H. Qed.

Lemma keeps_bind {A B} (m : M A) (k : A -> M B) :
  keeps f m -> (forall a, keeps f (k a)) -> keeps f (bind m k).
Proof.
  intros Hm Hk s. unfold bind.
  specialize (Hm s). destruct (m s) as [a s1 | s1]; cbn [final] in *.
  - rewrite Hk. exact Hm.
  - exact Hm.
Qed.

Lemma keeps_when (b : bool) (m : M unit) : keeps f m -> keeps f (when b m).
Proof. intros H. destruct b; [exact H | apply keeps_ret]. Qed.

Lemma keeps_deep_sleep {A} :
  (forall e s, f (emit e s) = f s) -> keeps f (@esp_deep_sleep_start A).
Proof. intros H s. apply H. Qed.
End KeepsRules.

(** One step of a frame proof: peel the outermost construct of the
    computation, splitting on the tests of the code. *)
Ltac keeps_step :=
  lazymatch goal with
  | |- keeps _ (bind _ _) => apply keeps_bind; [ | intros ? ]
  | |- keeps _ (ret _) => apply keeps_ret
  | |- keeps _ get => apply keeps_get
  | |- keeps _ (when _ _) => apply keeps_when
  | |- keeps _ esp_deep_sleep_start => apply keeps_deep_sleep; solve [auto]
  | |- keeps _ (modify _) => apply keeps_modify; intros ?; cbv beta; solve [auto]
  | |- keeps _ (call _) => apply keeps_modify; intros ?; solve [auto]
  | |- keeps _ (set_power _) => apply keeps_modify; intros ?; solve [auto]
  | |- keeps _ (if ?b then _ else _) => destruct b
  | |- keeps _ (match ?x with _ => _ end) => destruct x
  end.

Ltac keeps_auto := repeat (first [ solve [auto] | keeps_step ]).

(** The observation [f] is untouched by the members that the mode machine,
    the capture and the sleep write. *)
Section Frames.
Context {X : Type} (f : Engine -> X).
Hypothesis f_emit : forall e s, f (emit e s) = f s.
Hypothesis f_i2s : forall v s, f (set_i2s_installed v s) = f s.
Hypothesis f_mic : forall v s, f (set_mic_active v s) = f s.
Hypothesis f_mode : forall v s, f (set_current_energy_mode v s) = f s.
Hypothesis f_params : forall r n s, f (set_capture_params r n s) = f s.
Hypothesis f_power :
  forall p s, f (upd_metrics (set_power_consumption_mw p) s) = f s.
Hypothesis f_battery :
  forall v l s, f (upd_metrics (set_battery v l) s) = f s.
Hypothesis f_activity : forall v s, f (set_last_activity_time v s) = f s.
Hypothesis f_voice_time : forall v s, f (set_last_voice_time v s) = f s.
Hypothesis f_audio_process : forall v s, f (set_last_audio_process v s) = f s.
Hypothesis f_battery_check : forall v s, f (set_last_battery_check v s) = f s.
Hypothesis f_report : forall v s, f (set_last_energy_report v s) = f s.
Hypothesis f_mic_start : forall v s, f (set_mic_start_time v s) = f s.
Hypothesis f_audio : forall v s, f (set_audio_buffer v s) = f s.
Hypothesis f_mic_time :
  forall g s, f (upd_metrics (fun m => set_mic_active_time_ms (g m) m) s) = f s.
Hypothesis f_sleep_time :
  forall g s, f (upd_metrics (fun m => set_total_sleep_time_ms (g m) m) s) = f s.

Lemma keeps_setup_adaptive_i2s io : keeps f (setup_adaptive_i2s io).
Proof. unfold setup_adaptive_i2s. keeps_auto. Qed.

Lemma keeps_reconfigure_i2s io : keeps f (reconfigure_i2s io).
Proof.
  pose proof (keeps_setup_adaptive_i2s io).
  unfold reconfigure_i2s. keeps_auto.
Qed.

Lemma keeps_ensure_mic_active io : keeps f (ensure_mic_active io).
Proof.
  pose proof (keeps_setup_adaptive_i2s io).
  unfold ensure_mic_active. keeps_auto.
Qed.

Lemma keeps_cleanup_resources : keeps f cleanup_resources.
Proof. unfold cleanup_resources. keeps_auto. Qed.

Lemma keeps_set_energy_mode io mode : keeps f (set_energy_mode io mode).
Proof.
  pose proof (keeps_reconfigure_i2s io).
  pose proof keeps_cleanup_resources.
  unfold set_energy_mode. keeps_auto.
Qed.

Lemma keeps_update_battery_status adc io : keeps f (update_battery_status adc io).
Proof.
  pose proof (keeps_set_energy_mode io).
  unfold update_battery_status. keeps_auto.
Qed.

Lemma keeps_manage_energy_modes t b io : keeps f (manage_energy_modes t b io).
Proof.
  pose proof (keeps_set_energy_mode io).
  unfold manage_energy_modes. keeps_auto.
Qed.

Lemma keeps_should_process_audio t : keeps f (should_process_audio t).
Proof. unfold should_process_audio. keeps_auto. Qed.

Lemma keeps_smart_audio_capture io : keeps f (smart_audio_capture io).
Proof.
  pose proof (keeps_ensure_mic_active (cap_i2s io)).
  unfold smart_audio_capture. keeps_auto.
Qed.

Lemma keeps_print_energy_report : keeps f print_energy_report.
Proof. unfold print_energy_report. keeps_auto. Qed.

Lemma keeps_adaptive_sleep : keeps f adaptive_sleep.
Proof. unfold adaptive_sleep. keeps_auto. Qed.

Lemma keeps_run_policy io : keeps f (run_policy io).
Proof.
  pose proof (keeps_update_battery_status (adc_raw io) (bat_i2s io)).
  pose proof (keeps_manage_energy_modes (wrap32 (now io)) (button_low io) (policy_i2s io)).
  pose proof (keeps_should_process_audio (wrap32 (now io))).
  unfold run_policy. keeps_auto.
Qed.

Lemma keeps_run_epilogue io : keeps f (run_epilogue io).
Proof.
  pose proof keeps_print_energy_report.
  pose proof keeps_adaptive_sleep.
  unfold run_epilogue. keeps_auto.
Qed.

(** The members written by the gate, the inference and the LED. *)
Hypothesis f_skip_counter : forall v s, f (set_inference_skip_counter v s) = f s.
Hypothesis f_prediction :
  forall c p s, f (upd_metrics (set_prediction c p) s) = f s.
Hypothesis f_inference_time :
  forall v s, f (upd_metrics (set_inference_time_us v) s) = f s.
Hypothesis f_total :
  forall g s, f (upd_metrics (fun m => set_total_inferences (g m) m) s) = f s.
Hypothesis f_skipped :
  forall g s, f (upd_metrics (fun m => set_skipped_inferences (g m) m) s) = f s.

Lemma keeps_should_run_inference : keeps f should_run_inference.
Proof. unfold should_run_inference. keeps_auto. Qed.

Lemma keeps_run_energy_inference io : keeps f (run_energy_inference io).
Proof. unfold run_energy_inference. keeps_auto. Qed.

Lemma keeps_process_results_efficient : keeps f process_results_efficient.
Proof. unfold process_results_efficient. keeps_auto. Qed.

Lemma keeps_run_inference_stage io : keeps f (run_inference_stage io).
Proof.
  pose proof keeps_should_run_inference.
  pose proof (keeps_run_energy_inference (infer io)).
  pose proof keeps_process_results_efficient.
  unfold run_inference_stage. keeps_auto.
Qed.

End Frames.

(** ** The automatic mode policy *)

Section Policy.

(** A transition to a mode other than DEEP_SLEEP returns, in that mode. *)
Lemma set_energy_mode_reaches (io : I2sIO) (mode : EnergyMode) (s : Engine) :
  mode <> ENERGY_DEEP_SLEEP ->
  result (set_energy_mode io mode s) = Some tt
  /\ current_energy_mode (final (set_energy_mode io mode s)) = mode.
Proof.
  intros Hmode. unfold set_energy_mode, bind, get.
  destruct (EnergyMode_eqb (current_energy_mode s) mode) eqn:E.
  - apply EnergyMode_eqb_eq in E. split; [reflexivity | exact E].
  - destruct io as [i1 i2].
    destruct s as [ab pa bs sr ms cur t1 t2 t3 ma ii am ctr ta ml b1 b2 b3 tr].
    destruct mode; try contradiction;
      destruct ma, ii, i1, i2; split; reflexivity.
Qed.

(** A transition to DEEP_SLEEP from another mode never returns. *)
Lemma set_energy_mode_deep_sleep (io : I2sIO) (s : Engine) :
  current_energy_mode s <> ENERGY_DEEP_SLEEP ->
  result (set_energy_mode io ENERGY_DEEP_SLEEP s) = None
  /\ current_energy_mode (final (set_energy_mode io ENERGY_DEEP_SLEEP s))
     = ENERGY_DEEP_SLEEP.
Proof.
  intros Hmode.
  destruct s as [ab pa bs sr ms cur t1 t2 t3 ma ii am ctr ta ml b1 b2 b3 tr].
  cbn [current_energy_mode] in Hmode.
  destruct cur; try contradiction; destruct ma, ii; split; reflexivity.
Qed.

(** The branch of [manage_energy_modes] taken after prolonged silence. *)
Lemma manage_energy_modes_silence (current_time : Z) (io : I2sIO) (s : Engine) :
  voice_detected (metrics s) = false ->
  DEEP_SLEEP_TIMEOUT_MS < wrap32 (current_time - last_voice_time s) ->
  manage_energy_modes current_time false io s
  = set_energy_mode io
      (if battery_ord (battery_level (metrics s)) <=? battery_ord BATTERY_LOW
       then ENERGY_DEEP_SLEEP else ENERGY_ULTRA_ECO) s.
Proof.
  intros Hvoice Hidle.
  unfold manage_energy_modes. unfold bind at 1. unfold get. rewrite Hvoice.
  destruct (Z.gtb_spec (wrap32 (current_time - last_voice_time s))
              DEEP_SLEEP_TIMEOUT_MS) as [_ | Hle]; [ | lia].
  destruct (battery_ord (battery_level (metrics s)) <=? battery_ord BATTERY_LOW);
    reflexivity.
Qed.

(** C1, what the code does: with the button released, no voice on the last
    pass and more than 5000 ms since the last voice, the policy compares
    [battery_level <= BATTERY_LOW] on the enumerators FULL = 0 .. CRITICAL
    = 3, so level CRITICAL selects ULTRA_ECO (the call returns, the device
    stays awake) and levels FULL, GOOD and LOW select DEEP_SLEEP (from any
    other mode the device enters deep sleep): the opposite of the policy
    of the claim for CRITICAL, FULL and GOOD. *)
Theorem policy_battery_comparison_inverted
    (current_time : Z) (io : I2sIO) (s : Engine)
    (Hvoice : voice_detected (metrics s) = false)
    (Hidle : DEEP_SLEEP_TIMEOUT_MS < wrap32 (current_time - last_voice_time s)) :
  let o := manage_energy_modes current_time false io s in
  (battery_level (metrics s) = BATTERY_CRITICAL ->
     o = set_energy_mode io ENERGY_ULTRA_ECO s
     /\ result o = Some tt
     /\ current_energy_mode (final o) = ENERGY_ULTRA_ECO)
  /\ (battery_level (metrics s) <> BATTERY_CRITICAL ->
      o = set_energy_mode io ENERGY_DEEP_SLEEP s
      /\ current_energy_mode (final o) = ENERGY_DEEP_SLEEP
      /\ (current_energy_mode s <> ENERGY_DEEP_SLEEP -> result o = None)).
Proof.
  cbv zeta. rewrite (manage_energy_modes_silence _ _ _ Hvoice Hidle).
  split; intros Hlvl.
  - rewrite Hlvl. cbn [battery_ord Z.leb Z.compare Pos.compare Pos.compare_cont].
    split; [reflexivity | ].
    apply set_energy_mode_reaches. discriminate.
  - assert (E : (battery_ord (battery_level (metrics s))
                 <=? battery_ord BATTERY_LOW) = true)
      by (destruct (battery_level (metrics s)); try reflexivity; contradiction).
    rewrite E. split; [reflexivity | ].
    destruct (EnergyMode_eqb (current_energy_mode s) ENERGY_DEEP_SLEEP) eqn:Em.
    + apply EnergyMode_eqb_eq in Em. split; [ | contradiction].
      rewrite <- Em at 1. rewrite set_energy_mode_noop. exact Em.
    + assert (Hne : current_energy_mode s <> ENERGY_DEEP_SLEEP).
      { intros Heq. rewrite Heq in Em. discriminate. }
      split; [ | intros _]; apply set_energy_mode_deep_sleep; exact Hne.
Qed.

End Policy.

(** ** The cycle under silence *)

Section SilentCycle.

Lemma keeps_counters_preprocess : keeps inference_counters preprocess_audio_efficient.
Proof. unfold preprocess_audio_efficient. keeps_auto. Qed.

(** C2, what the code does: in a cycle where processing is due, the capture
    succeeds and preprocessing reports no voice, [run] goes from the
    preprocessing straight to the report and the sleep.  The gate
    [should_run_inference] is not called: its skip counter keeps its value,
    [skipped_inferences] is not incremented and no inference is counted. *)
Theorem run_silent_cycle_bypasses_gate (io : RunIO) (s s1 s2 s3 : Engine)
    (Hdue : run_policy io s = Returned true s1)
    (Hcap : smart_audio_capture (capture io) s1 = Returned true s2)
    (Hpre : preprocess_audio_efficient s2 = Returned false s3) :
  run io s = run_epilogue io s3
  /\ skipped_inferences (metrics (final (run io s))) = skipped_inferences (metrics s)
  /\ total_inferences (metrics (final (run io s))) = total_inferences (metrics s)
  /\ inference_skip_counter (final (run io s)) = inference_skip_counter s.
Proof.
  assert (Hrun : run io s = run_epilogue io s3).
  { unfold run, run_pipeline, bind.
    rewrite Hdue. cbn [when]. rewrite Hcap. cbn [when]. rewrite Hpre.
    reflexivity. }
  split; [exact Hrun | ].
  assert (K : inference_counters (final (run io s)) = inference_counters s).
  { rewrite Hrun.
    rewrite (keeps_run_epilogue inference_counters) by reflexivity.
    change s3 with (final (Returned false s3)). rewrite <- Hpre.
    rewrite keeps_counters_preprocess.
    change s2 with (final (Returned true s2)). rewrite <- Hcap.
    rewrite (keeps_smart_audio_capture inference_counters) by reflexivity.
    change s1 with (final (Returned true s1)). rewrite <- Hdue.
    apply (keeps_run_policy inference_counters); reflexivity. }
  unfold inference_counters in K. injection K as K1 K2 K3. auto.
Qed.

End SilentCycle.

(** ** Preprocessing *)

Section Preprocess.

(** What one preprocessing pass does to an engine whose feature buffer is
    allocated, member by member. *)
Lemma preprocess_effect (s : Engine) (old : list F32.t) :
  preprocessed_audio s = Some old ->
  let voice := F32.gtb (mean_square_energy s) VOICE_DETECTION_THRESHOLD in
  let count := wrap8 (consecutive_silence (metrics s) + 1) in
  let shutdown := negb voice && (count >? 10) in
  let s' := final (preprocess_audio_efficient s) in
  preprocess_audio_efficient s = Returned voice s'
  /\ voice_detected (metrics s') = voice
  /\ consecutive_silence (metrics s') = (if voice then 0 else count)
  /\ mic_active s' = (if shutdown then false else mic_active s)
  /\ i2s_installed s' = (if shutdown then false else i2s_installed s)
  /\ trace s' = (if shutdown && i2s_installed s
                 then EvI2sDriverUninstall :: trace s else trace s)
  /\ preprocessed_audio s' = Some (features s)
  /\ audio_buffer s' = audio_buffer s
  /\ current_buffer_size s' = current_buffer_size s
  /\ current_energy_mode s' = current_energy_mode s.
Proof.
  intros Halloc. cbv zeta.
  unfold preprocess_audio_efficient, bind, get. rewrite Halloc.
  destruct (F32.gtb (mean_square_energy s) VOICE_DETECTION_THRESHOLD) eqn:G.
  - cbn. repeat split.
  - cbn -[Z.gtb wrap8].
    destruct (wrap8 (consecutive_silence (metrics s) + 1) >? 10) eqn:C;
      cbn -[Z.gtb wrap8]; [destruct (i2s_installed s) eqn:I | ];
      cbn -[Z.gtb wrap8]; repeat split; auto.
Qed.

(** With no feature buffer the pass is abandoned on entry. *)
Lemma preprocess_unallocated (s : Engine) :
  preprocessed_audio s = None ->
  preprocess_audio_efficient s = Returned false s.
Proof.
  intros H. unfold preprocess_audio_efficient, bind, get. rewrite H. reflexivity.
Qed.

(** Preprocessing returns the flag it stores. *)
Lemma preprocess_returns_flag (s s' : Engine) :
  preprocess_audio_efficient s = Returned true s' ->
  voice_detected (metrics s') = true.
Proof.
  intros H. destruct (preprocessed_audio s) as [old | ] eqn:Ha.
  - destruct (preprocess_effect s old Ha) as (E & V & _).
    rewrite E in H. injection H as Hv Hs. rewrite <- Hs, V. exact Hv.
  - rewrite (preprocess_unallocated s Ha) in H. discriminate.
Qed.


End Preprocess.

(** ** The silence counter *)

Section Silence.

(** Everything in a cycle but the preprocessing leaves the counter alone. *)
Lemma silence_count_run_policy io : keeps silence_count (run_policy io).
Proof. apply keeps_run_policy; reflexivity. Qed.

Lemma silence_count_capture io : keeps silence_count (smart_audio_capture io).
Proof. apply keeps_smart_audio_capture; reflexivity. Qed.

Lemma silence_count_inference_stage io : keeps silence_count (run_inference_stage io).
Proof. apply keeps_run_inference_stage; reflexivity. Qed.

Lemma silence_count_run_epilogue io : keeps silence_count (run_epilogue io).
Proof. apply keeps_run_epilogue; reflexivity. Qed.

Lemma wrap8_succ (c k : Z) : wrap8 (wrap8 (c + k) + 1) = wrap8 (c + (k + 1)).
Proof.
  unfold wrap8. rewrite Z.add_mod_idemp_l by lia. f_equal. lia.
Qed.

Lemma silent_pass_count (s : Engine) (old : list F32.t) :
  preprocessed_audio s = Some old ->
  silent s ->
  silence_count (final (preprocess_audio_efficient s)) = wrap8 (silence_count s + 1).
Proof.
  intros Ha Hs. destruct (preprocess_effect s old Ha) as (_ & _ & C & _).
  unfold silence_count. rewrite C, Hs. reflexivity.
Qed.

Lemma silent_run_count (n : nat) (s s' : Engine) :
  silent_run n s s' ->
  0 <= silence_count s < 256 ->
  silence_count s' = wrap8 (silence_count s + Z.of_nat n).
Proof.
  intros Hrun Hrange. induction Hrun as [s | n s s1 s2 Hrun IH Heq | n s s1 old Hrun IH Ha Hs].
  - unfold wrap8. rewrite Z.add_0_r, Z.mod_small; [reflexivity | lia].
  - rewrite Heq. apply IH. exact Hrange.
  - rewrite (silent_pass_count s1 old Ha Hs), (IH Hrange), wrap8_succ.
    f_equal. lia.
Qed.

(** C10: the silence counter is an 8-bit field incremented without
    saturation by every silent pass, so after [n] silent passes it holds
    the starting value plus [n] modulo 256; 256 silent passes from 0 bring
    it back to 0, where the shutdown test [> 10] and the light-sleep test
    [> 5] are false again: the pass that wraps from 255 leaves the
    microphone and its driver as they are, and [adaptive_sleep] in
    ULTRA_ECO takes the plain 100 ms delay.  A pass with voice resets the
    counter to 0. *)
Theorem consecutive_silence_wraps (n : nat) (s s' : Engine)
    (Hrun : silent_run n s s')
    (Hrange : 0 <= silence_count s < 256) :
  silence_count s' = (silence_count s + Z.of_nat n) mod 256
  /\ (silence_count s = 0 -> n = 256%nat ->
      silence_count s' = 0
      /\ (silence_count s' >? 10) = false
      /\ (silence_count s' >? 5) = false)
  /\ (forall (a : Engine) (old : list F32.t),
         preprocessed_audio a = Some old -> silent a -> silence_count a = 255 ->
         let a' := final (preprocess_audio_efficient a) in
         silence_count a' = 0
         /\ mic_active a' = mic_active a
         /\ i2s_installed a' = i2s_installed a
         /\ trace a' = trace a)
  /\ (forall a : Engine,
         current_energy_mode a = ENERGY_ULTRA_ECO -> silence_count a = 0 ->
         adaptive_sleep a = Returned tt (emit (EvDelay 100) a))
  /\ (forall (a : Engine) (old : list F32.t),
         preprocessed_audio a = Some old -> ~ silent a ->
         silence_count (final (preprocess_audio_efficient a)) = 0).
Proof.
  pose proof (silent_run_count n s s' Hrun Hrange) as Hcount.
  split; [exact Hcount | split; [ | split; [ | split]]].
  - intros H0 Hn. rewrite Hcount, H0, Hn. vm_compute. auto.
  - intros a old Ha Hs H255. cbv zeta.
    destruct (preprocess_effect a old Ha) as (_ & _ & C & Mi & I & T & _).
    unfold silence_count in *. rewrite C, Mi, I, T, Hs, H255.
    vm_compute. auto.
  - intros a Hmode H0. unfold adaptive_sleep, bind, get.
    unfold silence_count in H0. rewrite Hmode, H0.
    rewrite andb_false_r. reflexivity.
  - intros a old Ha Hv.
    destruct (preprocess_effect a old Ha) as (_ & _ & C & _).
    unfold silence_count, silent in *. rewrite C.
    destruct (F32.gtb (mean_square_energy a) VOICE_DETECTION_THRESHOLD);
      [reflexivity | contradiction Hv; reflexivity].
Qed.

Lemma passes_silent_run (n : nat) (s : Engine) (old : list F32.t) :
  preprocessed_audio s = Some old ->
  silent s ->
  silent_run n s (passes n s)
  /\ (exists cur, preprocessed_audio (passes n s) = Some cur)
  /\ silent (passes n s).
Proof.
  intros Ha Hs. induction n as [ | n (IHrun & (cur & IHa) & IHs)].
  - split; [constructor | split; [exists old; exact Ha | exact Hs]].
  - cbn [passes].
    destruct (preprocess_effect (passes n s) cur IHa)
      as (_ & _ & _ & _ & _ & _ & P & B & N & _).
    split; [ | split].
    + eapply silent_run_pass; eassumption.
    + eexists. exact P.
    + unfold silent, mean_square_energy, samples_to_process in *.
      rewrite B, N. exact IHs.
Qed.

End Silence.

(** ** Construction followed by initialisation *)

Section Boot.

(** C9: the engine is constructed in ULTRA_ECO, so the transition to
    ULTRA_ECO that ends [initialize] meets the early return and applies
    none of the ULTRA_ECO parameters: after construction and [initialize],
    whatever the platform answers, the buffer size is still
    [AUDIO_BUFFER_SIZE / 4 = 256] (not 128), the power figure is still 0.0
    (not 25.0) and no CPU-frequency change was issued; [initialize] returns
    (with the mode still ULTRA_ECO) unless the first battery reading is
    CRITICAL, in which case the device enters deep sleep before reaching
    that transition. *)
Theorem initialize_skips_ultra_eco_parameters (b : BootIO) (io : InitIO) :
  let o := initialize io (construct b) in
  current_buffer_size (final o) = AUDIO_BUFFER_SIZE / MIC_BUFFER_REDUCTION
  /\ current_buffer_size (final o) = 256
  /\ current_buffer_size (final o) <> AUDIO_BUFFER_SIZE / 8
  /\ power_consumption_mw (metrics (final o)) = F32.zero
  /\ power_consumption_mw (metrics (final o)) <> F32.lit 25 1
  /\ filter is_cpu_frequency_set (trace (final o)) = []
  /\ (result o = Some true -> current_energy_mode (final o) = ENERGY_ULTRA_ECO)
  /\ (result o = None
      <-> classify_voltage (adc_to_voltage (wrap32 (init_adc io))) = BATTERY_CRITICAL).
Proof.
  destruct b as [ma mv ha hf hm aa].
  destruct io as [adc [b1 b2] [v1 v2] [m1 m2]].
  unfold initialize, update_battery_status.
  cbv zeta. cbn [init_adc].
  generalize (adc_to_voltage (wrap32 adc)). intros v.
  generalize (classify_voltage v). intros lvl.
  destruct lvl, aa, v1, v2;
    vm_compute; repeat split; intros; try discriminate; try reflexivity.
Qed.

End Boot.

(** ** [run] never counts a skipped inference *)

Section DeadBranch.

(** With the voice flag set the gate answers yes. *)
Lemma gate_with_voice (s : Engine) :
  voice_detected (metrics s) = true ->
  should_run_inference s = Returned true (set_inference_skip_counter 0 s)
  \/ should_run_inference s = Returned true s.
Proof.
  intros Hv. unfold should_run_inference, bind, get.
  destruct (EnergyMode_eqb (current_energy_mode s) ENERGY_ACTIVE).
  - right. reflexivity.
  - left. rewrite Hv. reflexivity.
Qed.

Lemma skipped_after_gate_yes (io : RunIO) :
  keeps skipped
    (done <- run_energy_inference (infer io) ;;
     when done
       (process_results_efficient ;;
        modify (upd_metrics (fun m =>
          set_total_inferences (wrap32 (total_inferences m + 1)) m)) ;;
        modify (set_last_activity_time (wrap32 (now io))))).
Proof.
  pose proof (keeps_run_energy_inference skipped) as K1.
  pose proof (keeps_process_results_efficient skipped) as K2.
  apply keeps_bind; [apply K1; reflexivity | intros done].
  apply keeps_when.
  apply keeps_bind; [apply K2; reflexivity | intros _].
  apply keeps_bind; [ | intros _]; apply keeps_modify; reflexivity.
Qed.

Lemma skipped_inference_stage (io : RunIO) (s : Engine) :
  voice_detected (metrics s) = true ->
  skipped (final (run_inference_stage io s)) = skipped s.
Proof.
  intros Hv. unfold run_inference_stage. unfold bind at 1.
  destruct (gate_with_voice s Hv) as [E | E]; rewrite E;
    rewrite (skipped_after_gate_yes io); reflexivity.
Qed.

(** The [else] branch that increments [skipped_inferences] is only reached
    through a preprocessing pass that returned true, after which the gate
    answers yes: no call of [run] changes [skipped_inferences]. *)
Lemma run_never_skips (io : RunIO) : keeps skipped (run io).
Proof.
  unfold run.
  apply keeps_bind; [apply keeps_run_policy; reflexivity | intros due].
  apply keeps_bind; [ | intros _; apply keeps_run_epilogue; reflexivity].
  apply keeps_when. unfold run_pipeline.
  apply keeps_bind; [apply keeps_smart_audio_capture; reflexivity | intros captured].
  apply keeps_when.
  intros s. unfold bind.
  destruct (preprocess_audio_efficient s) as [voice s1 | s1] eqn:E.
  - assert (K : skipped s1 = skipped s).
    { change s1 with (final (Returned voice s1)). rewrite <- E.
      assert (Kp : keeps skipped preprocess_audio_efficient)
        by (unfold preprocess_audio_efficient; keeps_auto).
      apply Kp. }
    destruct voice; cbn [when].
    + rewrite skipped_inference_stage; [exact K | ].
      apply (preprocess_returns_flag s s1 E).
    + exact K.
  - change s1 with (final (@DeepSleeping bool s1)). rewrite <- E.
    assert (Kp : keeps skipped preprocess_audio_efficient)
      by (unfold preprocess_audio_efficient; keeps_auto).
    apply Kp.
Qed.

End DeadBranch.

(** ** Concrete runs *)

Section Witnesses.

Lemma should_run_inference_skip_cycle_witness :
  current_energy_mode fresh <> ENERGY_ACTIVE
  /\ voice_detected (metrics fresh) = false
  /\ inference_skip_counter fresh = 0
  /\ repeat_calls should_run_inference 3 fresh = ([false; false; true], fresh)
  /\ repeat_calls should_run_inference 6 fresh
     = ([false; false; true; false; false; true], fresh)
  /\ repeat_calls should_run_inference 4 fresh_active
     = ([true; true; true; true], fresh_active).
Proof.
  assert (Hm : current_energy_mode fresh <> ENERGY_ACTIVE) by (cbn; discriminate).
  split; [exact Hm | split; [reflexivity | split; [reflexivity | ]]].
  destruct (should_run_inference_skip_cycle fresh Hm eq_refl eq_refl) as (H3 & Hk & Ha).
  split; [exact H3 | split; [exact (Hk 2%nat) | exact (Ha fresh_active 4%nat eq_refl)]].
Defined.

Lemma calibrator_saturates_witness :
  length five_samples = 100%nat
  /\ is_calibrated (add_samples five_samples new_calibrator) = true
  /\ get_baseline (add_samples five_samples new_calibrator) = F32.of_Z 5
  /\ get_baseline (add_samples (F32.of_Z 900 :: five_samples)
                     (add_samples five_samples new_calibrator)) = F32.of_Z 5.
Proof.
  split; [reflexivity | ].
  destruct (calibrator_saturates five_samples eq_refl) as (B & C & _ & After).
  split; [exact C | split].
  - rewrite B. vm_compute. reflexivity.
  - destruct (After (F32.of_Z 900 :: five_samples)) as (_ & _ & Keep & _).
    rewrite Keep, B. vm_compute. reflexivity.
Defined.

Lemma get_baseline_running_sum_witness :
  (length [F32.of_Z 5; F32.of_Z 7] < 100)%nat
  /\ is_calibrated (add_samples [F32.of_Z 5; F32.of_Z 7] new_calibrator) = false
  /\ get_baseline (add_samples [F32.of_Z 5; F32.of_Z 7] new_calibrator) = F32.of_Z 12.
Proof.
  assert (Hlen : (length [F32.of_Z 5; F32.of_Z 7] < 100)%nat) by (cbn; lia).
  split; [exact Hlen | ].
  destruct (get_baseline_running_sum _ Hlen) as (C & _ & B & _).
  split; [exact C | ]. rewrite B. vm_compute. reflexivity.
Defined.

Lemma policy_battery_comparison_inverted_witness :
  (voice_detected (metrics booted) = false
   /\ DEEP_SLEEP_TIMEOUT_MS < wrap32 (6000 - last_voice_time booted)
   /\ battery_level (metrics booted) = BATTERY_FULL
   /\ result (manage_energy_modes 6000 false driver_ok booted) = None
   /\ current_energy_mode (final (manage_energy_modes 6000 false driver_ok booted))
      = ENERGY_DEEP_SLEEP)
  /\ (voice_detected (metrics critical_in_eco) = false
      /\ DEEP_SLEEP_TIMEOUT_MS < wrap32 (6000 - last_voice_time critical_in_eco)
      /\ battery_level (metrics critical_in_eco) = BATTERY_CRITICAL
      /\ result (manage_energy_modes 6000 false driver_ok critical_in_eco) = Some tt
      /\ current_energy_mode
           (final (manage_energy_modes 6000 false driver_ok critical_in_eco))
         = ENERGY_ULTRA_ECO).
Proof.
  assert (Hv1 : voice_detected (metrics booted) = false) by (vm_compute; reflexivity).
  assert (Hi1 : DEEP_SLEEP_TIMEOUT_MS < wrap32 (6000 - last_voice_time booted))
    by (vm_compute; reflexivity).
  assert (Hv2 : voice_detected (metrics critical_in_eco) = false)
    by (vm_compute; reflexivity).
  assert (Hi2 : DEEP_SLEEP_TIMEOUT_MS < wrap32 (6000 - last_voice_time critical_in_eco))
    by (vm_compute; reflexivity).
  split.
  - destruct (policy_battery_comparison_inverted 6000 driver_ok booted Hv1 Hi1)
      as (_ & Hfull).
    assert (Hl : battery_level (metrics booted) = BATTERY_FULL)
      by (vm_compute; reflexivity).
    assert (Hne : battery_level (metrics booted) <> BATTERY_CRITICAL)
      by (rewrite Hl; discriminate).
    destruct (Hfull Hne) as (_ & Hmode & Hsleep).
    assert (Hawake : current_energy_mode booted <> ENERGY_DEEP_SLEEP)
      by (vm_compute; discriminate).
    split; [exact Hv1 | split; [exact Hi1 | split; [exact Hl | split]]].
    + exact (Hsleep Hawake).
    + exact Hmode.
  - destruct (policy_battery_comparison_inverted 6000 driver_ok critical_in_eco Hv2 Hi2)
      as (Hcrit & _).
    assert (Hl : battery_level (metrics critical_in_eco) = BATTERY_CRITICAL)
      by (vm_compute; reflexivity).
    destruct (Hcrit Hl) as (_ & Hres & Hmode).
    split; [exact Hv2 | split; [exact Hi2 | split; [exact Hl | split]]].
    + exact Hres.
    + exact Hmode.
Defined.

Lemma run_silent_cycle_witness :
  let io := silent_cycle 1000 in
  let s1 := final (run_policy io booted) in
  let s2 := final (smart_audio_capture (capture io) s1) in
  let s3 := final (preprocess_audio_efficient s2) in
  run_policy io booted = Returned true s1
  /\ smart_audio_capture (capture io) s1 = Returned true s2
  /\ preprocess_audio_efficient s2 = Returned false s3
  /\ current_energy_mode s3 = ENERGY_ULTRA_ECO
  /\ skipped_inferences (metrics (final (run io booted))) = 0
  /\ inference_skip_counter (final (run io booted)) = 0.
Proof.
  cbv zeta.
  assert (H1 : run_policy (silent_cycle 1000) booted
               = Returned true (final (run_policy (silent_cycle 1000) booted)))
    by (vm_compute; reflexivity).
  assert (H2 : smart_audio_capture (capture (silent_cycle 1000))
                 (final (run_policy (silent_cycle 1000) booted))
               = Returned true
                   (final (smart_audio_capture (capture (silent_cycle 1000))
                             (final (run_policy (silent_cycle 1000) booted)))))
    by (vm_compute; reflexivity).
  assert (H3 : preprocess_audio_efficient
                 (final (smart_audio_capture (capture (silent_cycle 1000))
                           (final (run_policy (silent_cycle 1000) booted))))
               = Returned false
                   (final (preprocess_audio_efficient
                      (final (smart_audio_capture (capture (silent_cycle 1000))
                                (final (run_policy (silent_cycle 1000) booted)))))))
    by (vm_compute; reflexivity).
  destruct (run_silent_cycle_bypasses_gate _ _ _ _ _ H1 H2 H3) as (_ & K1 & _ & K3).
  split; [exact H1 | split; [exact H2 | split; [exact H3 | split]]].
  - vm_compute. reflexivity.
  - rewrite K1, K3. vm_compute. split; reflexivity.
Defined.


Lemma consecutive_silence_wraps_witness :
  silent_run 256 fresh (passes 256 fresh)
  /\ 0 <= silence_count fresh < 256
  /\ silence_count (passes 256 fresh) = 0
  /\ silence_count (passes 11 fresh) = 11
  /\ (silence_count about_to_wrap = 255
      /\ mic_active about_to_wrap = true
      /\ silence_count (final (preprocess_audio_efficient about_to_wrap)) = 0
      /\ mic_active (final (preprocess_audio_efficient about_to_wrap)) = true
      /\ trace (final (preprocess_audio_efficient about_to_wrap)) = []).
Proof.
  assert (Hs : silent fresh) by (vm_compute; reflexivity).
  assert (Hr : 0 <= silence_count fresh < 256) by (cbn; lia).
  destruct (passes_silent_run 256 fresh _ eq_refl Hs) as (Hrun & _).
  destruct (passes_silent_run 11 fresh _ eq_refl Hs) as (Hrun11 & _).
  split; [exact Hrun | split; [exact Hr | split; [ | split]]].
  - destruct (consecutive_silence_wraps 256 fresh _ Hrun Hr) as (_ & Hwrap & _).
    apply Hwrap; reflexivity.
  - destruct (consecutive_silence_wraps 11 fresh _ Hrun11 Hr) as (Hcount & _).
    rewrite Hcount. reflexivity.
  - destruct (consecutive_silence_wraps 11 fresh _ Hrun11 Hr) as (_ & _ & Hlast & _).
    assert (Hs' : silent about_to_wrap) by (vm_compute; reflexivity).
    destruct (Hlast about_to_wrap _ eq_refl Hs' eq_refl) as (C & Mi & _ & T).
    split; [reflexivity | split; [reflexivity | split; [exact C | split]]].
    + rewrite Mi. reflexivity.
    + rewrite T. reflexivity.
Defined.

End Witnesses.

(** * Further properties of the code *)

(** ** The order of binary32 values *)

Section FloatKeys.

Lemma SFltb_key (x y : spec_float) :
  not_nan x -> not_nan y ->
  (SFltb x y = true <-> key_lt (float_key x) (float_key y)).
Proof.
  unfold not_nan, SFltb, key_lt.
  destruct x as [[ | ] | [ | ] | | [ | ] mx ex], y as [[ | ] | [ | ] | | [ | ] my ey];
    intros Hx Hy; try congruence; cbn [SFcompare float_key];
    try (split; [discriminate | lia]);
    try (split; [intros _; lia | reflexivity]).
  all: change (Pos.compare_cont Eq mx my) with (Pos.compare mx my).
  all: destruct (Z.compare_spec ex ey); destruct (Pos.compare_spec mx my);
    cbn [CompOpp]; split; intros H'; try discriminate; try reflexivity; lia.
Qed.

Lemma SFleb_key (x y : spec_float) :
  not_nan x -> not_nan y ->
  (SFleb x y = true <-> ~ key_lt (float_key y) (float_key x)).
Proof.
  unfold not_nan, SFleb, key_lt.
  destruct x as [[ | ] | [ | ] | | [ | ] mx ex], y as [[ | ] | [ | ] | | [ | ] my ey];
    intros Hx Hy; try congruence; cbn [SFcompare float_key];
    try (split; [discriminate | lia]);
    try (split; [intros _; lia | reflexivity]).
  all: change (Pos.compare_cont Eq mx my) with (Pos.compare mx my).
  all: destruct (Z.compare_spec ex ey); destruct (Pos.compare_spec mx my);
    cbn [CompOpp]; split; intros H'; try discriminate; try reflexivity; lia.
Qed.

(** Off NaN, [a > b] fails exactly when [a <= b]. *)
Lemma gtb_false_leb (a b : spec_float) :
  not_nan a -> not_nan b -> (F32.gtb a b = false <-> SFleb a b = true).
Proof.
  intros Ha Hb. unfold F32.gtb.
  rewrite (SFleb_key a b Ha Hb), <- (SFltb_key b a Hb Ha).
  destruct (SFltb b a); split; congruence.
Qed.

End FloatKeys.

(** ** Battery readings *)

Section BatteryReadings.

Lemma forallb_readings (P : Z -> bool) (n : nat) :
  forallb (fun k => P (Z.of_nat k)) (seq 0 n) = true ->
  forall raw, 0 <= raw < Z.of_nat n -> P raw = true.
Proof.
  intros H raw Hraw. rewrite forallb_forall in H.
  replace raw with (Z.of_nat (Z.to_nat raw)) by lia.
  apply H. apply in_seq. lia.
Qed.

Lemma BatteryLevel_eqb_eq (a b : BatteryLevel) :
  BatteryLevel_eqb a b = true <-> a = b.
Proof. destruct a, b; cbv; split; intros H; congruence. Qed.

(** X1: for every reading of the 12-bit converter the level derived from
    the computed voltage is CRITICAL up to 2047, LOW from 2048 to 2295, GOOD
    from 2296 to 2481 and FULL from 2482 on. *)
Theorem adc_reading_bands (raw : Z) (Hraw : 0 <= raw < 4096) :
  classify_voltage (adc_to_voltage raw) = band_of_reading raw
  /\ (classify_voltage (adc_to_voltage raw) = BATTERY_CRITICAL <-> raw <= 2047)
  /\ (classify_voltage (adc_to_voltage raw) = BATTERY_LOW <-> 2048 <= raw <= 2295)
  /\ (classify_voltage (adc_to_voltage raw) = BATTERY_GOOD <-> 2296 <= raw <= 2481)
  /\ (classify_voltage (adc_to_voltage raw) = BATTERY_FULL <-> 2482 <= raw).
Proof.
  assert (E : classify_voltage (adc_to_voltage raw) = band_of_reading raw).
  { apply BatteryLevel_eqb_eq.
    apply (forallb_readings
             (fun r => BatteryLevel_eqb (classify_voltage (adc_to_voltage r))
                         (band_of_reading r)) 4096).
    - vm_compute. reflexivity.
    - exact Hraw. }
  split; [exact E | ]. rewrite E. unfold band_of_reading.
  destruct (Z.leb_spec raw 2047); [ | destruct (Z.leb_spec raw 2295);
    [ | destruct (Z.leb_spec raw 2481)]];
    repeat split; intros; try discriminate; try reflexivity; lia.
Qed.

(** What [update_battery_status] does, by the level it computes. *)
Lemma update_battery_status_cases (adc : Z) (io : I2sIO) (s : Engine) :
  let v := adc_to_voltage (wrap32 adc) in
  let s1 := upd_metrics (set_battery v (classify_voltage v)) s in
  update_battery_status adc io s
  = match classify_voltage v with
    | BATTERY_CRITICAL => set_energy_mode io ENERGY_DEEP_SLEEP s1
    | BATTERY_LOW => set_energy_mode io ENERGY_ULTRA_ECO s1
    | _ => Returned tt s1
    end.
Proof.
  cbv zeta. unfold update_battery_status. cbv zeta.
  generalize (adc_to_voltage (wrap32 adc)). intros v.
  unfold bind at 1, modify at 1. unfold bind at 1, get at 1.
  cbn [battery_level metrics upd_metrics set_battery].
  destruct (classify_voltage v); reflexivity.
Qed.



End BatteryReadings.

(** ** Operating points of the mode machine *)

Section OperatingPoints.

(** X3: a transition to an awake mode other than the current one returns
    with the sample rate, buffer size and nominal power of that mode, after
    one CPU-frequency change to the frequency of that mode; the driver is
    reinstalled at the new rate exactly when the microphone was active, and
    the microphone stays active then even if the installation fails.  Down
    the modes ACTIVE, BALANCED, ECO, ULTRA_ECO the frequency, the buffer size
    and the power strictly decrease and the sample rate never increases. *)
Theorem set_energy_mode_operating_point (io : I2sIO) (mode : EnergyMode) (s : Engine)
    (Hnew : current_energy_mode s <> mode)
    (Hawake : mode <> ENERGY_DEEP_SLEEP) :
  let o := set_energy_mode io mode s in
  let point := operating_point mode in
  (result o = Some tt
   /\ current_energy_mode (final o) = mode
   /\ current_sample_rate (final o) = snd (fst (fst point))
   /\ current_buffer_size (final o) = snd (fst point)
   /\ power_consumption_mw (metrics (final o)) = snd point
   /\ mic_active (final o) = mic_active s
   /\ (exists driver_calls,
         trace (final o)
         = driver_calls ++ EvSetCpuFrequencyMhz (fst (fst (fst point))) :: trace s
         /\ (mic_active s = false -> driver_calls = [])
         /\ (mic_active s = true ->
             In (EvI2sDriverInstall (snd (fst (fst point)))) driver_calls)
         /\ filter is_cpu_frequency_set driver_calls = []))
  /\ (forall a b : EnergyMode,
         a <> ENERGY_DEEP_SLEEP -> b <> ENERGY_DEEP_SLEEP ->
         mode_ord a < mode_ord b ->
         fst (fst (fst (operating_point b))) < fst (fst (fst (operating_point a)))
         /\ snd (fst (fst (operating_point b))) <= snd (fst (fst (operating_point a)))
         /\ snd (fst (operating_point b)) < snd (fst (operating_point a))
         /\ SFltb (snd (operating_point b)) (snd (operating_point a)) = true).
Proof.
  cbv zeta. split.
  - destruct io as [i1 i2].
    destruct s as [ab pa bs sr ms cur t1 t2 t3 ma ii am ctr ta ml b1 b2 b3 tr].
    cbn [current_energy_mode] in Hnew.
    destruct mode; try contradiction; destruct cur; try contradiction;
      destruct ma, ii, i1, i2;
      cbn -[F32.lit]; repeat split;
      try (eexists; split; [ | split; [ | split]];
           [ match goal with
             | |- ?l = ?r =>
                 first [ exact (eq_refl : l = [] ++ l)
                       | exact (eq_refl : l = [_] ++ _)
                       | exact (eq_refl : l = [_; _] ++ _)
                       | exact (eq_refl : l = [_; _; _] ++ _) ]
             end
           | intros H; first [discriminate | reflexivity]
           | intros H; first [discriminate | cbn; tauto]
           | reflexivity ]).
  - intros a b Ha Hb Hab.
    destruct a, b; try contradiction; cbn in Hab; try lia;
      vm_compute; repeat split; try discriminate; reflexivity.
Qed.


End OperatingPoints.

(** ** Invariant of the driver flags *)

Section Invariants.

Lemma preserves_ret {A} (P : Engine -> Prop) (a : A) : preserves P (ret a).
Proof. intros s H. exact H. Qed.

Lemma preserves_get (P : Engine -> Prop) : preserves P get.
Proof. intros s H. exact H. Qed.

Lemma preserves_modify (P : Engine -> Prop) (g : Engine -> Engine) :
  (forall s, P s -> P (g s)) -> preserves P (modify g).
Proof. intros H s Hs. apply H. exact Hs. Qed.

Lemma preserves_bind {A B} (P : Engine -> Prop) (m : M A) (k : A -> M B) :
  preserves P m -> (forall a, preserves P (k a)) -> preserves P (bind m k).
Proof.
  intros Hm Hk s Hs. unfold bind. specialize (Hm s Hs).
  destruct (m s) as [a s1 | s1]; cbn [final] in *.
  - apply Hk. exact Hm.
  - exact Hm.
Qed.

Lemma preserves_when (P : Engine -> Prop) (b : bool) (m : M unit) :
  preserves P m -> preserves P (when b m).
Proof. intros H. destruct b; [exact H | apply preserves_ret]. Qed.

(** A property of the two driver flags survives whatever leaves them alone. *)
Lemma preserves_driver_tracked_of_keeps {A} (m : M A) :
  keeps driver_flags m -> preserves driver_tracked m.
Proof.
  intros K s Hs. specialize (K s). unfold driver_flags in K.
  injection K as Km Ki. unfold driver_tracked in *. rewrite Km, Ki. exact Hs.
Qed.

Lemma driver_tracked_set_energy_mode io mode :
  preserves driver_tracked (set_energy_mode io mode).
Proof.
  intros s Hs. unfold driver_tracked in *.
  destruct io as [i1 i2].
  destruct s as [ab pa bs sr ms cur t1 t2 t3 ma ii am ctr ta ml b1 b2 b3 tr].
  cbn [i2s_installed mic_active] in Hs.
  destruct mode, cur, ma, ii, i1, i2; cbn; intros H;
    first [reflexivity | discriminate | exact (Hs eq_refl)].
Qed.

Lemma driver_tracked_update_battery_status adc io :
  preserves driver_tracked (update_battery_status adc io).
Proof.
  intros s Hs. rewrite update_battery_status_cases. cbv zeta.
  destruct (classify_voltage (adc_to_voltage (wrap32 adc)));
    try exact Hs; apply driver_tracked_set_energy_mode; exact Hs.
Qed.

Ltac preserves_step :=
  lazymatch goal with
  | |- preserves _ (bind _ _) => apply preserves_bind; [ | intros ? ]
  | |- preserves _ (ret _) => apply preserves_ret
  | |- preserves _ get => apply preserves_get
  | |- preserves _ (when _ _) => apply preserves_when
  | |- preserves _ (modify _) =>
      apply preserves_modify; let H := fresh in intros ? H; exact H
  | |- preserves _ (call _) =>
      apply preserves_modify; let H := fresh in intros ? H; exact H
  | |- preserves _ (if ?b then _ else _) => destruct b
  | |- preserves _ (match ?x with _ => _ end) => destruct x
  end.

Ltac preserves_auto := repeat (first [ solve [auto] | preserves_step ]).

Lemma driver_tracked_manage_energy_modes t b io :
  preserves driver_tracked (manage_energy_modes t b io).
Proof.
  pose proof (driver_tracked_set_energy_mode io).
  unfold manage_energy_modes. preserves_auto.
Qed.

Lemma driver_tracked_run_policy io : preserves driver_tracked (run_policy io).
Proof.
  pose proof (driver_tracked_update_battery_status (adc_raw io) (bat_i2s io)).
  pose proof (driver_tracked_manage_energy_modes (wrap32 (now io)) (button_low io)
                (policy_i2s io)).
  assert (preserves driver_tracked (should_process_audio (wrap32 (now io)))).
  { apply preserves_driver_tracked_of_keeps.
    apply keeps_should_process_audio; reflexivity. }
  unfold run_policy. preserves_auto.
Qed.

Lemma driver_tracked_ensure_mic_active io :
  preserves driver_tracked (ensure_mic_active io).
Proof.
  intros s Hs. unfold driver_tracked in *.
  destruct io as [i1 i2].
  destruct s as [ab pa bs sr ms cur t1 t2 t3 ma ii am ctr ta ml b1 b2 b3 tr].
  cbn [i2s_installed mic_active] in Hs.
  destruct ma, ii, i1, i2; cbn; intros H;
    first [reflexivity | discriminate | exact (Hs eq_refl)].
Qed.

Lemma driver_tracked_smart_audio_capture io :
  preserves driver_tracked (smart_audio_capture io).
Proof.
  pose proof (driver_tracked_ensure_mic_active (cap_i2s io)).
  unfold smart_audio_capture. preserves_auto.
Qed.

Lemma driver_tracked_preprocess :
  preserves driver_tracked preprocess_audio_efficient.
Proof.
  intros s Hs. destruct (preprocessed_audio s) as [old | ] eqn:Ha.
  - destruct (preprocess_effect s old Ha) as (_ & _ & _ & Mi & I & _).
    unfold driver_tracked in *. rewrite Mi, I.
    destruct (negb (F32.gtb (mean_square_energy s) VOICE_DETECTION_THRESHOLD)
              && (wrap8 (consecutive_silence (metrics s) + 1) >? 10));
      [discriminate | exact Hs].
  - rewrite (preprocess_unallocated s Ha). exact Hs.
Qed.

Lemma driver_tracked_run_pipeline io : preserves driver_tracked (run_pipeline io).
Proof.
  pose proof (driver_tracked_smart_audio_capture (capture io)).
  pose proof driver_tracked_preprocess.
  assert (preserves driver_tracked (run_inference_stage io)).
  { apply preserves_driver_tracked_of_keeps.
    apply keeps_run_inference_stage; reflexivity. }
  unfold run_pipeline. preserves_auto.
Qed.

(** X5: the driver is marked installed only while the microphone is marked
    active; this holds for the constructed engine and is kept by
    [initialize] and by every call of [run], whatever the platform answers
    and whether or not the call ends in deep sleep. *)
Theorem driver_flags_invariant :
  (forall b : BootIO, driver_tracked (construct b))
  /\ (forall io : InitIO, preserves driver_tracked (initialize io))
  /\ (forall io : RunIO, preserves driver_tracked (run io)).
Proof.
  split; [ | split].
  - intros b H. discriminate.
  - intros io.
    pose proof (driver_tracked_update_battery_status (init_adc io) (init_bat_i2s io)).
    pose proof (driver_tracked_set_energy_mode (init_mode_i2s io) ENERGY_ULTRA_ECO).
    unfold initialize, setup_power_management, setup_battery_monitoring,
      setup_energy_efficient_pins, setup_energy_tensorflow.
    preserves_auto.
  - intros io.
    pose proof (driver_tracked_run_policy io).
    pose proof (driver_tracked_run_pipeline io).
    assert (preserves driver_tracked (run_epilogue io)).
    { apply preserves_driver_tracked_of_keeps.
      apply keeps_run_epilogue; reflexivity. }
    unfold run. preserves_auto.
Qed.

End Invariants.

(** ** Rules of the automatic policy *)

Section PolicyRules.

Lemma set_energy_mode_returns (io : I2sIO) (mode : EnergyMode) (s : Engine) :
  mode <> ENERGY_DEEP_SLEEP ->
  exists s', set_energy_mode io mode s = Returned tt s'
             /\ current_energy_mode s' = mode.
Proof.
  intros Hm. destruct (set_energy_mode_reaches io mode s Hm) as (R & Mo).
  destruct (set_energy_mode io mode s) as [[] s' | s']; [ | discriminate].
  exists s'. split; [reflexivity | exact Mo].
Qed.

(** The branches of [manage_energy_modes] with the button released. *)
Lemma manage_energy_modes_voice (current_time : Z) (io : I2sIO) (s : Engine) :
  voice_detected (metrics s) = true ->
  manage_energy_modes current_time false io s
  = (if mode_ord (current_energy_mode s) >? mode_ord ENERGY_BALANCED
     then set_energy_mode io ENERGY_BALANCED (set_last_voice_time current_time s)
     else Returned tt (set_last_voice_time current_time s)).
Proof.
  intros Hvoice. unfold manage_energy_modes, bind, get, modify, when, ret.
  rewrite Hvoice.
  destruct (mode_ord (current_energy_mode s) >? mode_ord ENERGY_BALANCED);
    reflexivity.
Qed.

Lemma manage_energy_modes_quiet (current_time : Z) (io : I2sIO) (s : Engine) :
  voice_detected (metrics s) = false ->
  wrap32 (current_time - last_voice_time s) <= DEEP_SLEEP_TIMEOUT_MS ->
  manage_energy_modes current_time false io s
  = (if wrap32 (current_time - last_activity_time s) >? SILENCE_TIMEOUT_MS
     then (if mode_ord (current_energy_mode s) <? mode_ord ENERGY_ECO
           then set_energy_mode io ENERGY_ECO s else Returned tt s)
     else Returned tt s).
Proof.
  intros Hvoice Hrecent. unfold manage_energy_modes, bind, get, modify, when, ret.
  rewrite Hvoice.
  destruct (Z.gtb_spec (wrap32 (current_time - last_voice_time s))
              DEEP_SLEEP_TIMEOUT_MS) as [Hgt | _]; [lia | ].
  destruct (wrap32 (current_time - last_activity_time s) >? SILENCE_TIMEOUT_MS);
    [ | reflexivity].
  destruct (mode_ord (current_energy_mode s) <? mode_ord ENERGY_ECO); reflexivity.
Qed.

(** X6: with the button held the policy always selects ACTIVE and returns,
    whatever the voice flag, the battery level and the timestamps; it
    records the current time as the last activity and leaves the last voice
    time, the voice flag and the battery level alone. *)
Theorem button_forces_active (current_time : Z) (io : I2sIO) (s : Engine) :
  let o := manage_energy_modes current_time true io s in
  result o = Some tt
  /\ current_energy_mode (final o) = ENERGY_ACTIVE
  /\ last_activity_time (final o) = current_time
  /\ last_voice_time (final o) = last_voice_time s
  /\ voice_detected (metrics (final o)) = voice_detected (metrics s)
  /\ battery_level (metrics (final o)) = battery_level (metrics s).
Proof.
  cbv zeta. unfold manage_energy_modes. unfold bind at 1. unfold get.
  unfold bind.
  destruct (set_energy_mode_returns io ENERGY_ACTIVE s) as (s' & E & Mo);
    [discriminate | ].
  pose proof (keeps_set_energy_mode policy_inputs
                (fun _ _ => eq_refl) (fun _ _ => eq_refl) (fun _ _ => eq_refl)
                (fun _ _ => eq_refl) (fun _ _ _ => eq_refl) (fun _ _ => eq_refl)
                io ENERGY_ACTIVE s) as K.
  rewrite E in *. cbn [final] in K. unfold policy_inputs in K.
  injection K as K1 K2 K3.
  cbn. repeat split; assumption.
Qed.

(** X7: with the button released and voice detected on the last pass, the
    policy returns with the current time recorded as the last voice time
    and with the mode stepped up to BALANCED if it was ECO, ULTRA_ECO or
    DEEP_SLEEP, and unchanged if it was ACTIVE or BALANCED; the device
    never enters deep sleep on this rule. *)
Theorem voice_steps_up_to_balanced (current_time : Z) (io : I2sIO) (s : Engine)
    (Hvoice : voice_detected (metrics s) = true) :
  let o := manage_energy_modes current_time false io s in
  result o = Some tt
  /\ last_voice_time (final o) = current_time
  /\ current_energy_mode (final o)
     = (if mode_ord (current_energy_mode s) >? mode_ord ENERGY_BALANCED
        then ENERGY_BALANCED else current_energy_mode s)
  /\ mode_ord (current_energy_mode (final o)) <= mode_ord ENERGY_BALANCED.
Proof.
  cbv zeta. rewrite (manage_energy_modes_voice _ _ _ Hvoice).
  destruct (mode_ord (current_energy_mode s) >? mode_ord ENERGY_BALANCED) eqn:C.
  - destruct (set_energy_mode_returns io ENERGY_BALANCED
                (set_last_voice_time current_time s)) as (s' & E & Mo);
      [discriminate | ].
    pose proof (keeps_set_energy_mode last_voice_time
                  (fun _ _ => eq_refl) (fun _ _ => eq_refl) (fun _ _ => eq_refl)
                  (fun _ _ => eq_refl) (fun _ _ _ => eq_refl) (fun _ _ => eq_refl)
                  io ENERGY_BALANCED (set_last_voice_time current_time s)) as K.
    rewrite E in *. cbn [final result] in *.
    split; [reflexivity | split; [exact K | split; [exact Mo | ]]].
    rewrite Mo. cbn. lia.
  - cbn [final result]. split; [reflexivity | split; [reflexivity | split; [reflexivity | ]]].
    cbn [current_energy_mode set_last_voice_time].
    destruct (current_energy_mode s); cbn in *; try discriminate; lia.
Qed.

(** X8: with the button released and no voice, while the last voice is at
    most 5000 ms old: if the last activity is more than 2000 ms old the
    policy returns with the mode stepped down to ECO if it was ACTIVE or
    BALANCED and unchanged otherwise; if not, the policy changes nothing at
    all. *)
Theorem silence_steps_down_to_eco (current_time : Z) (io : I2sIO) (s : Engine)
    (Hvoice : voice_detected (metrics s) = false)
    (Hrecent : wrap32 (current_time - last_voice_time s) <= DEEP_SLEEP_TIMEOUT_MS) :
  let o := manage_energy_modes current_time false io s in
  (SILENCE_TIMEOUT_MS < wrap32 (current_time - last_activity_time s) ->
   result o = Some tt
   /\ current_energy_mode (final o)
      = (if mode_ord (current_energy_mode s) <? mode_ord ENERGY_ECO
         then ENERGY_ECO else current_energy_mode s)
   /\ mode_ord ENERGY_ECO <= mode_ord (current_energy_mode (final o)))
  /\ (wrap32 (current_time - last_activity_time s) <= SILENCE_TIMEOUT_MS ->
      o = Returned tt s).
Proof.
  cbv zeta. rewrite (manage_energy_modes_quiet _ _ _ Hvoice Hrecent).
  split; intros Hidle.
  - destruct (Z.gtb_spec (wrap32 (current_time - last_activity_time s))
                SILENCE_TIMEOUT_MS) as [_ | Hle]; [ | lia].
    destruct (mode_ord (current_energy_mode s) <? mode_ord ENERGY_ECO) eqn:C.
    + destruct (set_energy_mode_returns io ENERGY_ECO s) as (s' & E & Mo);
        [discriminate | ].
      rewrite E. cbn [final result].
      split; [reflexivity | split; [exact Mo | ]].
      rewrite Mo. cbn. lia.
    + cbn [final result]. split; [reflexivity | split; [reflexivity | ]].
      destruct (current_energy_mode s); cbn in *; try discriminate; lia.
  - destruct (Z.gtb_spec (wrap32 (current_time - last_activity_time s))
                SILENCE_TIMEOUT_MS) as [Hgt | _]; [lia | reflexivity].
Qed.

(** X9: outside ACTIVE, once [should_process_audio] has answered yes at a
    time [t] it answers no, and changes nothing, at every later time closer
    to [t] than the interval of the mode (500 ms in ULTRA_ECO, 200 ms in
    ECO, 100 ms otherwise), and answers yes again once the interval has
    elapsed; in ACTIVE it always answers yes. *)
Theorem should_process_audio_rate_limit (t : Z) (s s1 : Engine)
    (Hmode : current_energy_mode s <> ENERGY_ACTIVE)
    (Hyes : should_process_audio t s = Returned true s1) :
  (forall t', wrap32 (t' - t) < process_interval (current_energy_mode s) ->
              should_process_audio t' s1 = Returned false s1)
  /\ (forall t', process_interval (current_energy_mode s) <= wrap32 (t' - t) ->
                 result (should_process_audio t' s1) = Some true)
  /\ (forall (a : Engine) (t' : Z),
         current_energy_mode a = ENERGY_ACTIVE ->
         should_process_audio t' a = Returned true a).
Proof.
  assert (Hs1 : s1 = set_last_audio_process t s).
  { unfold should_process_audio, bind, get in Hyes.
    destruct (EnergyMode_eqb (current_energy_mode s) ENERGY_ACTIVE) eqn:E.
    - apply EnergyMode_eqb_eq in E. contradiction.
    - destruct (wrap32 (t - last_audio_process s) >=? _) in Hyes.
      + cbn in Hyes. injection Hyes as <-. reflexivity.
      + discriminate. }
  subst s1.
  assert (Hne : EnergyMode_eqb (current_energy_mode s) ENERGY_ACTIVE = false).
  { destruct (EnergyMode_eqb (current_energy_mode s) ENERGY_ACTIVE) eqn:E;
      [apply EnergyMode_eqb_eq in E; contradiction | reflexivity]. }
  split; [ | split].
  - intros t' Hclose. unfold should_process_audio, bind, get.
    cbn [current_energy_mode set_last_audio_process last_audio_process].
    rewrite Hne. fold (process_interval (current_energy_mode s)).
    destruct (Z.geb_spec (wrap32 (t' - t)) (process_interval (current_energy_mode s)));
      [lia | reflexivity].
  - intros t' Hfar. unfold should_process_audio, bind, get.
    cbn [current_energy_mode set_last_audio_process last_audio_process].
    rewrite Hne. fold (process_interval (current_energy_mode s)).
    destruct (Z.geb_spec (wrap32 (t' - t)) (process_interval (current_energy_mode s)));
      [reflexivity | lia].
  - intros a t' Ha. unfold should_process_audio, bind, get. rewrite Ha. reflexivity.
Qed.

End PolicyRules.

(** ** Capture and digital silence *)

Section Capture.

Lemma round_aux_unsigned (mx ex : Z) (lx : location) :
  unsigned_value (binary_round_aux F32.prec F32.emax false mx ex lx).
Proof.
  unfold binary_round_aux.
  destruct (shr_fexp F32.prec F32.emax mx ex lx) as [mrs e'].
  destruct (shr_fexp F32.prec F32.emax _ e' loc_Exact) as [mrs'' e''].
  destruct (shr_m mrs''); [reflexivity | | exact I].
  destruct (e'' <=? F32.emax - F32.prec); reflexivity.
Qed.

Lemma square_unsigned (x : F32.t) : unsigned_value (F32.mul x x).
Proof.
  destruct x as [[ | ] | [ | ] | | [ | ] m e]; try reflexivity; try exact I;
    apply round_aux_unsigned.
Qed.

Lemma add_unsigned (a b : F32.t) :
  unsigned_value a -> unsigned_value b -> unsigned_value (F32.add a b).
Proof.
  destruct a as [sa | sa | | sa ma ea], b as [sb | sb | | sb mb eb];
    cbn [unsigned_value]; intros Ha Hb; subst;
    try reflexivity; try exact I.
  unfold F32.add, SFadd, cond_Zopp, binary_normalize.
  destruct (shl_align ma ea (Z.min ea eb)) as [pa ?].
  destruct (shl_align mb eb (Z.min ea eb)) as [pb ?].
  cbn [fst Z.add]. unfold binary_round.
  destruct (shl_align _ _ _) as [mz ez]. apply round_aux_unsigned.
Qed.

Lemma add_zero_unsigned (e : F32.t) :
  unsigned_value e -> F32.add e F32.zero = e.
Proof.
  destruct e as [s | s | | s m x]; cbn [unsigned_value]; intros H; subst; reflexivity.
Qed.

Lemma accumulate_unsigned (xs : list Z) (e : F32.t) :
  unsigned_value e ->
  unsigned_value
    (fold_left (fun e x => F32.add e (F32.mul (normalize x) (normalize x))) xs e).
Proof.
  revert e. induction xs as [ | x xs IH]; intros e He; [exact He | ].
  cbn [fold_left]. apply IH. apply add_unsigned; [exact He | apply square_unsigned].
Qed.

Lemma accumulate_zeros (k : nat) (e : F32.t) :
  unsigned_value e ->
  fold_left (fun e x => F32.add e (F32.mul (normalize x) (normalize x)))
            (repeat 0 k) e = e.
Proof.
  intros He. induction k as [ | k IH]; [reflexivity | ].
  cbn [repeat fold_left].
  replace (F32.mul (normalize 0) (normalize 0)) with F32.zero
    by (vm_compute; reflexivity).
  rewrite (add_zero_unsigned e He). exact IH.
Qed.

(** Zero samples after the data add nothing to the energy sum. *)
Lemma sum_squares_zero_tail (xs : list Z) (k : nat) :
  sum_squares (xs ++ repeat 0 k) = sum_squares xs.
Proof.
  unfold sum_squares. rewrite fold_left_app.
  apply accumulate_zeros. apply accumulate_unsigned. reflexivity.
Qed.

Lemma window_prefix (a b : list Z) :
  window (a ++ b) (Z.of_nat (length a)) = a.
Proof.
  unfold window. rewrite Nat2Z.id.
  induction a as [ | x a IH]; [reflexivity | ].
  cbn [length seq map app nth]. f_equal.
  rewrite <- seq_shift, map_map. exact IH.
Qed.

Lemma keeps_buffers_ensure_mic_active io :
  keeps (fun s => (current_buffer_size s, audio_buffer s, preprocessed_audio s))
        (ensure_mic_active io).
Proof. apply keeps_ensure_mic_active; reflexivity. Qed.

(** The audio buffer after a capture that succeeded. *)
Lemma capture_success (io : CaptureIO) (s s' : Engine) :
  smart_audio_capture io s = Returned true s' ->
  let n := Z.to_nat (current_buffer_size s) in
  let got := firstn n (delivered io) in
  current_buffer_size s' = current_buffer_size s
  /\ preprocessed_audio s' = preprocessed_audio s
  /\ read_ok io = true
  /\ got <> []
  /\ mic_active s' = true
  /\ exists rest, audio_buffer s' = (got ++ repeat 0 (n - length got)) ++ rest.
Proof.
  intros Hcap. cbv zeta. unfold smart_audio_capture in Hcap.
  unfold bind at 1 in Hcap.
  pose proof (keeps_buffers_ensure_mic_active (cap_i2s io) s) as K.
  assert (Hmic : forall s0, ensure_mic_active (cap_i2s io) s = Returned true s0 ->
                            mic_active s0 = true).
  { intros s0. unfold ensure_mic_active, bind, get.
    destruct (mic_active s) eqn:Ma.
    - intros H. injection H as <-. exact Ma.
    - destruct (setup_adaptive_i2s (cap_i2s io) s) as [[ | ] s1 | s1];
        cbn; intros H; try discriminate. injection H as <-. reflexivity. }
  destruct (ensure_mic_active (cap_i2s io) s) as [[ | ] s0 | s0];
    cbn [negb final] in *; try discriminate.
  specialize (Hmic s0 eq_refl).
  injection K as Kn Kb Kp.
  destruct s0 as [ab pa bs sr ms cur t1 t2 t3 ma ii am ctr ta ml b1 b2 b3 tr].
  cbn [current_buffer_size audio_buffer preprocessed_audio mic_active] in *.
  subst bs ab pa ma.
  unfold bind, modify, call, get, when, ret in Hcap.
  cbn [current_buffer_size audio_buffer metrics mic_start_time set_mic_start_time
       set_audio_buffer upd_metrics emit] in Hcap.
  set (got := firstn (Z.to_nat (current_buffer_size s)) (delivered io)) in *.
  assert (Hdiv : 2 * Z.of_nat (length got) / 2 = Z.of_nat (length got)).
  { rewrite Z.mul_comm. apply Z.div_mul. discriminate. }
  rewrite Hdiv in Hcap.
  assert (Hlen : (length got <= Z.to_nat (current_buffer_size s))%nat).
  { unfold got. rewrite length_firstn. lia. }
  destruct (read_ok io); cbn [negb orb] in Hcap; [ | discriminate].
  destruct (Z.eqb_spec (2 * Z.of_nat (length got)) 0) as [H0 | Hpos];
    [discriminate | ].
  assert (Hne : got <> []) by (intros E; rewrite E in Hpos; cbn in Hpos; lia).
  destruct (Z.ltb_spec (Z.of_nat (length got)) (current_buffer_size s)) as [Hlt | Hge];
    injection Hcap as <-;
    cbn [current_buffer_size preprocessed_audio audio_buffer mic_active
         set_audio_buffer];
    (split; [reflexivity | split; [reflexivity | split; [reflexivity |
      split; [exact Hne | split; [reflexivity | ]]]]]).
  - unfold zero_range, write_prefix.
    rewrite Nat2Z.id.
    rewrite firstn_app, firstn_all, Nat.sub_diag, firstn_O, app_nil_r.
    eexists. rewrite <- app_assoc. f_equal. f_equal.
    f_equal. lia.
  - unfold write_prefix.
    replace (Z.to_nat (current_buffer_size s) - length got)%nat with O by lia.
    cbn [repeat]. rewrite app_nil_r. eexists. reflexivity.
Qed.

(** The window that preprocessing reads after a capture that succeeded. *)
Lemma capture_window (io : CaptureIO) (s s' : Engine) :
  smart_audio_capture io s = Returned true s' ->
  0 <= current_buffer_size s <= INPUT_FEATURES ->
  let n := current_buffer_size s in
  let got := firstn (Z.to_nat n) (delivered io) in
  samples_to_process s' = n
  /\ window (audio_buffer s') n = got ++ repeat 0 (Z.to_nat n - length got).
Proof.
  intros Hcap Hsize. cbv zeta.
  destruct (capture_success io s s' Hcap) as (Hn & _ & _ & _ & _ & rest & Hbuf).
  set (got := firstn (Z.to_nat (current_buffer_size s)) (delivered io)) in *.
  assert (Hlen : (length got <= Z.to_nat (current_buffer_size s))%nat)
    by (unfold got; rewrite length_firstn; lia).
  split.
  - unfold samples_to_process, MIN. rewrite Hn.
    destruct (Z.ltb_spec (current_buffer_size s) INPUT_FEATURES); lia.
  - pose proof (window_prefix
                  (got ++ repeat 0 (Z.to_nat (current_buffer_size s) - length got))
                  rest) as W.
    rewrite length_app, repeat_length in W.
    replace (Z.of_nat (length got + (Z.to_nat (current_buffer_size s) - length got)))
      with (current_buffer_size s) in W by lia.
    rewrite Hbuf. exact W.
Qed.

(** X10: after a capture that succeeded, the first [current_buffer_size]
    samples of the audio buffer are the samples delivered by the driver
    followed by zeros, and the energy that preprocessing computes is the
    sum of the squares of the delivered samples alone, divided by the buffer
    size: the zero-filled tail of a short read contributes nothing. *)
Theorem short_read_zero_fill (io : CaptureIO) (s s' : Engine)
    (Hcap : smart_audio_capture io s = Returned true s')
    (Hsize : 0 <= current_buffer_size s <= INPUT_FEATURES) :
  let n := current_buffer_size s in
  let got := firstn (Z.to_nat n) (delivered io) in
  window (audio_buffer s') n = got ++ repeat 0 (Z.to_nat n - length got)
  /\ mean_square_energy s' = F32.div (sum_squares got) (F32.of_Z n).
Proof.
  cbv zeta.
  destruct (capture_window io s s' Hcap Hsize) as (Hn & Hw).
  split; [exact Hw | ].
  unfold mean_square_energy. rewrite Hn, Hw.
  rewrite sum_squares_zero_tail. reflexivity.
Qed.

Lemma Forall_firstn_zero (n : nat) (l : list Z) :
  Forall (fun x => x = 0) l -> Forall (eq 0) (firstn n l).
Proof.
  intros H. revert n. induction H as [ | x l Hx _ IH]; intros n.
  - rewrite firstn_nil. constructor.
  - destruct n as [ | n]; cbn [firstn]; constructor; [symmetry; exact Hx | apply IH].
Qed.

Lemma zero_energy_is_silent (z : Z) :
  F32.gtb (F32.div F32.zero (F32.of_Z z)) VOICE_DETECTION_THRESHOLD = false.
Proof.
  destruct (F32.of_Z z) as [[ | ] | [ | ] | | [ | ] m e]; reflexivity.
Qed.

Lemma sum_squares_zeros (k : nat) : sum_squares (repeat 0 k) = F32.zero.
Proof. apply (sum_squares_zero_tail [] k). Qed.

(** X11: a capture in which the driver delivers only zero samples, however
    many, is never classified as voice: the preprocessing pass that follows
    returns false. *)
Theorem digital_silence_is_not_voice (io : CaptureIO) (s s' : Engine)
    (Hcap : smart_audio_capture io s = Returned true s')
    (Hsize : 0 <= current_buffer_size s <= INPUT_FEATURES)
    (Hzero : Forall (fun x => x = 0) (delivered io)) :
  F32.gtb (mean_square_energy s') VOICE_DETECTION_THRESHOLD = false
  /\ result (preprocess_audio_efficient s') = Some false.
Proof.
  destruct (capture_window io s s' Hcap Hsize) as (Hn & Hw).
  assert (Henergy : mean_square_energy s'
                    = F32.div
                        (sum_squares
                           (firstn (Z.to_nat (current_buffer_size s)) (delivered io)))
                        (F32.of_Z (current_buffer_size s))).
  { unfold mean_square_energy. rewrite Hn, Hw.
    rewrite sum_squares_zero_tail. reflexivity. }
  assert (Hgot : firstn (Z.to_nat (current_buffer_size s)) (delivered io)
                 = repeat 0 (length (firstn (Z.to_nat (current_buffer_size s))
                                       (delivered io)))).
  { apply Forall_eq_repeat. apply Forall_firstn_zero. exact Hzero. }
  assert (Hsilent : F32.gtb (mean_square_energy s') VOICE_DETECTION_THRESHOLD = false).
  { rewrite Henergy, Hgot, sum_squares_zeros. apply zero_energy_is_silent. }
  split; [exact Hsilent | ].
  destruct (preprocessed_audio s') as [old | ] eqn:Ha.
  - destruct (preprocess_effect s' old Ha) as (E & _).
    rewrite E, Hsilent. reflexivity.
  - rewrite (preprocess_unallocated s' Ha). reflexivity.
Qed.

End Capture.

(** ** Inference *)

Section Inference.

(** The facts about keys that a test [a > b] establishes, either way. *)
Lemma gtb_key (a b : spec_float) (r : bool) :
  not_nan a -> not_nan b -> F32.gtb a b = r ->
  if r then key_lt (float_key b) (float_key a)
  else ~ key_lt (float_key b) (float_key a).
Proof.
  intros Ha Hb E. unfold F32.gtb in E.
  pose proof (SFltb_key b a Hb Ha) as K.
  destruct r; [apply K; exact E | ].
  intros H. apply K in H. congruence.
Qed.

(** X12: when none of the four scores is NaN, the scan of the output tensor
    selects the first index that holds the greatest score: the confidence is
    the score at the predicted index, no score is greater than it, and every
    score at a smaller index is strictly less. *)
Theorem argmax_scan_first_maximum (out : list F32.t)
    (Hnum : forall i : nat, (i < 4)%nat -> not_nan (nth i out F32.zero)) :
  let c := fst (argmax_scan out) in
  let p := snd (argmax_scan out) in
  0 <= p < OUTPUT_CLASSES
  /\ c = nth (Z.to_nat p) out F32.zero
  /\ (forall i : nat, (i < 4)%nat -> SFleb (nth i out F32.zero) c = true)
  /\ (forall i : nat, (i < Z.to_nat p)%nat -> SFltb (nth i out F32.zero) c = true).
Proof.
  cbv zeta. unfold argmax_scan.
  change (seq 1 (Z.to_nat OUTPUT_CLASSES - 1)) with [1%nat; 2%nat; 3%nat].
  cbn [fold_left fst snd].
  pose proof (Hnum 0%nat ltac:(lia)) as N0. pose proof (Hnum 1%nat ltac:(lia)) as N1.
  pose proof (Hnum 2%nat ltac:(lia)) as N2. pose proof (Hnum 3%nat ltac:(lia)) as N3.
  set (a0 := nth 0 out F32.zero) in *. set (a1 := nth 1 out F32.zero) in *.
  set (a2 := nth 2 out F32.zero) in *. set (a3 := nth 3 out F32.zero) in *.
  assert (Hle : forall x y, not_nan x -> not_nan y ->
                            ~ key_lt (float_key y) (float_key x) -> SFleb x y = true)
    by (intros x y Hx Hy H; apply (SFleb_key x y Hx Hy); exact H).
  assert (Hlt : forall x y, not_nan x -> not_nan y ->
                            key_lt (float_key x) (float_key y) -> SFltb x y = true)
    by (intros x y Hx Hy H; apply (SFltb_key x y Hx Hy); exact H).
  destruct (F32.gtb a1 a0) eqn:G1; cbn [fst snd];
    [pose proof (gtb_key a1 a0 true N1 N0 G1) as K1
    | pose proof (gtb_key a1 a0 false N1 N0 G1) as K1];
    match goal with
    | |- context [F32.gtb a2 ?m] =>
        destruct (F32.gtb a2 m) eqn:G2; cbn [fst snd];
        [pose proof (gtb_key a2 m true N2 ltac:(assumption) G2) as K2
        | pose proof (gtb_key a2 m false N2 ltac:(assumption) G2) as K2]
    end;
    match goal with
    | |- context [F32.gtb a3 ?m] =>
        destruct (F32.gtb a3 m) eqn:G3; cbn [fst snd];
        [pose proof (gtb_key a3 m true N3 ltac:(assumption) G3) as K3
        | pose proof (gtb_key a3 m false N3 ltac:(assumption) G3) as K3]
    end;
    cbn beta iota in K1, K2, K3;
    (split; [vm_compute; split; congruence | split; [reflexivity | ]]);
    (split; intros i Hi;
     [ destruct i as [ | [ | [ | [ | i]]]]; [ | | | | lia];
       fold a0 a1 a2 a3; apply Hle; try assumption
     | cbn in Hi;
       destruct i as [ | [ | [ | i]]]; try lia;
       fold a0 a1 a2; apply Hlt; try assumption ]);
    unfold key_lt in *;
    destruct (float_key a0) as [[x01 x02] x03];
    destruct (float_key a1) as [[x11 x12] x13];
    destruct (float_key a2) as [[x21 x22] x23];
    destruct (float_key a3) as [[x31 x32] x33];
    lia.
Qed.

(** X13: while no model is loaded the inference always succeeds with class
    0 (silence) and confidence 0.8 after a 1 ms delay, without calling the
    interpreter, and acting on that result never writes the LED. *)
Theorem degraded_inference_is_silence (io : InferIO) (s : Engine)
    (Hdegraded : model_loaded s = false) :
  let o := run_energy_inference io s in
  result o = Some true
  /\ predicted_class (metrics (final o)) = CLASS_SILENCE
  /\ confidence (metrics (final o)) = F32.lit 8 10
  /\ inference_time_us (metrics (final o)) = wrap32 (inf_end io - wrap32 (inf_start io))
  /\ trace (final o) = EvDelay 1 :: trace s
  /\ process_results_efficient (final o) = Returned tt (final o).
Proof.
  cbv zeta. unfold run_energy_inference, bind, get.
  cbn [TFLITE_AVAILABLE]. rewrite Hdegraded. cbn -[F32.lit wrap32].
  repeat split.
Qed.

(** X14: when a model is loaded and the interpreter fails, the inference
    stage of a cycle with voice ends after the call of the interpreter:
    both counters, the last activity time, the prediction, the confidence
    and the inference time keep their values, and the LED is not written. *)
Theorem failed_invoke_updates_nothing (io : RunIO) (s : Engine)
    (Hloaded : model_loaded s = true)
    (Hfail : invoke (infer io) = None)
    (Hvoice : voice_detected (metrics s) = true) :
  let o := run_inference_stage io s in
  result o = Some tt
  /\ total_inferences (metrics (final o)) = total_inferences (metrics s)
  /\ skipped_inferences (metrics (final o)) = skipped_inferences (metrics s)
  /\ last_activity_time (final o) = last_activity_time s
  /\ predicted_class (metrics (final o)) = predicted_class (metrics s)
  /\ confidence (metrics (final o)) = confidence (metrics s)
  /\ inference_time_us (metrics (final o)) = inference_time_us (metrics s)
  /\ trace (final o) = EvInvoke :: trace s.
Proof.
  assert (H : run_inference_stage io s
              = Returned tt (emit EvInvoke (set_inference_skip_counter 0 s))
              \/ run_inference_stage io s = Returned tt (emit EvInvoke s)).
  { unfold run_inference_stage, bind.
    destruct (gate_with_voice s Hvoice) as [E | E]; rewrite E; [left | right];
      unfold run_energy_inference, bind, get;
      cbn [TFLITE_AVAILABLE model_loaded set_inference_skip_counter];
      rewrite Hloaded, Hfail; reflexivity. }
  cbv zeta. destruct H as [H | H]; rewrite H; cbn; repeat split.
Qed.

Lemma total_inference_stage (io : RunIO) (s : Engine) :
  total (final (run_inference_stage io s)) = total s
  \/ total (final (run_inference_stage io s)) = wrap32 (total s + 1).
Proof.
  unfold run_inference_stage, bind.
  pose proof (keeps_should_run_inference total
                (fun _ _ => eq_refl) s) as K1.
  destruct (should_run_inference s) as [[ | ] sg | sg]; cbn [final] in K1.
  - pose proof (keeps_run_energy_inference total
                  (fun _ _ => eq_refl) (fun _ _ _ => eq_refl) (fun _ _ => eq_refl)
                  (infer io) sg) as K2.
    destruct (run_energy_inference (infer io) sg) as [[ | ] si | si];
      cbn [final when] in *.
    + pose proof (keeps_process_results_efficient total
                    (fun _ _ => eq_refl) si) as K3.
      destruct (process_results_efficient si) as [[] sp | sp]; cbn [final] in *.
      * right. unfold modify. cbn [final]. unfold total in *. cbn.
        rewrite K3, K2, K1. reflexivity.
      * left. congruence.
    + left. cbn. congruence.
    + left. congruence.
  - left. exact K1.
  - left. exact K1.
Qed.

(** X15: one call of [run] never changes [skipped_inferences] and counts at
    most one inference: [total_inferences] keeps its value or advances by
    one (modulo 2^32). *)
Theorem run_counts_at_most_one_inference (io : RunIO) (s : Engine) :
  skipped_inferences (metrics (final (run io s))) = skipped_inferences (metrics s)
  /\ (total_inferences (metrics (final (run io s))) = total_inferences (metrics s)
      \/ total_inferences (metrics (final (run io s)))
         = wrap32 (total_inferences (metrics s) + 1)).
Proof.
  split; [exact (run_never_skips io s) | ].
  fold (total (final (run io s))). fold (total s).
  assert (Hpipe : forall s1, total (final (run_pipeline io s1)) = total s1
                             \/ total (final (run_pipeline io s1)) = wrap32 (total s1 + 1)).
  { intros s1. unfold run_pipeline, bind.
    pose proof (keeps_smart_audio_capture total
                  (fun _ _ => eq_refl) (fun _ _ => eq_refl) (fun _ _ => eq_refl)
                  (fun _ _ => eq_refl) (fun _ _ => eq_refl) (fun _ _ => eq_refl)
                  (capture io) s1) as Kc.
    destruct (smart_audio_capture (capture io) s1) as [[ | ] s2 | s2];
      cbn [final when] in *; try (left; exact Kc).
    assert (Kp : keeps total preprocess_audio_efficient)
      by (unfold preprocess_audio_efficient; keeps_auto).
    specialize (Kp s2).
    destruct (preprocess_audio_efficient s2) as [[ | ] s3 | s3];
      cbn [final when ret] in *; try (left; congruence).
    destruct (total_inference_stage io s3) as [H | H]; [left | right]; congruence. }
  unfold run, bind.
  pose proof (keeps_run_policy total
                (fun _ _ => eq_refl) (fun _ _ => eq_refl) (fun _ _ => eq_refl)
                (fun _ _ => eq_refl) (fun _ _ _ => eq_refl) (fun _ _ => eq_refl)
                (fun _ _ _ => eq_refl) (fun _ _ => eq_refl) (fun _ _ => eq_refl)
                (fun _ _ => eq_refl) (fun _ _ => eq_refl) io s) as K0.
  assert (Ke : keeps total (run_epilogue io))
    by (apply keeps_run_epilogue; reflexivity).
  destruct (run_policy io s) as [due s1 | s1]; cbn [final] in *; [ | left; exact K0].
  destruct due; cbn [when].
  - specialize (Hpipe s1).
    destruct (run_pipeline io s1) as [[] s2 | s2]; cbn [final] in *.
    + rewrite (Ke s2). destruct Hpipe; [left | right]; congruence.
    + destruct Hpipe; [left | right]; congruence.
  - cbn [ret]. rewrite (Ke s1). left. exact K0.
Qed.

End Inference.

(** ** Application entry *)

Section Entry.


End Entry.

(** ** Calibrator efficiency *)

Section Efficiency.

(** X17: [calculate_efficiency] returns 0 for every argument while the
    calibrator is not calibrated; once calibrated it has no guard against a
    zero consumption: with a positive baseline the result is the infinity of
    the sign of that zero, with a zero baseline it is NaN. *)
Theorem calculate_efficiency_edges (c : EnergyCalibrator) :
  (is_calibrated c = false ->
   forall x, calculate_efficiency x c = F32.zero)
  /\ (is_calibrated c = true ->
      forall (sz : bool) (m : positive) (e : Z),
        get_baseline c = S754_finite false m e ->
        calculate_efficiency (S754_zero sz) c = S754_infinity sz)
  /\ (is_calibrated c = true ->
      forall sz sb : bool,
        get_baseline c = S754_zero sb ->
        calculate_efficiency (S754_zero sz) c = S754_nan).
Proof.
  unfold is_calibrated, get_baseline, calculate_efficiency.
  split; [ | split]; intros Hc; rewrite Hc; cbn [negb].
  - reflexivity.
  - intros sz m e Hb. rewrite Hb. destruct sz; reflexivity.
  - intros sz sb Hb. rewrite Hb. destruct sz, sb; reflexivity.
Qed.

End Efficiency.

(** ** Energy profiles *)

Section Profiles.

(** X18: [apply_energy_profile] changes the CPU frequency exactly for the
    indices 0 to 4, to 240, 160, 80, 40 and 20 MHz; for every other [int],
    negative or too large, it does nothing. *)
Theorem apply_energy_profile_bounds (profile_index : Z)
    (Hint : - 2 ^ 31 <= profile_index < 2 ^ 31) :
  (profile_index < 0 \/ 5 <= profile_index -> apply_energy_profile profile_index = [])
  /\ (0 <= profile_index < 5 ->
      apply_energy_profile profile_index
      = [EvSetCpuFrequencyMhz
           (nth (Z.to_nat profile_index) [240; 160; 80; 40; 20] 0)]).
Proof.
  unfold apply_energy_profile. split; intros H.
  - destruct (Z.ltb_spec profile_index 0) as [Hneg | Hpos]; [reflexivity | ].
    assert (Hw : wrap32 profile_index = profile_index)
      by (unfold wrap32; apply Z.mod_small; lia).
    rewrite Hw. cbn [orb length energy_profiles].
    destruct (Z.geb_spec profile_index (Z.of_nat 5)); [reflexivity | lia].
  - assert (Hw : wrap32 profile_index = profile_index)
      by (unfold wrap32; apply Z.mod_small; lia).
    rewrite Hw.
    assert (Hcase : profile_index = 0 \/ profile_index = 1 \/ profile_index = 2
                    \/ profile_index = 3 \/ profile_index = 4) by lia.
    destruct Hcase as [-> | [-> | [-> | [-> | ->]]]]; reflexivity.
Qed.

(** X19: the first four profiles are the operating points of the four awake
    modes: a transition of [set_energy_mode] to an awake mode other than the
    current one ends with the sample rate, the buffer size
    [AUDIO_BUFFER_SIZE / buffer_divisor] and the power of the profile whose
    index is the ordinal of the mode, after a CPU-frequency change to the
    frequency of that profile. *)
Theorem profiles_match_modes (io : I2sIO) (mode : EnergyMode) (s : Engine)
    (p : energy_profile_t)
    (Hnew : current_energy_mode s <> mode)
    (Hawake : mode <> ENERGY_DEEP_SLEEP)
    (Hp : nth_error energy_profiles (Z.to_nat (mode_ord mode)) = Some p) :
  let o := set_energy_mode io mode s in
  current_sample_rate (final o) = sample_rate p
  /\ current_buffer_size (final o) = AUDIO_BUFFER_SIZE / buffer_divisor p
  /\ power_consumption_mw (metrics (final o)) = expected_power_mw p
  /\ In (EvSetCpuFrequencyMhz (cpu_freq p)) (trace (final o)).
Proof.
  cbv zeta. destruct io as [i1 i2].
  destruct s as [ab pa bs sr ms cur t1 t2 t3 ma ii am ctr ta ml b1 b2 b3 tr].
  cbn [current_energy_mode] in Hnew.
  destruct mode; try contradiction; cbn in Hp; injection Hp as <-;
    destruct cur; try contradiction; destruct ma, ii, i1, i2;
    cbn -[F32.lit]; repeat split; tauto.
Qed.

End Profiles.

(** ** Dynamic optimisation *)

Section Optimisation.

Lemma dynamic_optimization_step (h c : Z) :
  0 <= c < 99 ->
  dynamic_optimization h c
  = Continued (c + 1) ((c + 1 =? 50) && (wrap32 h <? 50000)).
Proof.
  intros Hc. unfold dynamic_optimization.
  assert (Hw : wrap32 (c + 1) = c + 1) by (unfold wrap32; apply Z.mod_small; lia).
  rewrite Hw.
  assert (H100 : (c + 1) mod 100 = c + 1) by (apply Z.mod_small; lia).
  rewrite H100.
  destruct (Z.eqb_spec (c + 1) 0) as [E | _]; [lia | ].
  f_equal. f_equal.
  destruct (Z.eqb_spec (c + 1) 50) as [E | NE].
  - rewrite E. reflexivity.
  - destruct (Z.lt_ge_cases (c + 1) 50) as [Hlt | Hge].
    + rewrite Z.mod_small by lia. apply Z.eqb_neq. lia.
    + replace (c + 1) with ((c + 1 - 50) + 1 * 50) by lia.
      rewrite Z.mod_add by lia. rewrite Z.mod_small by lia.
      apply Z.eqb_neq. lia.
Qed.

Lemma dynamic_optimization_restart (h : Z) : dynamic_optimization h 99 = Restarted.
Proof. reflexivity. Qed.

Lemma optimization_cycles_counter (heaps : list Z) (c : Z) :
  0 <= c ->
  (c + Z.of_nat (length heaps) < 100 ->
   fst (optimization_cycles heaps c) = Some (c + Z.of_nat (length heaps)))
  /\ (c < 100 <= c + Z.of_nat (length heaps) ->
      fst (optimization_cycles heaps c) = None).
Proof.
  revert c. induction heaps as [ | h heaps IH]; intros c Hc.
  - cbn [length optimization_cycles fst]. split; intros H; [f_equal; lia | lia].
  - cbn [length]. rewrite Nat2Z.inj_succ.
    destruct (Z.eq_dec c 99) as [-> | Hne].
    + split; intros H; [lia | ]. cbn [optimization_cycles].
      rewrite dynamic_optimization_restart. reflexivity.
    + destruct (Z.lt_ge_cases c 99) as [Hlt | Hge].
      * cbn [optimization_cycles].
        rewrite dynamic_optimization_step by lia. cbn [fst].
        destruct (IH (c + 1) ltac:(lia)) as (IH1 & IH2).
        split; intros H.
        -- rewrite IH1 by lia. f_equal. lia.
        -- apply IH2. lia.
      * split; intros H; lia.
Qed.

(** X20: counted from boot, the first 99 calls of [dynamic_optimization]
    return and the 100th restarts the device, whatever the free heap; among
    the calls that return, only the 50th can print the low-memory warning,
    and it does so exactly when less than 50000 bytes are free. *)
Theorem dynamic_optimization_restart_cadence (heaps : list Z) :
  ((length heaps < 100)%nat ->
   fst (optimization_cycles heaps 0) = Some (Z.of_nat (length heaps)))
  /\ ((100 <= length heaps)%nat -> fst (optimization_cycles heaps 0) = None)
  /\ (forall h c : Z,
         0 <= c < 99 ->
         dynamic_optimization h c
         = Continued (c + 1) ((c + 1 =? 50) && (wrap32 h <? 50000)))
  /\ (forall h : Z, dynamic_optimization h 99 = Restarted).
Proof.
  destruct (optimization_cycles_counter heaps 0 ltac:(lia)) as (H1 & H2).
  split; [ | split; [ | split]].
  - intros H. rewrite H1 by lia. reflexivity.
  - intros H. apply H2. lia.
  - exact dynamic_optimization_step.
  - exact dynamic_optimization_restart.
Qed.

End Optimisation.

(** ** Advanced statistics *)

Section Statistics.

Lemma update_peak (p : F32.t) (d : Z) (st : advanced_energy_stats_t) :
  not_nan p -> not_nan (peak_power_mw st) ->
  let st' := update_energy_statistics p d st in
  not_nan (peak_power_mw st')
  /\ ~ key_lt (float_key (peak_power_mw st')) (float_key (peak_power_mw st))
  /\ ~ key_lt (float_key (peak_power_mw st')) (float_key p).
Proof.
  intros Hp Hk. cbv zeta. cbn [update_energy_statistics peak_power_mw].
  destruct (F32.gtb p (peak_power_mw st)) eqn:G.
  - pose proof (gtb_key p (peak_power_mw st) true Hp Hk G) as K. cbn beta iota in K.
    split; [exact Hp | ]. unfold key_lt in *.
    destruct (float_key p) as [[p1 p2] p3].
    destruct (float_key (peak_power_mw st)) as [[k1 k2] k3]. lia.
  - pose proof (gtb_key p (peak_power_mw st) false Hp Hk G) as K. cbn beta iota in K.
    split; [exact Hk | ]. unfold key_lt in *.
    destruct (float_key p) as [[p1 p2] p3].
    destruct (float_key (peak_power_mw st)) as [[k1 k2] k3]. lia.
Qed.

Lemma record_readings_peak (rs : list (F32.t * Z)) (st : advanced_energy_stats_t) :
  not_nan (peak_power_mw st) ->
  Forall (fun r => not_nan (fst r)) rs ->
  let st' := record_readings rs st in
  not_nan (peak_power_mw st')
  /\ ~ key_lt (float_key (peak_power_mw st')) (float_key (peak_power_mw st))
  /\ Forall (fun r => ~ key_lt (float_key (peak_power_mw st')) (float_key (fst r))) rs.
Proof.
  intros Hk Hrs. revert st Hk. induction Hrs as [ | r rs Hr _ IH]; intros st Hk.
  - cbn. split; [exact Hk | split; [ | constructor]].
    unfold key_lt. destruct (float_key (peak_power_mw st)) as [[k1 k2] k3]. lia.
  - cbv zeta.
    change (record_readings (r :: rs) st)
      with (record_readings rs (update_energy_statistics (fst r) (snd r) st)).
    destruct (update_peak (fst r) (snd r) st Hr Hk) as (N1 & P1 & R1).
    destruct (IH _ N1) as (N2 & P2 & R2).
    split; [exact N2 | ].
    set (st1 := update_energy_statistics (fst r) (snd r) st) in *.
    set (st2 := record_readings rs st1) in *.
    split; [ | constructor; [ | exact R2]]; cbv beta; clear R2 IH;
      unfold key_lt in *;
      destruct (float_key (peak_power_mw st2)) as [[a1 a2] a3];
      destruct (float_key (peak_power_mw st1)) as [[b1 b2] b3];
      destruct (float_key (peak_power_mw st)) as [[c1 c2] c3];
      destruct (float_key (fst r)) as [[d1 d2] d3];
      lia.
Qed.

Lemma record_readings_counters (rs : list (F32.t * Z)) (st : advanced_energy_stats_t) :
  let st' := record_readings rs st in
  sleep_time_ms st' = sleep_time_ms st
  /\ deep_sleep_count st' = deep_sleep_count st
  /\ battery_cycles st' = battery_cycles st
  /\ (total_runtime_ms st = active_time_ms st ->
      total_runtime_ms st' = active_time_ms st').
Proof.
  revert st. induction rs as [ | r rs IH]; intros st.
  - cbn. repeat split. intros H; exact H.
  - cbv zeta.
    change (record_readings (r :: rs) st)
      with (record_readings rs (update_energy_statistics (fst r) (snd r) st)).
    destruct (IH (update_energy_statistics (fst r) (snd r) st)) as (S1 & D1 & B1 & T1).
    rewrite S1, D1, B1. repeat split.
    intros H. apply T1. cbn [update_energy_statistics total_runtime_ms active_time_ms].
    rewrite H. reflexivity.
Qed.

(** X21: after any sequence of readings recorded from the zero record, the
    active time equals the total runtime, and the sleep time, the deep-sleep
    count and the battery-cycle count are still 0; when no reading is NaN
    the peak is not NaN, is at least 0 and is at least every reading
    recorded. *)
Theorem energy_statistics_invariants (rs : list (F32.t * Z)) :
  let st := record_readings rs energy_stats_zero in
  total_runtime_ms st = active_time_ms st
  /\ sleep_time_ms st = 0
  /\ deep_sleep_count st = 0
  /\ battery_cycles st = 0
  /\ (Forall (fun r => not_nan (fst r)) rs ->
      not_nan (peak_power_mw st)
      /\ SFleb F32.zero (peak_power_mw st) = true
      /\ Forall (fun r => SFleb (fst r) (peak_power_mw st) = true) rs).
Proof.
  cbv zeta.
  destruct (record_readings_counters rs energy_stats_zero) as (S1 & D1 & B1 & T1).
  split; [apply T1; reflexivity | ].
  split; [exact S1 | split; [exact D1 | split; [exact B1 | ]]].
  intros Hrs.
  assert (Hz : not_nan (peak_power_mw energy_stats_zero)) by (cbn; discriminate).
  destruct (record_readings_peak rs energy_stats_zero Hz Hrs) as (N & P & R).
  split; [exact N | split].
  - apply (SFleb_key F32.zero _ Hz N). exact P.
  - rewrite Forall_forall in *. intros r Hr.
    apply (SFleb_key (fst r) _ (Hrs r Hr) N). apply R. exact Hr.
Qed.

End Statistics.

(** ** Bound of the skip counter *)

Section GateBound.

Lemma wrap8_range (z : Z) : 0 <= wrap8 z < 256.
Proof. unfold wrap8. apply Z.mod_pos_bound. lia. Qed.

(** X22: outside ACTIVE every call of the gate leaves the skip counter
    between 0 and 2, whatever it was before; and from a counter in that
    range the gate answers yes at least once in any three consecutive calls,
    so silence is examined again after at most two skipped cycles. *)
Theorem skip_counter_bounded (s : Engine)
    (Hmode : current_energy_mode s <> ENERGY_ACTIVE) :
  0 <= inference_skip_counter (final (should_run_inference s)) <= 2
  /\ (0 <= inference_skip_counter s <= 2 ->
      In true (fst (repeat_calls should_run_inference 3 s))).
Proof.
  destruct s as [ab pa bs sr [m1 m2 m3 m4 m5 m6 m7 m8 vd m10 m11 m12]
                   mode t1 t2 t3 ma ii am ctr ta ml b1 b2 b3 tr].
  cbn [current_energy_mode inference_skip_counter] in *.
  split.
  - unfold should_run_inference, bind, get.
    cbn [current_energy_mode metrics voice_detected].
    destruct mode; try contradiction; destruct vd;
      cbn -[wrap8 Z.ltb]; try lia;
      pose proof (wrap8_range (ctr + 1)) as Hr;
      destruct (Z.ltb_spec (wrap8 (ctr + 1)) INFERENCE_SKIP_COUNT) as [Hlt | Hge];
      cbn -[wrap8]; unfold INFERENCE_SKIP_COUNT in *; lia.
  - intros Hc.
    assert (Hcase : ctr = 0 \/ ctr = 1 \/ ctr = 2) by lia.
    destruct Hcase as [-> | [-> | ->]];
      destruct mode; try contradiction; destruct vd; cbn; tauto.
Qed.

End GateBound.

(** ** The feature buffer *)

Section Features.

Lemma window_length (buf : list Z) (n : Z) : length (window buf n) = Z.to_nat n.
Proof. unfold window. rewrite length_map, length_seq. reflexivity. Qed.

Lemma window_nth (buf : list Z) (n : Z) (i : nat) :
  (i < Z.to_nat n)%nat -> nth i (window buf n) 0 = nth i buf 0.
Proof.
  intros Hi. unfold window.
  transitivity (nth i (map (fun k => nth k buf 0) (seq 0 (Z.to_nat n)))
                  ((fun k => nth k buf 0) O)).
  - apply nth_indep. rewrite length_map, length_seq. exact Hi.
  - etransitivity; [apply (map_nth (fun k => nth k buf 0)) | ].
    cbv beta. rewrite seq_nth by exact Hi. reflexivity.
Qed.

(** X23: a preprocessing pass on an allocated feature buffer always leaves
    exactly [INPUT_FEATURES] features, whatever the current buffer size:
    feature [i] is half the normalised sample [i] for the samples processed
    and 0 from there on. *)
Theorem feature_buffer_shape (s : Engine) (old : list F32.t)
    (Halloc : preprocessed_audio s = Some old)
    (Hsize : 0 <= current_buffer_size s) :
  let n := samples_to_process s in
  preprocessed_audio (final (preprocess_audio_efficient s)) = Some (features s)
  /\ 0 <= n <= INPUT_FEATURES
  /\ length (features s) = Z.to_nat INPUT_FEATURES
  /\ (forall i : nat, Z.of_nat i < n ->
        nth i (features s) F32.zero
        = F32.mul (normalize (nth i (audio_buffer s) 0)) (F32.lit 1 2))
  /\ (forall i : nat, n <= Z.of_nat i -> nth i (features s) F32.zero = F32.zero).
Proof.
  cbv zeta.
  destruct (preprocess_effect s old Halloc) as (_ & _ & _ & _ & _ & _ & P & _).
  assert (Hn : 0 <= samples_to_process s <= INPUT_FEATURES).
  { unfold samples_to_process, MIN, INPUT_FEATURES.
    destruct (Z.ltb_spec (current_buffer_size s) 1024); lia. }
  split; [exact P | split; [exact Hn | ]].
  unfold features.
  set (n := samples_to_process s) in *.
  set (half := fun x => F32.mul (normalize x) (F32.lit 1 2)).
  assert (Hlen : length (map half (window (audio_buffer s) n)) = Z.to_nat n)
    by (rewrite length_map; apply window_length).
  split; [ | split].
  - rewrite length_app, Hlen, repeat_length. lia.
  - intros i Hi. rewrite app_nth1 by lia.
    rewrite (nth_indep _ F32.zero (half 0)) by lia.
    rewrite map_nth. unfold half. rewrite window_nth by lia. reflexivity.
  - intros i Hi. rewrite app_nth2 by lia.
    destruct (Nat.lt_ge_cases (i - length (map half (window (audio_buffer s) n)))
                (Z.to_nat (INPUT_FEATURES - n))) as [Hlt | Hge].
    + apply nth_repeat_lt. exact Hlt.
    + apply nth_overflow. rewrite repeat_length. exact Hge.
Qed.

End Features.

(** ** Capture without a driver *)

Section CaptureFailure.

(** X24: when the microphone is inactive and its driver cannot be installed
    or its pins cannot be set, the capture returns false without reading:
    the microphone stays inactive, the driver is not marked installed, and
    the audio buffer and the microphone time keep their values. *)
Theorem capture_needs_driver (io : CaptureIO) (s : Engine)
    (Hmic : mic_active s = false)
    (Hfail : install_ok (cap_i2s io) && set_pin_ok (cap_i2s io) = false) :
  let o := smart_audio_capture io s in
  result o = Some false
  /\ mic_active (final o) = false
  /\ i2s_installed (final o) = false
  /\ audio_buffer (final o) = audio_buffer s
  /\ mic_active_time_ms (metrics (final o)) = mic_active_time_ms (metrics s)
  /\ length (filter is_i2s_read (trace (final o)))
     = length (filter is_i2s_read (trace s)).
Proof.
  cbv zeta. destruct io as [[i1 i2] c0 c1 ok got].
  destruct s as [ab pa bs sr ms cur t1 t2 t3 ma ii am ctr ta ml b1 b2 b3 tr].
  cbn [mic_active cap_i2s install_ok set_pin_ok] in *. subst ma.
  destruct i1, i2; try discriminate; destruct ii; cbn; repeat split.
Qed.

End CaptureFailure.

(** ** Cadence of the battery refresh *)

Section BatteryCadence.

Lemma final_bind_keeps {X A B} (f : Engine -> X) (m : M A) (k : A -> M B) (s : Engine) :
  (forall a, keeps f (k a)) ->
  f (final (bind m k s)) = f (final (m s)).
Proof.
  intros Hk. unfold bind. destruct (m s) as [a s1 | s1]; cbn [final].
  - apply Hk.
  - reflexivity.
Qed.

Lemma keeps_battery_record_pipeline io : keeps battery_record (run_pipeline io).
Proof.
  assert (K1 : keeps battery_record (smart_audio_capture (capture io)))
    by (apply keeps_smart_audio_capture; reflexivity).
  assert (K2 : keeps battery_record preprocess_audio_efficient)
    by (unfold preprocess_audio_efficient; keeps_auto).
  assert (K3 : keeps battery_record (run_inference_stage io))
    by (apply keeps_run_inference_stage; reflexivity).
  unfold run_pipeline. keeps_auto.
Qed.

Lemma battery_record_after_policy (io : RunIO) (s : Engine) :
  battery_record (final (run io s))
  = battery_record
      (final (when (wrap32 (wrap32 (now io) - last_battery_check s) >? 30000)
                (update_battery_status (adc_raw io) (bat_i2s io) ;;
                 modify (set_last_battery_check (wrap32 (now io)))) s)).
Proof.
  unfold run.
  rewrite (final_bind_keeps battery_record).
  2: { intros due. apply keeps_bind.
       - apply keeps_when. apply keeps_battery_record_pipeline.
       - intros _. apply keeps_run_epilogue; reflexivity. }
  unfold run_policy. unfold bind at 1. unfold get.
  rewrite (final_bind_keeps battery_record); [reflexivity | ].
  intros _. apply keeps_bind.
  - apply keeps_manage_energy_modes; reflexivity.
  - intros _. apply keeps_should_process_audio; reflexivity.
Qed.

(** X25: a call of [run] reads the battery only when more than 30000 ms
    have passed since the last reading: otherwise the stored voltage, the
    level and the time of the last reading are unchanged; when it does read,
    the level stored at the end of the call is the level of the new reading,
    and the time of the reading is recorded unless that level is CRITICAL. *)
Theorem battery_refresh_cadence (io : RunIO) (s : Engine) :
  let elapsed := wrap32 (wrap32 (now io) - last_battery_check s) in
  let level := classify_voltage (adc_to_voltage (wrap32 (adc_raw io))) in
  (elapsed <= 30000 -> battery_record (final (run io s)) = battery_record s)
  /\ (30000 < elapsed ->
      battery_level (metrics (final (run io s))) = level
      /\ battery_voltage (metrics (final (run io s)))
         = adc_to_voltage (wrap32 (adc_raw io))
      /\ (level <> BATTERY_CRITICAL ->
          last_battery_check (final (run io s)) = wrap32 (now io))).
Proof.
  cbv zeta. rewrite battery_record_after_policy.
  split; intros H.
  - destruct (Z.gtb_spec (wrap32 (wrap32 (now io) - last_battery_check s)) 30000);
      [lia | reflexivity].
  - assert (Hrec : battery_record
                     (final (when (wrap32 (wrap32 (now io) - last_battery_check s)
                                   >? 30000)
                               (update_battery_status (adc_raw io) (bat_i2s io) ;;
                                modify (set_last_battery_check (wrap32 (now io)))) s))
                   = battery_record (final (run io s)))
      by (symmetry; apply battery_record_after_policy).
    destruct (Z.gtb_spec (wrap32 (wrap32 (now io) - last_battery_check s)) 30000)
      as [_ | Hle]; [ | lia].
    cbn [when] in Hrec. unfold bind in Hrec.
    rewrite update_battery_status_cases in Hrec. cbv zeta in Hrec.
    set (v := adc_to_voltage (wrap32 (adc_raw io))) in *.
    set (s1 := upd_metrics (set_battery v (classify_voltage v)) s) in *.
    assert (Hk : forall mode,
               battery_record (final (set_energy_mode (bat_i2s io) mode s1))
               = (v, classify_voltage v, last_battery_check s)).
    { intros mode.
      rewrite (keeps_set_energy_mode battery_record) by reflexivity. reflexivity. }
    unfold battery_record in Hrec at 2.
    destruct (classify_voltage v) eqn:L.
    + cbn in Hrec. injection Hrec as <- <- <-.
      split; [reflexivity | split; [reflexivity | intros _; reflexivity]].
    + cbn in Hrec. injection Hrec as <- <- <-.
      split; [reflexivity | split; [reflexivity | intros _; reflexivity]].
    + destruct (set_energy_mode_returns (bat_i2s io) ENERGY_ULTRA_ECO s1)
        as (s2 & E & _); [discriminate | ].
      specialize (Hk ENERGY_ULTRA_ECO). rewrite E in Hk, Hrec.
      cbn [final] in Hk. unfold battery_record in Hk. injection Hk as K1 K2 K3.
      cbn in Hrec. injection Hrec as <- <- <-.
      split; [exact K2 | split; [exact K1 | intros _; reflexivity]].
    + specialize (Hk ENERGY_DEEP_SLEEP).
      destruct (set_energy_mode (bat_i2s io) ENERGY_DEEP_SLEEP s1) as [[] s2 | s2];
        cbn [final] in Hk; unfold battery_record in Hk; injection Hk as K1 K2 K3;
        cbn in Hrec; injection Hrec as <- <- <-;
        (split; [exact K2 | split; [exact K1 | intros C; contradiction]]).
Qed.

End BatteryCadence.

(** ** A cycle with voice in degraded mode *)

Section VoicedCycle.

Lemma degraded_stage (io : RunIO) (s : Engine) :
  voice_detected (metrics s) = true ->
  model_loaded s = false ->
  exists s', run_inference_stage io s = Returned tt s'
             /\ total_inferences (metrics s') = wrap32 (total_inferences (metrics s) + 1)
             /\ last_activity_time s' = wrap32 (now io)
             /\ predicted_class (metrics s') = CLASS_SILENCE
             /\ length (filter is_led_write (trace s'))
                = length (filter is_led_write (trace s)).
Proof.
  intros Hv Hm. unfold run_inference_stage, bind.
  destruct (gate_with_voice s Hv) as [E | E]; rewrite E;
    unfold run_energy_inference, bind, get;
    cbn [TFLITE_AVAILABLE model_loaded set_inference_skip_counter];
    rewrite Hm; cbn -[wrap32]; eexists; repeat split.
Qed.

Lemma keeps_model_loaded_before_stage io :
  keeps model_loaded (run_policy io)
  /\ keeps model_loaded (smart_audio_capture (capture io))
  /\ keeps model_loaded preprocess_audio_efficient.
Proof.
  split; [apply keeps_run_policy; reflexivity | split].
  - apply keeps_smart_audio_capture; reflexivity.
  - unfold preprocess_audio_efficient. keeps_auto.
Qed.

(** X26: while no model is loaded, a cycle in which processing is due, the
    capture succeeds and preprocessing reports voice always completes an
    inference: [total_inferences] advances by one, the time of the cycle
    becomes the last activity time, [skipped_inferences] is unchanged and
    the predicted class is 0 (silence). *)
Theorem voiced_cycle_counts_inference (io : RunIO) (s s1 s2 s3 : Engine)
    (Hdegraded : model_loaded s = false)
    (Hdue : run_policy io s = Returned true s1)
    (Hcap : smart_audio_capture (capture io) s1 = Returned true s2)
    (Hpre : preprocess_audio_efficient s2 = Returned true s3) :
  total_inferences (metrics (final (run io s)))
  = wrap32 (total_inferences (metrics s) + 1)
  /\ skipped_inferences (metrics (final (run io s))) = skipped_inferences (metrics s)
  /\ last_activity_time (final (run io s)) = wrap32 (now io)
  /\ predicted_class (metrics (final (run io s))) = CLASS_SILENCE.
Proof.
  destruct (keeps_model_loaded_before_stage io) as (M1 & M2 & M3).
  assert (Hm3 : model_loaded s3 = false).
  { change s3 with (final (Returned true s3)). rewrite <- Hpre, M3.
    change s2 with (final (Returned true s2)). rewrite <- Hcap, M2.
    change s1 with (final (Returned true s1)). rewrite <- Hdue, M1.
    exact Hdegraded. }
  assert (Ht3 : total s3 = total s).
  { change s3 with (final (Returned true s3)). rewrite <- Hpre.
    assert (Kp : keeps total preprocess_audio_efficient)
      by (unfold preprocess_audio_efficient; keeps_auto).
    rewrite Kp.
    change s2 with (final (Returned true s2)). rewrite <- Hcap.
    rewrite (keeps_smart_audio_capture total) by reflexivity.
    change s1 with (final (Returned true s1)). rewrite <- Hdue.
    apply (keeps_run_policy total); reflexivity. }
  destruct (degraded_stage io s3 (preprocess_returns_flag s2 s3 Hpre) Hm3)
    as (s4 & E & T4 & A4 & P4 & _).
  assert (Hrun : run io s = run_epilogue io s4).
  { unfold run, run_pipeline, bind.
    rewrite Hdue. cbn [when]. rewrite Hcap. cbn [when]. rewrite Hpre.
    cbn [when]. rewrite E. reflexivity. }
  split; [ | split; [exact (run_never_skips io s) | ]].
  - rewrite Hrun. fold (total (final (run_epilogue io s4))).
    rewrite (keeps_run_epilogue total) by reflexivity.
    unfold total in *. rewrite T4, Ht3. reflexivity.
  - rewrite Hrun.
    pose proof (keeps_run_epilogue
                  (fun x => (last_activity_time x, predicted_class (metrics x)))
                  (fun _ _ => eq_refl) (fun _ _ => eq_refl) (fun _ _ => eq_refl)
                  io s4) as K.
    cbv beta in K. injection K as K1 K2. rewrite K1, K2. split; assumption.
Qed.

End VoicedCycle.

(** ** Sleep efficiency of the statistics *)

Section SleepEfficiency.

Lemma of_Z_unsigned (z : Z) : 0 <= z -> unsigned_value (F32.of_Z z).
Proof.
  intros Hz. unfold F32.of_Z, binary_normalize.
  destruct z as [ | p | p]; [reflexivity | | lia].
  unfold binary_round. destruct (shl_align _ _ _) as [mz ez].
  apply round_aux_unsigned.
Qed.

(** X27: the sleep efficiency printed by the statistics report is never a
    non-zero number, whatever readings were recorded: no operation adds to
    the sleep time, so the quotient is +0, or NaN when it is 0/0, which is
    the case as long as no runtime has been recorded. *)
Theorem sleep_efficiency_is_zero_or_nan (rs : list (F32.t * Z)) :
  let st := record_readings rs energy_stats_zero in
  (sleep_efficiency st = F32.zero \/ sleep_efficiency st = S754_nan)
  /\ (total_runtime_ms st = 0 -> sleep_efficiency st = S754_nan)
  /\ sleep_efficiency energy_stats_zero = S754_nan.
Proof.
  cbv zeta.
  destruct (record_readings_counters rs energy_stats_zero) as (S1 & _).
  unfold sleep_efficiency. rewrite S1.
  cbn [sleep_time_ms energy_stats_zero].
  split; [ | split; [intros H; rewrite H; reflexivity | reflexivity]].
  assert (Hrange : 0 <= total_runtime_ms (record_readings rs energy_stats_zero)).
  { destruct rs as [ | r rs] using rev_ind; [cbn; lia | ].
    unfold record_readings. rewrite fold_left_app. cbn [fold_left].
    cbn [update_energy_statistics total_runtime_ms].
    unfold wrap32. apply Z.mod_pos_bound. lia. }
  pose proof (of_Z_unsigned _ Hrange) as U.
  destruct (F32.of_Z (total_runtime_ms (record_readings rs energy_stats_zero)))
    as [sg | sg | | sg m e]; cbn [unsigned_value] in U; subst;
    [right | left | right | left]; reflexivity.
Qed.

End SleepEfficiency.

(** ** Concrete runs of the further properties *)

Section FurtherWitnesses.

Lemma adc_reading_bands_witness :
  0 <= 2600 < 4096
  /\ classify_voltage (adc_to_voltage 2600) = BATTERY_FULL
  /\ classify_voltage (adc_to_voltage 2047) = BATTERY_CRITICAL.
Proof.
  assert (H1 : 0 <= 2600 < 4096) by lia.
  assert (H2 : 0 <= 2047 < 4096) by lia.
  split; [exact H1 | split].
  - destruct (adc_reading_bands 2600 H1) as (_ & _ & _ & _ & F). apply F. lia.
  - destruct (adc_reading_bands 2047 H2) as (_ & C & _). apply C. lia.
Defined.


Lemma set_energy_mode_operating_point_witness :
  current_energy_mode mic_running <> ENERGY_ACTIVE
  /\ ENERGY_ACTIVE <> ENERGY_DEEP_SLEEP
  /\ current_buffer_size (final (set_energy_mode driver_ok ENERGY_ACTIVE mic_running))
     = 1024
  /\ current_sample_rate (final (set_energy_mode driver_ok ENERGY_ACTIVE mic_running))
     = 16000.
Proof.
  assert (Hn : current_energy_mode mic_running <> ENERGY_ACTIVE)
    by (vm_compute; discriminate).
  assert (Ha : ENERGY_ACTIVE <> ENERGY_DEEP_SLEEP) by discriminate.
  destruct (set_energy_mode_operating_point driver_ok ENERGY_ACTIVE mic_running Hn Ha)
    as ((_ & _ & Hr & Hs & _) & _).
  split; [exact Hn | split; [exact Ha | split; [exact Hs | exact Hr]]].
Defined.


Lemma voice_steps_up_to_balanced_witness :
  voice_detected (metrics voiced) = true
  /\ current_energy_mode voiced = ENERGY_ULTRA_ECO
  /\ current_energy_mode (final (manage_energy_modes 700 false driver_ok voiced))
     = ENERGY_BALANCED
  /\ last_voice_time (final (manage_energy_modes 700 false driver_ok voiced)) = 700.
Proof.
  destruct (voice_steps_up_to_balanced 700 driver_ok voiced eq_refl)
    as (_ & T & Mo & _).
  split; [reflexivity | split; [reflexivity | split; [exact Mo | exact T]]].
Defined.

Lemma silence_steps_down_to_eco_witness :
  voice_detected (metrics balanced) = false
  /\ wrap32 (3000 - last_voice_time balanced) <= DEEP_SLEEP_TIMEOUT_MS
  /\ SILENCE_TIMEOUT_MS < wrap32 (3000 - last_activity_time balanced)
  /\ current_energy_mode balanced = ENERGY_BALANCED
  /\ current_energy_mode (final (manage_energy_modes 3000 false driver_ok balanced))
     = ENERGY_ECO.
Proof.
  assert (Hv : voice_detected (metrics balanced) = false) by (vm_compute; reflexivity).
  assert (Hr : wrap32 (3000 - last_voice_time balanced) <= DEEP_SLEEP_TIMEOUT_MS)
    by (vm_compute; discriminate).
  assert (Hi : SILENCE_TIMEOUT_MS < wrap32 (3000 - last_activity_time balanced))
    by (vm_compute; reflexivity).
  destruct (silence_steps_down_to_eco 3000 driver_ok balanced Hv Hr) as (Hdown & _).
  destruct (Hdown Hi) as (_ & Mo & _).
  split; [exact Hv | split; [exact Hr | split; [exact Hi | split]]].
  - vm_compute. reflexivity.
  - exact Mo.
Defined.

Lemma should_process_audio_rate_limit_witness :
  current_energy_mode fresh <> ENERGY_ACTIVE
  /\ should_process_audio 1000 fresh
     = Returned true (set_last_audio_process 1000 fresh)
  /\ should_process_audio 1499 (set_last_audio_process 1000 fresh)
     = Returned false (set_last_audio_process 1000 fresh)
  /\ result (should_process_audio 1500 (set_last_audio_process 1000 fresh))
     = Some true.
Proof.
  assert (Hm : current_energy_mode fresh <> ENERGY_ACTIVE) by (cbn; discriminate).
  assert (Hy : should_process_audio 1000 fresh
               = Returned true (set_last_audio_process 1000 fresh)) by reflexivity.
  destruct (should_process_audio_rate_limit 1000 fresh _ Hm Hy) as (Hno & Hyes & _).
  split; [exact Hm | split; [exact Hy | split]].
  - apply Hno. vm_compute. reflexivity.
  - apply Hyes. vm_compute. discriminate.
Defined.

Lemma short_read_zero_fill_witness :
  smart_audio_capture short_read fresh
  = Returned true (final (smart_audio_capture short_read fresh))
  /\ 0 <= current_buffer_size fresh <= INPUT_FEATURES
  /\ window (audio_buffer (final (smart_audio_capture short_read fresh))) 256
     = [100; -200; 300] ++ repeat 0 253.
Proof.
  assert (Hc : smart_audio_capture short_read fresh
               = Returned true (final (smart_audio_capture short_read fresh)))
    by (vm_compute; reflexivity).
  assert (Hs : 0 <= current_buffer_size fresh <= INPUT_FEATURES)
    by (vm_compute; split; discriminate).
  destruct (short_read_zero_fill short_read fresh _ Hc Hs) as (W & _).
  split; [exact Hc | split; [exact Hs | exact W]].
Defined.

Lemma digital_silence_is_not_voice_witness :
  smart_audio_capture (capture (silent_cycle 1000)) fresh
  = Returned true (final (smart_audio_capture (capture (silent_cycle 1000)) fresh))
  /\ 0 <= current_buffer_size fresh <= INPUT_FEATURES
  /\ Forall (fun x => x = 0) (delivered (capture (silent_cycle 1000)))
  /\ result (preprocess_audio_efficient
               (final (smart_audio_capture (capture (silent_cycle 1000)) fresh)))
     = Some false.
Proof.
  assert (Hc : smart_audio_capture (capture (silent_cycle 1000)) fresh
               = Returned true
                   (final (smart_audio_capture (capture (silent_cycle 1000)) fresh)))
    by (vm_compute; reflexivity).
  assert (Hs : 0 <= current_buffer_size fresh <= INPUT_FEATURES)
    by (vm_compute; split; discriminate).
  assert (Hz : Forall (fun x => x = 0) (delivered (capture (silent_cycle 1000)))).
  { cbn [delivered capture silent_cycle]. apply Forall_forall.
    intros x Hx. apply repeat_spec in Hx. exact Hx. }
  destruct (digital_silence_is_not_voice _ fresh _ Hc Hs Hz) as (_ & R).
  split; [exact Hc | split; [exact Hs | split; [exact Hz | exact R]]].
Defined.

Lemma tied_scores_numbers (i : nat) :
  (i < 4)%nat -> not_nan (nth i tied_scores F32.zero).
Proof.
  intros Hi. destruct i as [ | [ | [ | [ | i]]]]; try lia; vm_compute; discriminate.
Qed.

Lemma argmax_scan_first_maximum_witness :
  (forall i : nat, (i < 4)%nat -> not_nan (nth i tied_scores F32.zero))
  /\ snd (argmax_scan tied_scores) = 1
  /\ SFleb (nth 3 tied_scores F32.zero) (fst (argmax_scan tied_scores)) = true.
Proof.
  split; [exact tied_scores_numbers | split; [reflexivity | ]].
  destruct (argmax_scan_first_maximum tied_scores tied_scores_numbers)
    as (_ & _ & Hle & _).
  apply (Hle 3%nat). lia.
Defined.

Lemma degraded_inference_is_silence_witness :
  model_loaded fresh = false
  /\ predicted_class (metrics (final (run_energy_inference (mk_infer 0 10 None) fresh)))
     = 0
  /\ trace (final (run_energy_inference (mk_infer 0 10 None) fresh)) = [EvDelay 1].
Proof.
  destruct (degraded_inference_is_silence (mk_infer 0 10 None) fresh eq_refl)
    as (_ & P & _ & _ & T & _).
  split; [reflexivity | split; [exact P | exact T]].
Defined.

Lemma failed_invoke_updates_nothing_witness :
  model_loaded loaded_voiced = true
  /\ invoke (infer (silent_cycle 1000)) = None
  /\ voice_detected (metrics loaded_voiced) = true
  /\ total_inferences
       (metrics (final (run_inference_stage (silent_cycle 1000) loaded_voiced))) = 0
  /\ trace (final (run_inference_stage (silent_cycle 1000) loaded_voiced)) = [EvInvoke].
Proof.
  destruct (failed_invoke_updates_nothing (silent_cycle 1000) loaded_voiced
              eq_refl eq_refl eq_refl) as (_ & T & _ & _ & _ & _ & _ & Tr).
  split; [reflexivity | split; [reflexivity | split; [reflexivity | split]]].
  - exact T.
  - exact Tr.
Defined.

Lemma apply_energy_profile_bounds_witness :
  (- 2 ^ 31 <= 2 < 2 ^ 31 /\ apply_energy_profile 2 = [EvSetCpuFrequencyMhz 80])
  /\ (- 2 ^ 31 <= 5 < 2 ^ 31 /\ apply_energy_profile 5 = [])
  /\ (- 2 ^ 31 <= -1 < 2 ^ 31 /\ apply_energy_profile (-1) = []).
Proof.
  assert (H2 : - 2 ^ 31 <= 2 < 2 ^ 31) by lia.
  assert (H5 : - 2 ^ 31 <= 5 < 2 ^ 31) by lia.
  assert (Hm : - 2 ^ 31 <= -1 < 2 ^ 31) by lia.
  split; [ | split].
  - split; [exact H2 | ].
    destruct (apply_energy_profile_bounds 2 H2) as (_ & Hin). apply Hin. lia.
  - split; [exact H5 | ].
    destruct (apply_energy_profile_bounds 5 H5) as (Hout & _). apply Hout. lia.
  - split; [exact Hm | ].
    destruct (apply_energy_profile_bounds (-1) Hm) as (Hout & _). apply Hout. lia.
Defined.

Lemma profiles_match_modes_witness :
  current_energy_mode fresh <> ENERGY_ECO
  /\ ENERGY_ECO <> ENERGY_DEEP_SLEEP
  /\ nth_error energy_profiles (Z.to_nat (mode_ord ENERGY_ECO))
     = Some (mk_profile "ECO"%string 80 8000 4 50 (F32.lit 60 1))
  /\ current_buffer_size (final (set_energy_mode driver_ok ENERGY_ECO fresh)) = 256
  /\ current_sample_rate (final (set_energy_mode driver_ok ENERGY_ECO fresh)) = 8000.
Proof.
  assert (Hn : current_energy_mode fresh <> ENERGY_ECO) by (cbn; discriminate).
  assert (Ha : ENERGY_ECO <> ENERGY_DEEP_SLEEP) by discriminate.
  destruct (profiles_match_modes driver_ok ENERGY_ECO fresh _ Hn Ha eq_refl)
    as (R & S' & _).
  split; [exact Hn | split; [exact Ha | split; [reflexivity | split]]].
  - exact S'.
  - exact R.
Defined.

Lemma skip_counter_bounded_witness :
  current_energy_mode about_to_wrap <> ENERGY_ACTIVE
  /\ 0 <= inference_skip_counter (final (should_run_inference about_to_wrap)) <= 2
  /\ In true (fst (repeat_calls should_run_inference 3 about_to_wrap)).
Proof.
  assert (Hm : current_energy_mode about_to_wrap <> ENERGY_ACTIVE)
    by (cbn; discriminate).
  destruct (skip_counter_bounded about_to_wrap Hm) as (B & Hyes).
  split; [exact Hm | split; [exact B | ]].
  apply Hyes. cbn. lia.
Defined.

Lemma feature_buffer_shape_witness :
  preprocessed_audio at_threshold = Some (repeat F32.zero 1024%nat)
  /\ 0 <= current_buffer_size at_threshold
  /\ length (features at_threshold) = 1024%nat
  /\ nth 1 (features at_threshold) F32.zero
     = F32.mul (normalize 367) (F32.lit 1 2)
  /\ nth 700 (features at_threshold) F32.zero = F32.zero.
Proof.
  assert (Hs : 0 <= current_buffer_size at_threshold) by (vm_compute; discriminate).
  destruct (feature_buffer_shape at_threshold _ eq_refl Hs)
    as (_ & _ & L & Hdata & Hzero).
  split; [reflexivity | split; [exact Hs | split; [exact L | split]]].
  - apply (Hdata 1%nat). vm_compute. reflexivity.
  - apply (Hzero 700%nat). vm_compute. discriminate.
Defined.

Lemma capture_needs_driver_witness :
  mic_active fresh = false
  /\ install_ok driver_broken && set_pin_ok driver_broken = false
  /\ result (smart_audio_capture (mk_capture driver_broken 0 5 true [1; 2; 3]) fresh)
     = Some false
  /\ audio_buffer
       (final (smart_audio_capture (mk_capture driver_broken 0 5 true [1; 2; 3]) fresh))
     = audio_buffer fresh.
Proof.
  destruct (capture_needs_driver (mk_capture driver_broken 0 5 true [1; 2; 3]) fresh
              eq_refl eq_refl) as (R & _ & _ & B & _).
  split; [reflexivity | split; [reflexivity | split; [exact R | exact B]]].
Defined.

Lemma voiced_cycle_counts_inference_witness :
  let io := loud_cycle 1000 in
  let s1 := final (run_policy io fresh) in
  let s2 := final (smart_audio_capture (capture io) s1) in
  let s3 := final (preprocess_audio_efficient s2) in
  model_loaded fresh = false
  /\ run_policy io fresh = Returned true s1
  /\ smart_audio_capture (capture io) s1 = Returned true s2
  /\ preprocess_audio_efficient s2 = Returned true s3
  /\ total_inferences (metrics (final (run io fresh))) = 1
  /\ last_activity_time (final (run io fresh)) = 1000.
Proof.
  cbv zeta.
  assert (H1 : run_policy (loud_cycle 1000) fresh
               = Returned true (final (run_policy (loud_cycle 1000) fresh)))
    by (vm_compute; reflexivity).
  assert (H2 : smart_audio_capture (capture (loud_cycle 1000))
                 (final (run_policy (loud_cycle 1000) fresh))
               = Returned true
                   (final (smart_audio_capture (capture (loud_cycle 1000))
                             (final (run_policy (loud_cycle 1000) fresh)))))
    by (vm_compute; reflexivity).
  assert (H3 : preprocess_audio_efficient
                 (final (smart_audio_capture (capture (loud_cycle 1000))
                           (final (run_policy (loud_cycle 1000) fresh))))
               = Returned true
                   (final (preprocess_audio_efficient
                      (final (smart_audio_capture (capture (loud_cycle 1000))
                                (final (run_policy (loud_cycle 1000) fresh)))))))
    by (vm_compute; reflexivity).
  destruct (voiced_cycle_counts_inference _ fresh _ _ _ eq_refl H1 H2 H3)
    as (T & _ & A & _).
  split; [reflexivity | split; [exact H1 | split; [exact H2 | split; [exact H3 | ]]]].
  split; [rewrite T; reflexivity | rewrite A; reflexivity].
Defined.

End FurtherWitnesses.
